(** * furniture_bot.py: the catalogue, the cart, the order ledger and the
      conversation state machine of the furniture shop bot.

    The development embeds [Database] (the five SQLite tables and the
    queries the bot issues), [FurnitureBot] (every handler of the dialog) and
    the dispatch table of the [ConversationHandler] built in [main], and
    proves properties of carts, orders, deletion, cancellation and input
    validation.

    Modelling conventions.
    - A Python [str] is the list of its code points ([pystr]); [len] is
      [length].
    - A Python [float] is an IEEE 754 binary64 value, [spec_float] with
      precision 53 and maximal exponent 1024; the arithmetic is the one of
      the Standard Library's [SpecFloat].
    - A table is the list of its rows in rowid order.  A query with an
      ORDER BY returns its rows sorted, rows that rank alike in rowid
      order; the cart read, which has none, returns the cart rows of the
      user in the order of the index of the primary key.  A REAL column
      holds the float that was bound to it; SQLite stores a NaN binding
      as NULL, so [S754_nan] in such a column stands for NULL.
    - The quantity of a cart row is a 64-bit integer, or, once a sum has
      left the 64 bits, the REAL SQLite keeps in its place: a whole number,
      which the model holds by its value, so that a quantity outside the
      64 bits is such a REAL (the REAL -2^63, which a sum below the 64 bits
      can leave, is not told from the integer).  Identifiers are the
      integers Telegram and SQLite hand out.
    - [callback_data] strings are modelled by the constructors of
      [Callback], one per button the keyboards of the bot produce.
    - The updates of the model are new messages and presses of such
      buttons.  An edited message, which the handlers of messages and
      commands admit as well and on which they fail at [update.message],
      and callback data that no keyboard of the bot produces are not in
      the model.
    - Calls into the chat transport ([query.answer], [edit_message_text],
      [reply_text], [send_message]) are taken to return normally; what they
      send is logged in the field [sent] of the world. *)

From Stdlib Require Import ZArith NArith Bool List String Ascii Lia Sorted.
From Stdlib Require Import Floats.SpecFloat.
From stdpp Require Import base list gmap.

Open Scope Z_scope.

(** ** Python strings *)

Definition pystr := list N.

Fixpoint str_of (s : string) : pystr :=
  match s with
  | EmptyString => []
  | String a r => N_of_ascii a :: str_of r
  end.

(** [str.isspace] on one code point: the white space of the Unicode
    database that [str.strip()] removes. *)
Definition py_isspace (c : N) : bool :=
  ((9 <=? c) && (c <=? 13) || (28 <=? c) && (c <=? 32) || (c =? 133)
   || (c =? 160) || (c =? 5760) || (8192 <=? c) && (c <=? 8202)
   || (c =? 8232) || (c =? 8233) || (c =? 8239) || (c =? 8287)
   || (c =? 12288))%N.

(** [Py_ISSPACE]: the white space [float()] strips from the ASCII form of
    its argument. *)
Definition c_isspace (c : N) : bool :=
  ((9 <=? c) && (c <=? 13) || (c =? 32))%N.

Fixpoint lstrip_with (sp : N -> bool) (s : pystr) : pystr :=
  match s with
  | c :: r => if sp c then lstrip_with sp r else s
  | [] => []
  end.

Definition strip_with (sp : N -> bool) (s : pystr) : pystr :=
  rev (lstrip_with sp (rev (lstrip_with sp s))).

(** [s.strip()] *)
Definition strip (s : pystr) : pystr := strip_with py_isspace s.

(** [s.replace(" ", "")] *)
Definition remove_spaces (s : pystr) : pystr :=
  List.filter (fun c => negb (c =? 32)%N) s.

(** [s.replace(",", ".")] *)
Definition commas_to_dots (s : pystr) : pystr :=
  map (fun c => if (c =? 44)%N then 46%N else c) s.

(** ** Python floats *)

Definition pyfloat := spec_float.
Definition prec : Z := 53.
Definition emax : Z := 1024.

Definition fadd : pyfloat -> pyfloat -> pyfloat := SFadd prec emax.
Definition fmul : pyfloat -> pyfloat -> pyfloat := SFmul prec emax.
Definition fzero : pyfloat := S754_zero false.

(** [x <= 0] and [x > 0] on floats; both are false on NaN. *)
Definition fle0 (x : pyfloat) : bool := SFleb x fzero.
Definition fgt0 (x : pyfloat) : bool := SFltb fzero x.

Definition is_nan (x : pyfloat) : bool :=
  match x with S754_nan => true | _ => false end.

(** The conversion of an [int] operand in mixed arithmetic, rounded to the
    nearest float; the operands converted are quantities read from the
    cart table, which are far below the range where Python raises
    [OverflowError]. *)
Definition float_of_int (n : Z) : pyfloat := binary_normalize prec emax n 0 false.

(** The float nearest to [m * 10^e10], ties to even: what the string
    conversion of [float()] returns for a decimal numeral with digits [m]
    and decimal exponent [e10]. *)
Definition decimal_to_float (neg : bool) (m : N) (e10 : Z) : pyfloat :=
  match m with
  | N0 => S754_zero neg
  | Npos p =>
      match e10 with
      | Zneg k =>
          let '(q, e', l) :=
            SFdiv_core_binary prec emax (Zpos p) 0 (Zpos (10 ^ k)) 0 in
          binary_round_aux prec emax neg q e' l
      | _ => binary_round prec emax neg (p * Z.to_pos (10 ^ e10)) 0
      end
  end.

Section PyFloatOfStr.

(** [Py_UNICODE_TODECIMAL]: the decimal digit value of a code point in the
    Unicode database of the interpreter, consulted by [float()] for the
    code points that are not ASCII. *)
Variable unicode_decimal : N -> option N.

(** The ASCII form of a code point: itself when it is ASCII, a space for
    white space, the ASCII digit for a decimal digit. *)
Definition to_ascii (c : N) : option N :=
  if (c <? 128)%N then Some c
  else if py_isspace c then Some 32%N
  else (fun d => 48 + d)%N <$> unicode_decimal c.

Fixpoint transform_to_ascii (s : pystr) : option pystr :=
  match s with
  | [] => Some []
  | c :: r =>
      match to_ascii c, transform_to_ascii r with
      | Some a, Some r' => Some (a :: r')
      | _, _ => None
      end
  end.

Definition is_digit (c : N) : bool := ((48 <=? c) && (c <=? 57))%N.

(** Underscores are dropped when each stands between two digits. *)
Fixpoint drop_underscores (prev : N) (s : pystr) : option pystr :=
  match s with
  | [] => if (prev =? 95)%N then None else Some []
  | c :: r =>
      if (c =? 95)%N then
        if is_digit prev then drop_underscores c r else None
      else if (prev =? 95)%N && negb (is_digit c) then None
      else cons c <$> drop_underscores c r
  end.

(** The leading digits of [s], most significant first, and the rest. *)
Fixpoint span_digits (s : pystr) : list N * pystr :=
  match s with
  | c :: r =>
      if is_digit c then
        let '(ds, rest) := span_digits r in ((c - 48)%N :: ds, rest)
      else ([], s)
  | [] => ([], [])
  end.

Definition digits_value (ds : list N) : N :=
  fold_left (fun acc d => (10 * acc + d)%N) ds 0%N.

Definition take_sign (s : pystr) : bool * pystr :=
  match s with
  | 45%N :: r => (true, r)
  | 43%N :: r => (false, r)
  | _ => (false, s)
  end.

Definition lower (c : N) : N :=
  if ((65 <=? c) && (c <=? 90))%N then (c + 32)%N else c.

Definition pystr_eqb (a b : pystr) : bool := bool_decide (a = b).

(** [floatnumber]: digits with an optional fraction and an optional
    exponent, at least one digit in the mantissa. *)
Definition parse_number (neg : bool) (s : pystr) : option pyfloat :=
  let '(ip, r1) := span_digits s in
  let '(fp, r2) :=
    match r1 with
    | 46%N :: t => span_digits t
    | _ => ([], r1)
    end in
  let mant := digits_value (ip ++ fp) in
  let scale := - Z.of_nat (length fp) in
  match ip ++ fp with
  | [] => None
  | _ :: _ =>
      match r2 with
      | [] => Some (decimal_to_float neg mant scale)
      | c :: t =>
          if ((c =? 101) || (c =? 69))%N then
            let '(eneg, t') := take_sign t in
            match span_digits t' with
            | (d :: ds, []) =>
                let ev := Z.of_N (digits_value (d :: ds)) in
                Some (decimal_to_float neg mant
                        ((if eneg then - ev else ev) + scale))
            | _ => None
            end
          else None
      end
  end.

(** [float(s)] for a [str] argument; [None] is [ValueError]. *)
Definition py_float (s : pystr) : option pyfloat :=
  match transform_to_ascii s with
  | None => None
  | Some a =>
      match (if bool_decide (95%N ∈ a) then drop_underscores 0%N a else Some a) with
      | None => None
      | Some b =>
          let '(neg, body) := take_sign (strip_with c_isspace b) in
          let low := map lower body in
          if pystr_eqb low (str_of "inf") || pystr_eqb low (str_of "infinity")
          then Some (S754_infinity neg)
          else if pystr_eqb low (str_of "nan") then Some S754_nan
          else parse_number neg body
      end
  end.

End PyFloatOfStr.

(** ** The data classes and the rows of the tables *)

(** [class Product]; [id] is [None] until the product is first saved. *)
Record Product := {
  p_id : option Z;
  p_name : pystr;
  p_description : pystr;
  p_price : pyfloat;
  p_category : pystr;
  p_images : list pystr;
  p_created_at : option Z;
  p_is_active : bool }.

(** [Product()] *)
Definition new_Product : Product :=
  {| p_id := None; p_name := []; p_description := []; p_price := fzero;
     p_category := []; p_images := []; p_created_at := None;
     p_is_active := true |}.

(** [class User] *)
Record User := {
  u_id : Z;
  u_username : option pystr;
  u_first_name : option pystr;
  u_last_name : option pystr;
  u_phone : option pystr;
  u_is_admin : bool;
  u_created_at : option Z }.

(** [class CartItem] *)
Record CartItem := {
  product_id : Z;
  quantity : Z;
  product_name : pystr;
  product_price : pyfloat }.

(** A row of [products]. *)
Record product_row := {
  pr_id : Z;
  pr_name : pystr;
  pr_description : pystr;
  pr_price : pyfloat;
  pr_category : pystr;
  pr_images : list pystr;
  pr_created_at : Z;
  pr_is_active : bool }.

(** A row of [cart]. *)
Record cart_row := {
  c_user_id : Z;
  c_product_id : Z;
  c_quantity : Z }.

(** One element of the [products] JSON array of an order: the dictionary
    [finish_order] builds for a cart item. *)
Record order_product := {
  op_product_id : Z;
  op_name : pystr;
  op_price : pyfloat;
  op_quantity : Z;
  op_total : pyfloat }.

(** A row of [orders]. *)
Record order_row := {
  o_id : Z;
  o_user_id : Z;
  o_products : list order_product;
  o_total_amount : pyfloat;
  o_phone : pystr;
  o_address : pystr;
  o_comment : pystr;
  o_status : pystr;
  o_created_at : Z }.

(** A row of [categories]. *)
Record category_row := {
  cat_name : pystr;
  cat_description : pystr;
  cat_emoji : pystr }.

(** The database file: the five tables, and for the two AUTOINCREMENT
    tables the largest rowid handed out so far ([sqlite_sequence]). *)
Record Database := {
  users : list User;
  products : list product_row;
  products_seq : Z;
  cart : list cart_row;
  orders : list order_row;
  orders_seq : Z;
  categories : list category_row }.

Definition set_users (f : list User -> list User) (d : Database) : Database :=
  {| users := f (users d); products := products d;
     products_seq := products_seq d; cart := cart d; orders := orders d;
     orders_seq := orders_seq d; categories := categories d |}.

Definition set_products (f : list product_row -> list product_row)
    (seq : Z) (d : Database) : Database :=
  {| users := users d; products := f (products d); products_seq := seq;
     cart := cart d; orders := orders d; orders_seq := orders_seq d;
     categories := categories d |}.

Definition set_cart (f : list cart_row -> list cart_row) (d : Database) : Database :=
  {| users := users d; products := products d;
     products_seq := products_seq d; cart := f (cart d); orders := orders d;
     orders_seq := orders_seq d; categories := categories d |}.

Definition set_orders (f : list order_row -> list order_row)
    (seq : Z) (d : Database) : Database :=
  {| users := users d; products := products d;
     products_seq := products_seq d; cart := cart d; orders := f (orders d);
     orders_seq := seq; categories := categories d |}.

(** A stable sort, for the queries that order their rows: the rows come
    out in the order [R], and rows that [R] ranks alike come out in the
    order they came in. *)
Section StableSort.

Context {A : Type} (R : A -> A -> Prop) `{!RelDecision R}.

Fixpoint insert_by (x : A) (l : list A) : list A :=
  match l with
  | [] => [x]
  | y :: l' => if decide (R x y) then x :: l else y :: insert_by x l'
  end.

Definition sort_by (l : list A) : list A := foldr insert_by [] l.

End StableSort.

(** The rowid an AUTOINCREMENT table gives its next row: one more than the
    largest rowid the table has ever held. *)
Definition next_rowid (seq : Z) (ids : list Z) : Z :=
  fold_right Z.max seq ids + 1.

(** The order of TEXT values under the BINARY collation: code point by
    code point, a prefix first. *)
Fixpoint pystr_leb (a b : pystr) : bool :=
  match a, b with
  | [], _ => true
  | _ :: _, [] => false
  | x :: a', y :: b' =>
      if (x <? y)%N then true
      else if (x =? y)%N then pystr_leb a' b' else false
  end.

(** [ORDER BY name] *)
Definition name_le (a b : category_row) : Prop :=
  pystr_leb (cat_name a) (cat_name b) = true.

#[global] Instance name_le_dec : RelDecision name_le.
Proof. intros a b. unfold name_le. apply _. Defined.

Definition set_categories (f : list category_row -> list category_row)
    (d : Database) : Database :=
  {| users := users d; products := products d;
     products_seq := products_seq d; cart := cart d; orders := orders d;
     orders_seq := orders_seq d; categories := f (categories d) |}.

(** A database file that does not exist yet: every table is created
    empty. *)
Definition new_database : Database :=
  {| users := []; products := []; products_seq := 0; cart := [];
     orders := []; orders_seq := 0; categories := [] |}.

(** The categories [init_db] inserts. *)
Definition base_categories : list category_row :=
  [{| cat_name := [1044; 1080; 1074; 1072; 1085; 1099; 32; 1080; 32; 1082; 1088; 1077; 1089; 1083; 1072]%N;
     cat_description := [1052; 1103; 1075; 1082; 1072; 1103; 32; 1084; 1077; 1073; 1077; 1083; 1100; 32; 1076; 1083; 1103; 32; 1075; 1086; 1089; 1090; 1080; 1085; 1086; 1081]%N;
     cat_emoji := [128715; 65039]%N |};
  {| cat_name := [1057; 1090; 1086; 1083; 1099; 32; 1080; 32; 1089; 1090; 1091; 1083; 1100; 1103]%N;
     cat_description := [1052; 1077; 1073; 1077; 1083; 1100; 32; 1076; 1083; 1103; 32; 1082; 1091; 1093; 1085; 1080; 32; 1080; 32; 1089; 1090; 1086; 1083; 1086; 1074; 1086; 1081]%N;
     cat_emoji := [129681]%N |};
  {| cat_name := [1064; 1082; 1072; 1092; 1099; 32; 1080; 32; 1082; 1086; 1084; 1086; 1076; 1099]%N;
     cat_description := [1052; 1077; 1073; 1077; 1083; 1100; 32; 1076; 1083; 1103; 32; 1093; 1088; 1072; 1085; 1077; 1085; 1080; 1103]%N;
     cat_emoji := [128452; 65039]%N |};
  {| cat_name := [1050; 1088; 1086; 1074; 1072; 1090; 1080]%N;
     cat_description := [1052; 1077; 1073; 1077; 1083; 1100; 32; 1076; 1083; 1103; 32; 1089; 1087; 1072; 1083; 1100; 1085; 1080]%N;
     cat_emoji := [128719; 65039]%N |};
  {| cat_name := [1044; 1077; 1090; 1089; 1082; 1072; 1103; 32; 1084; 1077; 1073; 1077; 1083; 1100]%N;
     cat_description := [1052; 1077; 1073; 1077; 1083; 1100; 32; 1076; 1083; 1103; 32; 1076; 1077; 1090; 1089; 1082; 1080; 1093; 32; 1082; 1086; 1084; 1085; 1072; 1090]%N;
     cat_emoji := [127912]%N |};
  {| cat_name := [1054; 1092; 1080; 1089; 1085; 1072; 1103; 32; 1084; 1077; 1073; 1077; 1083; 1100]%N;
     cat_description := [1052; 1077; 1073; 1077; 1083; 1100; 32; 1076; 1083; 1103; 32; 1088; 1072; 1073; 1086; 1090; 1099]%N;
     cat_emoji := [128188]%N |}].

(** [INSERT OR IGNORE INTO categories]: the row is dropped when a row
    holds its name, which is UNIQUE. *)
Definition insert_or_ignore_category (rows : list category_row)
    (c : category_row) : list category_row :=
  if existsb (fun r => bool_decide (cat_name r = cat_name c)) rows
  then rows else rows ++ [c].

(** [executemany] over a list of categories *)
Definition insert_categories (cs rows : list category_row) : list category_row :=
  fold_left insert_or_ignore_category cs rows.

(** [init_db]: the tables that exist are kept as they are
    ([CREATE TABLE IF NOT EXISTS]), the base categories are inserted. *)
Definition init_db (d : Database) : Database :=
  set_categories (insert_categories base_categories) d.

(** ** class Database *)

(** [get_user]: [SELECT * FROM users WHERE id = ?], first row. *)
Definition get_user (d : Database) (user_id : Z) : option User :=
  List.find (fun r => u_id r =? user_id) (users d).

(** [save_user]: [INSERT OR REPLACE INTO users]; the row that holds the
    same primary key is deleted, the new row gets the current time. *)
Definition save_user (now : Z) (user : User) (d : Database) : Database :=
  set_users (fun rows =>
    List.filter (fun r => negb (u_id r =? u_id user)) rows ++
    [{| u_id := u_id user; u_username := u_username user;
        u_first_name := u_first_name user; u_last_name := u_last_name user;
        u_phone := u_phone user; u_is_admin := u_is_admin user;
        u_created_at := Some now |}]) d.

(** [get_categories]: every row of the table, [ORDER BY name]. *)
Definition get_categories (d : Database) : list category_row :=
  sort_by name_le (categories d).

Definition Product_of_row (r : product_row) : Product :=
  {| p_id := Some (pr_id r); p_name := pr_name r;
     p_description := pr_description r; p_price := pr_price r;
     p_category := pr_category r; p_images := pr_images r;
     p_created_at := Some (pr_created_at r); p_is_active := pr_is_active r |}.

(** [ORDER BY created_at DESC]; rows of one [created_at] stay in rowid
    order. *)
Definition newer_or_same (a b : product_row) : Prop :=
  pr_created_at b <= pr_created_at a.

#[global] Instance newer_or_same_dec : RelDecision newer_or_same.
Proof. intros a b. unfold newer_or_same. apply _. Defined.

(** The rows [get_products_by_category] selects:
    [WHERE category = ? AND is_active = TRUE ORDER BY created_at DESC]. *)
Definition select_products_by_category (d : Database) (category : pystr)
    : list product_row :=
  sort_by newer_or_same
    (List.filter (fun r => bool_decide (pr_category r = category) && pr_is_active r)
       (products d)).

Definition get_products_by_category (d : Database) (category : pystr)
    : list Product :=
  map Product_of_row (select_products_by_category d category).

(** [get_product_by_id]: [WHERE id = ?], first row; the row is returned
    whatever its [is_active]. *)
Definition get_product_by_id (d : Database) (pid : Z) : option Product :=
  Product_of_row <$> List.find (fun r => pr_id r =? pid) (products d).

(** The INSERT of [save_product]: one row is appended under the next
    rowid.  [None] is the [sqlite3.IntegrityError] of the NOT NULL
    constraint on [price], which a NaN price, bound as NULL, violates. *)
Definition insert_product (now : Z) (product : Product) (d : Database)
    : option (Z * Database) :=
  if is_nan (p_price product) then None
  else
    let i' := next_rowid (products_seq d) (map pr_id (products d)) in
    Some (i', set_products (fun rows => rows ++
      [{| pr_id := i'; pr_name := p_name product;
          pr_description := p_description product;
          pr_price := p_price product; pr_category := p_category product;
          pr_images := p_images product; pr_created_at := now;
          pr_is_active := p_is_active product |}]) i' d).

(** The UPDATE of [save_product]: the rows of the id are rewritten, and
    the id is returned whether a row holds it or not.  The NOT NULL
    constraint is checked on the rows the UPDATE rewrites: a NaN price
    raises when a row holds the id, and passes when none does. *)
Definition update_product (i : Z) (product : Product) (d : Database)
    : option (Z * Database) :=
  if is_nan (p_price product) && existsb (fun r => pr_id r =? i) (products d)
  then None
  else
    Some (i, set_products (map (fun r =>
      if pr_id r =? i then
        {| pr_id := pr_id r; pr_name := p_name product;
           pr_description := p_description product;
           pr_price := p_price product; pr_category := p_category product;
           pr_images := p_images product; pr_created_at := pr_created_at r;
           pr_is_active := p_is_active product |}
      else r)) (products_seq d) d).

(** [save_product]: UPDATE when [product.id] is truthy, INSERT otherwise. *)
Definition save_product (now : Z) (product : Product) (d : Database)
    : option (Z * Database) :=
  match p_id product with
  | Some i => if i =? 0 then insert_product now product d
              else update_product i product d
  | None => insert_product now product d
  end.

Definition deactivate (r : product_row) : product_row :=
  {| pr_id := pr_id r; pr_name := pr_name r; pr_description := pr_description r;
     pr_price := pr_price r; pr_category := pr_category r;
     pr_images := pr_images r; pr_created_at := pr_created_at r;
     pr_is_active := false |}.

(** [delete_product]: [UPDATE products SET is_active = FALSE WHERE id = ?] *)
Definition delete_product (pid : Z) (d : Database) : Database :=
  set_products (map (fun r => if pr_id r =? pid then deactivate r else r))
    (products_seq d) d.

(** The order of the primary key [(user_id, product_id)] of [cart] among
    the rows of one user. *)
Definition by_product_id (a b : cart_row) : Prop :=
  c_product_id a <= c_product_id b.

#[global] Instance by_product_id_dec : RelDecision by_product_id.
Proof. intros a b. unfold by_product_id. apply _. Defined.

(** [get_cart_items]: the join of the user's cart rows with the active
    products of the same id.  The query has no ORDER BY: the cart rows of
    the user are found through the index of the primary key, that is in
    the order of their product ids. *)
Definition get_cart_items (d : Database) (user_id : Z) : list CartItem :=
  flat_map (fun c =>
    map (fun p =>
           {| product_id := c_product_id c; quantity := c_quantity c;
              product_name := pr_name p; product_price := pr_price p |})
      (List.filter (fun p => (pr_id p =? c_product_id c) && pr_is_active p)
         (products d)))
    (sort_by by_product_id
       (List.filter (fun c => c_user_id c =? user_id) (cart d))).

Definition cart_key (user_id pid : Z) (c : cart_row) : bool :=
  (c_user_id c =? user_id) && (c_product_id c =? pid).

(** [COALESCE((SELECT quantity FROM cart WHERE user_id = ? AND product_id = ?), 0)] *)
Definition cart_quantity (d : Database) (user_id pid : Z) : Z :=
  match List.find (cart_key user_id pid) (cart d) with
  | Some c => c_quantity c
  | None => 0
  end.

(** The integers SQLite stores and [sqlite3] binds: 64 bits, signed. *)
Definition int64 (z : Z) : bool := (- 2 ^ 63 <=? z) && (z <? 2 ^ 63).

(** The REAL nearest to a whole number, ties to even: a REAL keeps the 53
    leading bits.  (The whole numbers met here are far below the largest
    REAL.) *)
Definition real_of_int (z : Z) : Z :=
  let m := Z.abs z in
  let e := Z.log2 m - 52 in
  if e <=? 0 then z
  else
    let q := m / 2 ^ e in
    let r := m mod 2 ^ e in
    let up := (2 ^ (e - 1) <? r) || ((2 ^ (e - 1) =? r) && Z.odd q) in
    Z.sgn z * ((if up then q + 1 else q) * 2 ^ e).

(** [a + b] as SQLite computes it for the value [a] of an INTEGER column
    and a bound integer [b]: the integer sum when [a] is an integer and
    the sum fits the 64 bits; the sum of the two as REALs otherwise, which
    the column keeps as a REAL. *)
Definition sql_add (a b : Z) : Z :=
  if int64 a && int64 (a + b) then a + b
  else real_of_int (real_of_int a + real_of_int b).

(** [add_to_cart]: [INSERT OR REPLACE INTO cart]; the rows that hold the
    same primary key are deleted and one row with the summed quantity is
    inserted.  [sqlite3] refuses to bind a quantity outside the 64 bits
    ([OverflowError]): nothing is written then. *)
Definition add_to_cart (user_id pid qty : Z) (d : Database) : Database :=
  if int64 qty then
    set_cart (fun rows =>
      List.filter (fun c => negb (cart_key user_id pid c)) rows ++
      [{| c_user_id := user_id; c_product_id := pid;
          c_quantity := sql_add (cart_quantity d user_id pid) qty |}]) d
  else d.

(** [remove_from_cart] *)
Definition remove_from_cart (user_id pid : Z) (d : Database) : Database :=
  set_cart (List.filter (fun c => negb (cart_key user_id pid c))) d.

(** [clear_cart] *)
Definition clear_cart (user_id : Z) (d : Database) : Database :=
  set_cart (List.filter (fun c => negb (c_user_id c =? user_id))) d.

(** [create_order]: one row is appended, with the default status. *)
Definition create_order (now : Z) (user_id : Z) (prods : list order_product)
    (total : pyfloat) (phone address comment : pystr) (d : Database)
    : Z * Database :=
  let i := next_rowid (orders_seq d) (map o_id (orders d)) in
  (i, set_orders (fun rows => rows ++
        [{| o_id := i; o_user_id := user_id; o_products := prods;
            o_total_amount := total; o_phone := phone; o_address := address;
            o_comment := comment; o_status := str_of "new";
            o_created_at := now |}]) i d).

(** ** The dialog: states, updates, session data *)

(** The seventeen state constants, in the order of [range(17)]. *)
Inductive DialogState :=
  | MAIN_MENU | CATALOG | PRODUCT_VIEW | ADMIN_MENU | ADD_PRODUCT
  | EDIT_PRODUCT | WAITING_NAME | WAITING_DESCRIPTION | WAITING_PRICE
  | WAITING_CATEGORY | WAITING_IMAGES | WAITING_EDIT_FIELD | USER_PROFILE
  | CART_VIEW | ORDER_PHONE | ORDER_ADDRESS | ORDER_COMMENT.

#[global] Instance DialogState_eq_dec : EqDecision DialogState.
Proof. solve_decision. Defined.

(** The [callback_data] of the buttons the keyboards carry. *)
Inductive Callback :=
  | cb_catalog                          (* "catalog" *)
  | cb_cart                             (* "cart" *)
  | cb_profile                          (* "profile" *)
  | cb_admin                            (* "admin" *)
  | cb_main_menu                        (* "main_menu" *)
  | cb_category (category : pystr)      (* "category_<name>" *)
  | cb_products (category : pystr) (page : nat)  (* "products_<name>_<page>" *)
  | cb_product (pid : Z)                (* "product_<id>" *)
  | cb_add_cart (pid : Z)               (* "add_cart_<id>" *)
  | cb_back_to_products                 (* "back_to_products" *)
  | cb_edit_product (pid : Z)           (* "edit_product_<id>" *)
  | cb_delete_product (pid : Z)         (* "delete_product_<id>" *)
  | cb_confirm_delete (pid : Z)         (* "confirm_delete_<id>" *)
  | cb_checkout                         (* "checkout" *)
  | cb_clear_cart                       (* "clear_cart" *)
  | cb_change_phone                     (* "change_phone" *)
  | cb_add_product                      (* "add_product" *)
  | cb_manage_products                  (* "manage_products" *)
  | cb_admin_stats                      (* "admin_stats" *)
  | cb_admin_orders                     (* "admin_orders" *)
  | cb_select_cat (category : pystr)    (* "select_cat_<name>" *)
  | cb_finish_images                    (* "finish_images" *)
  | cb_add_comment                      (* "add_comment" *)
  | cb_finish_order.                    (* "finish_order" *)

(** What an update carries, by the filter that admits it. *)
Inductive Event :=
  | cmd_start                    (* the command /start *)
  | cmd_cancel                   (* the command /cancel *)
  | cmd_other                    (* any other command *)
  | Text (text : pystr)          (* filters.TEXT & ~filters.COMMAND *)
  | Photo (file_id : pystr)      (* filters.PHOTO *)
  | Button (data : Callback)     (* a callback query *)
  | other_message.               (* a message no filter of the bot admits *)

(** [update.effective_user] *)
Record TgUser := {
  tg_id : Z;
  tg_username : option pystr;
  tg_first_name : pystr;
  tg_last_name : option pystr }.

(** One delivered update, with the time of the database clock. *)
Record Update := {
  upd_time : Z;
  upd_user : TgUser;
  upd_event : Event }.

(** [context.user_data]: the keys the handlers store under; an absent key
    is [None]. *)
Record UserData := {
  current_category : option pystr;
  current_product : option Z;
  order_items : option (list CartItem);
  order_phone : option pystr;
  order_address : option pystr;
  order_comment : option pystr;
  new_product : option Product }.

Definition empty_data : UserData :=
  {| current_category := None; current_product := None; order_items := None;
     order_phone := None; order_address := None; order_comment := None;
     new_product := None |}.

Definition set_current_category (v : option pystr) (u : UserData) : UserData :=
  {| current_category := v; current_product := current_product u;
     order_items := order_items u; order_phone := order_phone u;
     order_address := order_address u; order_comment := order_comment u;
     new_product := new_product u |}.

Definition set_current_product (v : option Z) (u : UserData) : UserData :=
  {| current_category := current_category u; current_product := v;
     order_items := order_items u; order_phone := order_phone u;
     order_address := order_address u; order_comment := order_comment u;
     new_product := new_product u |}.

Definition set_order_items (v : option (list CartItem)) (u : UserData) : UserData :=
  {| current_category := current_category u;
     current_product := current_product u;
     order_items := v; order_phone := order_phone u;
     order_address := order_address u; order_comment := order_comment u;
     new_product := new_product u |}.

Definition set_order_phone (v : option pystr) (u : UserData) : UserData :=
  {| current_category := current_category u;
     current_product := current_product u;
     order_items := order_items u; order_phone := v;
     order_address := order_address u; order_comment := order_comment u;
     new_product := new_product u |}.

Definition set_order_address (v : option pystr) (u : UserData) : UserData :=
  {| current_category := current_category u;
     current_product := current_product u;
     order_items := order_items u; order_phone := order_phone u;
     order_address := v; order_comment := order_comment u;
     new_product := new_product u |}.

Definition set_order_comment (v : option pystr) (u : UserData) : UserData :=
  {| current_category := current_category u;
     current_product := current_product u;
     order_items := order_items u; order_phone := order_phone u;
     order_address := order_address u; order_comment := v;
     new_product := new_product u |}.

Definition set_new_product (v : option Product) (u : UserData) : UserData :=
  {| current_category := current_category u;
     current_product := current_product u;
     order_items := order_items u; order_phone := order_phone u;
     order_address := order_address u; order_comment := order_comment u;
     new_product := v |}.

(** What the bot sends: the alerts of [query.answer(..., show_alert=True)]
    and the screens of [edit_message_text] and [reply_text], each by the
    text it shows and the data placed in it. *)
Inductive Reply :=
  | alert_not_found           (* "Товар не найден" *)
  | alert_added (name : pystr)
  | alert_cart_error
  | alert_cart_cleared
  | alert_cart_empty
  | alert_no_access           (* "Нет доступа" *)
  | alert_deleted
  | scr_welcome
  | scr_cancelled
  | scr_main_menu
  | scr_catalog
  | scr_category (category : pystr) (shown : list Product)
  | scr_product_not_found
  | scr_product (p : Product) (admin : bool)
  | scr_cart (items : list CartItem) (total : pyfloat)
  | scr_ask_phone
  | scr_bad_phone
  | scr_ask_address
  | scr_bad_address
  | scr_ask_comment
  | scr_enter_comment
  | scr_comment_added
  | scr_order_empty
  | scr_order_done (order_id : Z) (total : pyfloat)
  | scr_new_order (order_id : Z)
  | scr_profile (u : User)
  | scr_admin_menu
  | scr_manage_products
  | scr_stats (n_products n_users n_orders : nat)
  | scr_orders
  | scr_ask_name
  | scr_bad_name
  | scr_ask_description
  | scr_bad_description
  | scr_ask_price
  | scr_bad_price
  | scr_ask_category (price : pyfloat)
  | scr_ask_images (category : pystr)
  | scr_image_added (count : nat)
  | scr_not_image
  | scr_no_draft
  | scr_product_saved (pid : Z)
  | scr_save_error
  | scr_confirm_delete (p : Product).

(** What a handler works on: the database, the [user_data] of the acting
    user, and the messages sent so far, each with its chat. *)
Record Ctx := {
  cx_db : Database;
  cx_data : UserData;
  cx_sent : list (Z * Reply) }.

Definition with_db (f : Database -> Database) (c : Ctx) : Ctx :=
  {| cx_db := f (cx_db c); cx_data := cx_data c; cx_sent := cx_sent c |}.

Definition with_data (f : UserData -> UserData) (c : Ctx) : Ctx :=
  {| cx_db := cx_db c; cx_data := f (cx_data c); cx_sent := cx_sent c |}.

Definition send (chat : Z) (r : Reply) (c : Ctx) : Ctx :=
  {| cx_db := cx_db c; cx_data := cx_data c;
     cx_sent := cx_sent c ++ [(chat, r)] |}.

(** A handler returns the next state; [None] is an exception that escapes
    the handler, which leaves the conversation in its state. *)
Definition Outcome : Type := Ctx * option DialogState.

(** ** class FurnitureBot *)

Section FurnitureBot.

(** The identifiers read from the environment variable [ADMIN_IDS]. *)
Variable ADMIN_IDS : list Z.

Variable unicode_decimal : N -> option N.

(** [is_admin] *)
Definition is_admin (d : Database) (user_id : Z) : bool :=
  bool_decide (user_id ∈ ADMIN_IDS)
  || match get_user d user_id with
     | Some user => u_is_admin user
     | None => false
     end.

(** The page [products[page*10 : page*10 + 10]] of [get_products_keyboard]. *)
Definition products_page (d : Database) (category : pystr) (page : nat)
    : list Product :=
  take 10 (drop (page * 10)%nat (get_products_by_category d category)).

(** [start] *)
Definition start (u : Update) (c : Ctx) : Outcome :=
  let user := upd_user u in
  let db_user :=
    {| u_id := tg_id user; u_username := tg_username user;
       u_first_name := Some (tg_first_name user);
       u_last_name := tg_last_name user; u_phone := None;
       u_is_admin := bool_decide (tg_id user ∈ ADMIN_IDS);
       u_created_at := None |} in
  let c := with_db (save_user (upd_time u) db_user) c in
  (send (tg_id user) scr_welcome c, Some MAIN_MENU).

(** [main_menu] *)
Definition main_menu (u : Update) (c : Ctx) : Outcome :=
  (send (tg_id (upd_user u)) scr_main_menu c, Some MAIN_MENU).

(** [catalog] *)
Definition catalog (u : Update) (c : Ctx) : Outcome :=
  (send (tg_id (upd_user u)) scr_catalog c, Some CATALOG).

(** [show_category], for "category_<name>" (page 0) and
    "products_<name>_<page>". *)
Definition show_category (category : pystr) (page : nat) (u : Update)
    (c : Ctx) : Outcome :=
  let c := with_data (set_current_category (Some category)) c in
  (send (tg_id (upd_user u))
     (scr_category category (products_page (cx_db c) category page)) c,
   Some CATALOG).

(** [show_product] *)
Definition show_product (pid : Z) (u : Update) (c : Ctx) : Outcome :=
  let uid := tg_id (upd_user u) in
  match get_product_by_id (cx_db c) pid with
  | None => (send uid scr_product_not_found c, Some CATALOG)
  | Some product =>
      let c := with_data (set_current_product (Some pid)) c in
      (send uid (scr_product product (is_admin (cx_db c) uid)) c,
       Some PRODUCT_VIEW)
  end.

(** [FurnitureBot.add_to_cart] *)
Definition bot_add_to_cart (pid : Z) (u : Update) (c : Ctx) : Outcome :=
  let user_id := tg_id (upd_user u) in
  match get_product_by_id (cx_db c) pid with
  | None => (send user_id alert_not_found c, Some PRODUCT_VIEW)
  | Some product =>
      let c := with_db (add_to_cart user_id pid 1) c in
      (send user_id (alert_added (p_name product)) c, Some PRODUCT_VIEW)
  end.

(** The total [show_cart] and [finish_order] accumulate:
    [total = 0], then [total += item.product_price * item.quantity]. *)
Definition items_total (items : list CartItem) : pyfloat :=
  fold_left
    (fun total item =>
       fadd total (fmul (product_price item) (float_of_int (quantity item))))
    items fzero.

(** [show_cart] *)
Definition show_cart (u : Update) (c : Ctx) : Outcome :=
  let user_id := tg_id (upd_user u) in
  let cart_items := get_cart_items (cx_db c) user_id in
  (send user_id (scr_cart cart_items (items_total cart_items)) c,
   Some CART_VIEW).

(** [FurnitureBot.clear_cart] *)
Definition bot_clear_cart (u : Update) (c : Ctx) : Outcome :=
  let user_id := tg_id (upd_user u) in
  let c := with_db (clear_cart user_id) c in
  show_cart u (send user_id alert_cart_cleared c).

(** [checkout] *)
Definition checkout (u : Update) (c : Ctx) : Outcome :=
  let user_id := tg_id (upd_user u) in
  match get_cart_items (cx_db c) user_id with
  | [] => show_cart u (send user_id alert_cart_empty c)
  | cart_items =>
      let c := with_data (set_order_items (Some cart_items)) c in
      (send user_id scr_ask_phone c, Some ORDER_PHONE)
  end.

(** [get_order_phone] *)
Definition get_order_phone (text : pystr) (u : Update) (c : Ctx) : Outcome :=
  let uid := tg_id (upd_user u) in
  let phone := strip text in
  if (length phone <? 10)%nat then (send uid scr_bad_phone c, Some ORDER_PHONE)
  else
    let c := with_data (set_order_phone (Some phone)) c in
    (send uid scr_ask_address c, Some ORDER_ADDRESS).

(** [get_order_address] *)
Definition get_order_address (text : pystr) (u : Update) (c : Ctx) : Outcome :=
  let uid := tg_id (upd_user u) in
  let address := strip text in
  if (length address <? 10)%nat
  then (send uid scr_bad_address c, Some ORDER_ADDRESS)
  else
    let c := with_data (set_order_address (Some address)) c in
    (send uid scr_ask_comment c, Some ORDER_COMMENT).

(** The dictionary [finish_order] appends for one cart item. *)
Definition order_product_of (item : CartItem) : order_product :=
  {| op_product_id := product_id item; op_name := product_name item;
     op_price := product_price item; op_quantity := quantity item;
     op_total := fmul (product_price item) (float_of_int (quantity item)) |}.

(** [notify_admins_new_order] *)
Definition notify_admins_new_order (order_id : Z) (c : Ctx) : Ctx :=
  fold_left (fun c admin_id => send admin_id (scr_new_order order_id) c)
    ADMIN_IDS c.

Definition pop_order_keys (d : UserData) : UserData :=
  set_order_comment None
    (set_order_address None (set_order_phone None (set_order_items None d))).

(** [finish_order] *)
Definition finish_order (u : Update) (c : Ctx) : Outcome :=
  let user_id := tg_id (upd_user u) in
  let cart_items := default [] (order_items (cx_data c)) in
  let phone := default [] (order_phone (cx_data c)) in
  let address := default [] (order_address (cx_data c)) in
  let comment := default [] (order_comment (cx_data c)) in
  let '(c, text) :=
    match cart_items with
    | [] => (c, scr_order_empty)
    | _ :: _ =>
        let order_products := map order_product_of cart_items in
        let total := items_total cart_items in
        let '(order_id, d) :=
          create_order (upd_time u) user_id order_products total phone
            address comment (cx_db c) in
        let c := with_db (fun _ => d) c in
        let c := with_db (clear_cart user_id) c in
        let c := notify_admins_new_order order_id c in
        (c, scr_order_done order_id total)
    end in
  let c := with_data pop_order_keys c in
  (send user_id text c, Some MAIN_MENU).

(** [get_order_comment] *)
Definition get_order_comment (u : Update) (c : Ctx) : Outcome :=
  let uid := tg_id (upd_user u) in
  match upd_event u with
  | Button cb_add_comment => (send uid scr_enter_comment c, Some ORDER_COMMENT)
  | Button _ =>
      finish_order u (with_data (set_order_comment (Some [])) c)
  | Text text =>
      let c := with_data (set_order_comment (Some (strip text))) c in
      (send uid scr_comment_added c, Some ORDER_COMMENT)
  | _ => (c, None)
  end.

(** [show_profile]; [db_user.phone] raises when the user has no row. *)
Definition show_profile (u : Update) (c : Ctx) : Outcome :=
  let uid := tg_id (upd_user u) in
  match get_user (cx_db c) uid with
  | None => (c, None)
  | Some db_user => (send uid (scr_profile db_user) c, Some USER_PROFILE)
  end.

(** [admin_menu] *)
Definition admin_menu (u : Update) (c : Ctx) : Outcome :=
  let uid := tg_id (upd_user u) in
  if negb (is_admin (cx_db c) uid) then (send uid alert_no_access c, Some MAIN_MENU)
  else (send uid scr_admin_menu c, Some ADMIN_MENU).

(** [manage_products] *)
Definition manage_products (u : Update) (c : Ctx) : Outcome :=
  let uid := tg_id (upd_user u) in
  if negb (is_admin (cx_db c) uid) then (send uid alert_no_access c, Some ADMIN_MENU)
  else (send uid scr_manage_products c, Some CATALOG).

(** [admin_stats] *)
Definition admin_stats (u : Update) (c : Ctx) : Outcome :=
  let uid := tg_id (upd_user u) in
  if negb (is_admin (cx_db c) uid) then (send uid alert_no_access c, Some ADMIN_MENU)
  else
    let d := cx_db c in
    (send uid
       (scr_stats (length (List.filter pr_is_active (products d)))
          (length (users d)) (length (orders d))) c,
     Some ADMIN_MENU).

(** [admin_orders] *)
Definition admin_orders (u : Update) (c : Ctx) : Outcome :=
  let uid := tg_id (upd_user u) in
  if negb (is_admin (cx_db c) uid) then (send uid alert_no_access c, Some ADMIN_MENU)
  else (send uid scr_orders c, Some ADMIN_MENU).

(** [start_add_product] *)
Definition start_add_product (u : Update) (c : Ctx) : Outcome :=
  let uid := tg_id (upd_user u) in
  if negb (is_admin (cx_db c) uid) then (send uid alert_no_access c, Some ADMIN_MENU)
  else
    let c := with_data (set_new_product (Some new_Product)) c in
    (send uid scr_ask_name c, Some WAITING_NAME).

Definition set_name (v : pystr) (p : Product) : Product :=
  {| p_id := p_id p; p_name := v; p_description := p_description p;
     p_price := p_price p; p_category := p_category p;
     p_images := p_images p; p_created_at := p_created_at p;
     p_is_active := p_is_active p |}.

Definition set_description (v : pystr) (p : Product) : Product :=
  {| p_id := p_id p; p_name := p_name p; p_description := v;
     p_price := p_price p; p_category := p_category p;
     p_images := p_images p; p_created_at := p_created_at p;
     p_is_active := p_is_active p |}.

Definition set_price (v : pyfloat) (p : Product) : Product :=
  {| p_id := p_id p; p_name := p_name p; p_description := p_description p;
     p_price := v; p_category := p_category p;
     p_images := p_images p; p_created_at := p_created_at p;
     p_is_active := p_is_active p |}.

Definition set_category (v : pystr) (p : Product) : Product :=
  {| p_id := p_id p; p_name := p_name p; p_description := p_description p;
     p_price := p_price p; p_category := v;
     p_images := p_images p; p_created_at := p_created_at p;
     p_is_active := p_is_active p |}.

Definition set_images (v : list pystr) (p : Product) : Product :=
  {| p_id := p_id p; p_name := p_name p; p_description := p_description p;
     p_price := p_price p; p_category := p_category p;
     p_images := v; p_created_at := p_created_at p;
     p_is_active := p_is_active p |}.

(** An assignment to an attribute of [context.user_data['new_product']];
    the lookup raises [KeyError] when there is no draft. *)
Definition update_draft (f : Product -> Product) (c : Ctx) : option Ctx :=
  match new_product (cx_data c) with
  | None => None
  | Some p => Some (with_data (set_new_product (Some (f p))) c)
  end.

(** [get_product_name] *)
Definition get_product_name (text : pystr) (u : Update) (c : Ctx) : Outcome :=
  let uid := tg_id (upd_user u) in
  let name := strip text in
  if (length name <? 3)%nat then (send uid scr_bad_name c, Some WAITING_NAME)
  else
    match update_draft (set_name name) c with
    | None => (c, None)
    | Some c => (send uid scr_ask_description c, Some WAITING_DESCRIPTION)
    end.

(** [get_product_description] *)
Definition get_product_description (text : pystr) (u : Update) (c : Ctx)
    : Outcome :=
  let uid := tg_id (upd_user u) in
  let description := strip text in
  if (length description <? 10)%nat
  then (send uid scr_bad_description c, Some WAITING_DESCRIPTION)
  else
    match update_draft (set_description description) c with
    | None => (c, None)
    | Some c => (send uid scr_ask_price c, Some WAITING_PRICE)
    end.

(** The [try] block of [get_product_price]: the price, or [None] when a
    [ValueError] is raised, by [float()] or by the check [price <= 0]. *)
Definition parse_price (text : pystr) : option pyfloat :=
  match py_float unicode_decimal (commas_to_dots (remove_spaces (strip text))) with
  | None => None
  | Some price => if fle0 price then None else Some price
  end.

(** [get_product_price] *)
Definition get_product_price (text : pystr) (u : Update) (c : Ctx) : Outcome :=
  let uid := tg_id (upd_user u) in
  match parse_price text with
  | None => (send uid scr_bad_price c, Some WAITING_PRICE)
  | Some price =>
      match update_draft (set_price price) c with
      | None => (c, None)
      | Some c => (send uid (scr_ask_category price) c, Some WAITING_CATEGORY)
      end
  end.

(** [get_product_category] *)
Definition get_product_category (category : pystr) (u : Update) (c : Ctx)
    : Outcome :=
  let uid := tg_id (upd_user u) in
  match update_draft (set_category category) c with
  | None => (c, None)
  | Some c =>
      let c := send uid (scr_ask_images category) c in
      match update_draft (set_images []) c with
      | None => (c, None)
      | Some c => (c, Some WAITING_IMAGES)
      end
  end.

(** [save_new_product] *)
Definition save_new_product (u : Update) (c : Ctx) : Outcome :=
  let uid := tg_id (upd_user u) in
  let '(c, text) :=
    match new_product (cx_data c) with
    | None => (c, scr_no_draft)
    | Some product =>
        match save_product (upd_time u) product (cx_db c) with
        | Some (pid, d) => (with_db (fun _ => d) c, scr_product_saved pid)
        | None => (c, scr_save_error)
        end
    end in
  let c := with_data (set_new_product None) c in
  (send uid text c, Some ADMIN_MENU).

(** [get_product_images] *)
Definition get_product_images (u : Update) (c : Ctx) : Outcome :=
  let uid := tg_id (upd_user u) in
  match upd_event u with
  | Button _ => save_new_product u c
  | Photo file_id =>
      match new_product (cx_data c) with
      | None => (c, None)
      | Some p =>
          let images := p_images p ++ [file_id] in
          let c := with_data (set_new_product (Some (set_images images p))) c in
          (send uid (scr_image_added (length images)) c, Some WAITING_IMAGES)
      end
  | _ => (send uid scr_not_image c, Some WAITING_IMAGES)
  end.

(** [FurnitureBot.delete_product] *)
Definition bot_delete_product (pid : Z) (u : Update) (c : Ctx) : Outcome :=
  let uid := tg_id (upd_user u) in
  if negb (is_admin (cx_db c) uid) then (send uid alert_no_access c, Some PRODUCT_VIEW)
  else
    match get_product_by_id (cx_db c) pid with
    | None => (send uid alert_not_found c, Some PRODUCT_VIEW)
    | Some product => (send uid (scr_confirm_delete product) c, Some PRODUCT_VIEW)
    end.

(** [if category:] on an optional string *)
Definition truthy (s : option pystr) : bool :=
  match s with
  | Some (_ :: _) => true
  | _ => false
  end.

(** [confirm_delete_product] *)
Definition confirm_delete_product (pid : Z) (u : Update) (c : Ctx) : Outcome :=
  let uid := tg_id (upd_user u) in
  let product := get_product_by_id (cx_db c) pid in
  let c := with_db (delete_product pid) c in
  let c := send uid alert_deleted c in
  let category :=
    match current_category (cx_data c) with
    | Some cat => Some cat
    | None => p_category <$> product
    end in
  if truthy category then
    let cat := default [] category in
    (send uid (scr_category cat (products_page (cx_db c) cat 0)) c, Some CATALOG)
  else catalog u c.

(** [back_to_products] *)
Definition back_to_products (u : Update) (c : Ctx) : Outcome :=
  let uid := tg_id (upd_user u) in
  let category := current_category (cx_data c) in
  if truthy category then
    let cat := default [] category in
    (send uid (scr_category cat (products_page (cx_db c) cat 0)) c, Some CATALOG)
  else catalog u c.

(** [cancel] *)
Definition cancel (u : Update) (c : Ctx) : Outcome :=
  start u (send (tg_id (upd_user u)) scr_cancelled c).

(** ** The ConversationHandler of [main] *)

Definition Handler : Type := Update -> Ctx -> Outcome.

(** [entry_points] *)
Definition entry_point (e : Event) : option Handler :=
  match e with
  | cmd_start => Some start
  | _ => None
  end.

(** [states]: the first handler of the state whose filter or pattern
    admits the update.  The states without an entry in the dictionary
    have no handler. *)
Definition state_handler (s : DialogState) (e : Event) : option Handler :=
  match s, e with
  | MAIN_MENU, Button cb_catalog => Some catalog
  | MAIN_MENU, Button cb_cart => Some show_cart
  | MAIN_MENU, Button cb_profile => Some show_profile
  | MAIN_MENU, Button cb_admin => Some admin_menu
  | CATALOG, Button cb_main_menu => Some main_menu
  | CATALOG, Button (cb_category category) => Some (show_category category 0)
  | CATALOG, Button (cb_products category page) => Some (show_category category page)
  | CATALOG, Button (cb_product pid) => Some (show_product pid)
  | PRODUCT_VIEW, Button (cb_add_cart pid) => Some (bot_add_to_cart pid)
  | PRODUCT_VIEW, Button cb_back_to_products => Some back_to_products
  | PRODUCT_VIEW, Button (cb_delete_product pid) => Some (bot_delete_product pid)
  | PRODUCT_VIEW, Button (cb_confirm_delete pid) => Some (confirm_delete_product pid)
  | PRODUCT_VIEW, Button cb_main_menu => Some main_menu
  | CART_VIEW, Button cb_checkout => Some checkout
  | CART_VIEW, Button cb_clear_cart => Some bot_clear_cart
  | CART_VIEW, Button cb_catalog => Some catalog
  | CART_VIEW, Button cb_main_menu => Some main_menu
  | USER_PROFILE, Button cb_main_menu => Some main_menu
  | ADMIN_MENU, Button cb_add_product => Some start_add_product
  | ADMIN_MENU, Button cb_manage_products => Some manage_products
  | ADMIN_MENU, Button cb_admin_stats => Some admin_stats
  | ADMIN_MENU, Button cb_admin_orders => Some admin_orders
  | ADMIN_MENU, Button cb_catalog => Some catalog
  | ADMIN_MENU, Button cb_main_menu => Some main_menu
  | WAITING_NAME, Text text => Some (get_product_name text)
  | WAITING_DESCRIPTION, Text text => Some (get_product_description text)
  | WAITING_PRICE, Text text => Some (get_product_price text)
  | WAITING_CATEGORY, Button (cb_select_cat category) =>
      Some (get_product_category category)
  | WAITING_IMAGES, Photo _ => Some get_product_images
  | WAITING_IMAGES, Button cb_finish_images => Some get_product_images
  | ORDER_PHONE, Text text => Some (get_order_phone text)
  | ORDER_ADDRESS, Text text => Some (get_order_address text)
  | ORDER_COMMENT, Button cb_add_comment => Some get_order_comment
  | ORDER_COMMENT, Button cb_finish_order => Some get_order_comment
  | ORDER_COMMENT, Text _ => Some get_order_comment
  | _, _ => None
  end.

(** [fallbacks] *)
Definition fallback (e : Event) : option Handler :=
  match e with
  | cmd_cancel => Some cancel
  | _ => None
  end.

(** The handler of an update: an entry point when the user has no
    conversation, else a handler of the state, else a fallback. *)
Definition handler_for (st : option DialogState) (e : Event) : option Handler :=
  match st with
  | None => entry_point e
  | Some s =>
      match state_handler s e with
      | Some h => Some h
      | None => fallback e
      end
  end.

(** The process: the database, [application.user_data], the states of
    the conversations (both keyed by the user, the bot talking to each
    user in a private chat), and the messages sent. *)
Record World := {
  db : Database;
  user_data : gmap Z UserData;
  conversations : gmap Z DialogState;
  sent : list (Z * Reply) }.

(** One update is processed to its end: updates are handled one at a
    time.  An update no handler admits changes nothing. *)
Definition step (u : Update) (w : World) : World :=
  let uid := tg_id (upd_user u) in
  match handler_for (conversations w !! uid) (upd_event u) with
  | None => w
  | Some h =>
      let '(c, next) :=
        h u {| cx_db := db w;
               cx_data := default empty_data (user_data w !! uid);
               cx_sent := sent w |} in
      {| db := cx_db c;
         user_data := <[uid := cx_data c]> (user_data w);
         conversations :=
           match next with
           | Some s => <[uid := s]> (conversations w)
           | None => conversations w
           end;
         sent := cx_sent c |}
  end.

(** The state of a user's conversation and the user's session data. *)
Definition state_of (w : World) (uid : Z) : option DialogState :=
  conversations w !! uid.

Definition data_of (w : World) (uid : Z) : UserData :=
  default empty_data (user_data w !! uid).

(** The operations of the cart table, applied to the ledger directly. *)
Inductive CartOp :=
  | op_add (pid qty : Z)
  | op_remove (pid : Z)
  | op_clear.

Definition apply_cart_op (user_id : Z) (o : CartOp) (d : Database) : Database :=
  match o with
  | op_add pid qty => add_to_cart user_id pid qty d
  | op_remove pid => remove_from_cart user_id pid d
  | op_clear => clear_cart user_id d
  end.

(** What happens to the world between two moments: an update is
    delivered, or a cart operation of some user reaches the ledger. *)
Inductive Action :=
  | Deliver (u : Update)
  | Ledger (user_id : Z) (o : CartOp).

Definition act (w : World) (a : Action) : World :=
  match a with
  | Deliver u => step u w
  | Ledger user_id o =>
      {| db := apply_cart_op user_id o (db w); user_data := user_data w;
         conversations := conversations w; sent := sent w |}
  end.

Definition run (l : list Action) (w : World) : World := fold_left act l w.

(** ** Vocabulary of the properties *)

(** What a soft deletion leaves of a row: every field but [is_active],
    which is cleared on the rows of the deleted id. *)
Definition soft_deleted (pid : Z) (r r' : product_row) : Prop :=
  pr_id r' = pr_id r /\ pr_name r' = pr_name r
  /\ pr_description r' = pr_description r /\ pr_price r' = pr_price r
  /\ pr_category r' = pr_category r /\ pr_images r' = pr_images r
  /\ pr_created_at r' = pr_created_at r
  /\ pr_is_active r' = (if pr_id r =? pid then false else pr_is_active r).

(** The order row [finish_order] writes for a snapshot. *)
Definition committed_order (now uid : Z) (data : UserData) (d : Database)
    (snap : list CartItem) : order_row :=
  {| o_id := next_rowid (orders_seq d) (map o_id (orders d));
     o_user_id := uid; o_products := map order_product_of snap;
     o_total_amount := items_total snap;
     o_phone := default [] (order_phone data);
     o_address := default [] (order_address data);
     o_comment := []; o_status := str_of "new"; o_created_at := now |}.

(** A line item of an order that records an item of a cart read: the
    product, its name, its unit price and the quantity are those of the
    item, and the total of the line is the unit price times the
    quantity. *)
Definition line_of_item (line : order_product) (item : CartItem) : Prop :=
  op_product_id line = product_id item
  /\ op_name line = product_name item
  /\ op_price line = product_price item
  /\ op_quantity line = quantity item
  /\ op_total line = fmul (product_price item) (float_of_int (quantity item)).

(** The sum over the line items of an order of unit price times
    quantity, in the order of the items. *)
Definition order_sum (ps : list order_product) : pyfloat :=
  fold_left
    (fun total p => fadd total (fmul (op_price p) (float_of_int (op_quantity p))))
    ps fzero.

(** The sum of the totals recorded on the line items. *)
Definition order_lines_sum (ps : list order_product) : pyfloat :=
  fold_left (fun total p => fadd total (op_total p)) ps fzero.


(** The states of the order flow. *)
Definition in_order_flow (s : option DialogState) : Prop :=
  s = Some ORDER_PHONE \/ s = Some ORDER_ADDRESS \/ s = Some ORDER_COMMENT.

(** An action that does not end the checkout of the user: anything but
    the user's own cancel and finish-order events. *)
Definition keeps_checkout (uid : Z) (a : Action) : Prop :=
  match a with
  | Deliver u =>
      tg_id (upd_user u) = uid ->
      upd_event u <> cmd_cancel /\ upd_event u <> Button cb_finish_order
  | Ledger _ _ => True
  end.

(** The effect the specification words for a cancel event: the session is
    in MAIN_MENU and holds no draft product, no draft order field and no
    navigation cursor. *)
Definition cancel_discards (w' : World) (uid : Z) : Prop :=
  state_of w' uid = Some MAIN_MENU /\ data_of w' uid = empty_data.

(** ** A shop to run the bot on *)

(** One administrator, and a Unicode table that gives no digit value to the
    code points that are not ASCII; the texts below are ASCII. *)
Definition shop_admins : list Z := [1].
Definition ascii_only : N -> option N := fun _ => None.

Definition ann : TgUser :=
  {| tg_id := 5; tg_username := None; tg_first_name := str_of "Ann";
     tg_last_name := None |}.

(** The administrator. *)
Definition bob : TgUser :=
  {| tg_id := 1; tg_username := None; tg_first_name := str_of "Bob";
     tg_last_name := None |}.

Definition press (who : TgUser) (now : Z) (data : Callback) : Update :=
  {| upd_time := now; upd_user := who; upd_event := Button data |}.

Definition say (who : TgUser) (now : Z) (text : string) : Update :=
  {| upd_time := now; upd_user := who; upd_event := Text (str_of text) |}.

Definition send_cancel (who : TgUser) (now : Z) : Update :=
  {| upd_time := now; upd_user := who; upd_event := cmd_cancel |}.

Definition sofa : product_row :=
  {| pr_id := 1; pr_name := str_of "Sofa"; pr_description := str_of "A soft sofa";
     pr_price := float_of_int 1000; pr_category := str_of "Sofas";
     pr_images := []; pr_created_at := 10; pr_is_active := true |}.

Definition stool : product_row :=
  {| pr_id := 2; pr_name := str_of "Stool"; pr_description := str_of "A tall stool";
     pr_price := float_of_int 500; pr_category := str_of "Chairs";
     pr_images := []; pr_created_at := 20; pr_is_active := true |}.

Definition chair (active : bool) : product_row :=
  {| pr_id := 7; pr_name := str_of "Chair"; pr_description := str_of "An oak chair";
     pr_price := float_of_int 300; pr_category := str_of "Chairs";
     pr_images := []; pr_created_at := 30; pr_is_active := active |}.

Definition ann_row : User :=
  {| u_id := 5; u_username := None; u_first_name := Some (str_of "Ann");
     u_last_name := None; u_phone := None; u_is_admin := false;
     u_created_at := Some 1 |}.

(** Ann has one sofa and two stools in her cart. *)
Definition shop (chair_active : bool) : Database :=
  {| users := [ann_row]; products := [sofa; stool; chair chair_active];
     products_seq := 7;
     cart := [{| c_user_id := 5; c_product_id := 1; c_quantity := 1 |};
              {| c_user_id := 5; c_product_id := 2; c_quantity := 2 |}];
     orders := []; orders_seq := 0; categories := [] |}.

Definition empty_shop : Database :=
  {| users := []; products := [sofa]; products_seq := 1; cart := [];
     orders := []; orders_seq := 0; categories := [] |}.

(** The conversation of one user in a given state, with given session
    data, and nothing sent yet. *)
Definition world_of (d : Database) (who : TgUser) (s : DialogState)
    (data : UserData) : World :=
  {| db := d; user_data := {[ tg_id who := data ]};
     conversations := {[ tg_id who := s ]}; sent := [] |}.

Definition ann_items : list CartItem :=
  [{| product_id := 1; quantity := 1; product_name := str_of "Sofa";
      product_price := float_of_int 1000 |};
   {| product_id := 2; quantity := 2; product_name := str_of "Stool";
      product_price := float_of_int 500 |}].

(** Ann at the end of the order flow, the snapshot of her cart and her
    phone and address in the session. *)
Definition ann_ordering : UserData :=
  {| current_category := None; current_product := None;
     order_items := Some ann_items;
     order_phone := Some (str_of "+71234567890");
     order_address := Some (str_of "Moscow, Lenina 1, apt 5");
     order_comment := None; new_product := None |}.

(** A draft product after the name and the description. *)
Definition draft_data : UserData :=
  {| current_category := Some (str_of "Chairs"); current_product := None;
     order_items := None; order_phone := None; order_address := None;
     order_comment := None;
     new_product := Some (set_description (str_of "A bench of pine")
                            (set_name (str_of "Bench") new_Product)) |}.

(** What happens between Ann's checkout and her finish-order event: she
    gives her phone, a chair is added to her cart, she gives her address,
    her cart is cleared. *)
Definition ann_flow : list Action :=
  [Deliver (say ann 101 "+71234567890");
   Ledger 5 (op_add 7 1);
   Deliver (say ann 102 "Moscow, Lenina 1, apt 5");
   Ledger 5 op_clear].

(** The administrator types "nan" for the price of the draft, picks a
    category and finishes the images. *)
Definition nan_price_flow : list Action :=
  [Deliver (say bob 60 "nan");
   Deliver (press bob 61 (cb_select_cat (str_of "Chairs")));
   Deliver (press bob 62 cb_finish_images)].

(** The primary key of a cart row. *)
Definition cart_pk (c : cart_row) : Z * Z := (c_user_id c, c_product_id c).

(** A cart table as the schema and the bot keep it: one row per pair of a
    user and a product, every quantity at least 1. *)
Definition cart_ok (d : Database) : Prop :=
  NoDup (map cart_pk (cart d)) /\ Forall (fun c => 1 <= c_quantity c) (cart d).

(** The states in which a product is being written. *)
Definition authoring (s : DialogState) : bool :=
  match s with
  | WAITING_NAME | WAITING_DESCRIPTION | WAITING_PRICE | WAITING_CATEGORY
  | WAITING_IMAGES => true
  | _ => false
  end.

(** The states behind the administrator check. *)
Definition privileged (s : DialogState) : bool :=
  match s with
  | ADMIN_MENU => true
  | _ => authoring s
  end.

(** What a step of the user [uid], whose conversation is in [st] with the
    session data [data], can do to the database. *)
Inductive db_change (uid : Z) (st : option DialogState) (data : UserData)
    (d : Database) : Database -> Prop :=
  | ch_none : db_change uid st data d d
  | ch_register now user :
      u_id user = uid ->
      u_is_admin user = bool_decide (uid ∈ ADMIN_IDS) ->
      u_phone user = None ->
      db_change uid st data d (save_user now user d)
  | ch_add pid :
      st = Some PRODUCT_VIEW ->
      db_change uid st data d (add_to_cart uid pid 1 d)
  | ch_clear :
      st = Some CART_VIEW ->
      db_change uid st data d (clear_cart uid d)
  | ch_order now item items :
      st = Some ORDER_COMMENT ->
      order_items data = Some (item :: items) ->
      db_change uid st data d
        (clear_cart uid
           (set_orders (fun rows => rows ++
              [committed_order now uid data d (item :: items)])
              (next_rowid (orders_seq d) (map o_id (orders d))) d))
  | ch_save now product i d' :
      st = Some WAITING_IMAGES ->
      new_product data = Some product ->
      save_product now product d = Some (i, d') ->
      db_change uid st data d d'
  | ch_delete pid :
      st = Some PRODUCT_VIEW ->
      db_change uid st data d (delete_product pid d).

(** The primary keys of the four tables the bot writes: distinct user ids,
    distinct product ids, distinct order ids, and a cart table in shape. *)
Definition db_keys_ok (d : Database) : Prop :=
  NoDup (map u_id (users d)) /\ NoDup (map pr_id (products d))
  /\ NoDup (map o_id (orders d)) /\ cart_ok d.

(** An action that adds to a cart adds at least 1. *)
Definition adds_positive (a : Action) : Prop :=
  match a with
  | Ledger _ (op_add _ n) => 1 <= n
  | _ => True
  end.

(** A draft as [start_add_product] creates it and the authoring steps
    keep it: no id yet, active. *)
Definition draft_fresh (p : Product) : Prop :=
  p_id p = None /\ p_is_active p = true.

(** What the session of a conversation in state [s] holds when the state
    was reached through the handlers: the draft with the fields checked so
    far in the authoring states, the snapshot and the fields given so far
    in the order flow.  The three states no handler returns hold nothing. *)
Definition session_ok (s : DialogState) (data : UserData) : Prop :=
  match s with
  | ADD_PRODUCT | EDIT_PRODUCT | WAITING_EDIT_FIELD => False
  | WAITING_NAME =>
      exists p, new_product data = Some p /\ draft_fresh p
  | WAITING_DESCRIPTION =>
      exists p, new_product data = Some p /\ draft_fresh p
        /\ (3 <= length (p_name p))%nat
  | WAITING_PRICE =>
      exists p, new_product data = Some p /\ draft_fresh p
        /\ (3 <= length (p_name p))%nat
        /\ (10 <= length (p_description p))%nat
  | WAITING_CATEGORY | WAITING_IMAGES =>
      exists p, new_product data = Some p /\ draft_fresh p
        /\ (3 <= length (p_name p))%nat
        /\ (10 <= length (p_description p))%nat
        /\ fle0 (p_price p) = false
  | ORDER_PHONE =>
      exists item items, order_items data = Some (item :: items)
  | ORDER_ADDRESS =>
      exists item items phone,
        order_items data = Some (item :: items)
        /\ order_phone data = Some phone /\ (10 <= length phone)%nat
  | ORDER_COMMENT =>
      exists item items phone address,
        order_items data = Some (item :: items)
        /\ order_phone data = Some phone /\ (10 <= length phone)%nat
        /\ order_address data = Some address /\ (10 <= length address)%nat
  | _ => True
  end.

(** Every conversation has the session its state calls for, and its user
    has a row in the user table. *)
Definition world_ok (w : World) : Prop :=
  forall uid s, state_of w uid = Some s ->
    session_ok s (data_of w uid) /\ is_Some (get_user (db w) uid).

(** The process at its start: no conversation, no session, the database
    as [init_db] leaves a given file. *)
Definition initial_world (file : Database) : World :=
  {| db := init_db file; user_data := ∅; conversations := ∅; sent := [] |}.

(** A product row whose text fields and price passed the checks of the
    authoring dialog. *)
Definition product_checked (r : product_row) : Prop :=
  (3 <= length (pr_name r))%nat /\ (10 <= length (pr_description r))%nat
  /\ fgt0 (pr_price r) = true.

(** An order row as the order flow writes it. *)
Definition order_checked (o : order_row) : Prop :=
  o_products o <> [] /\ (10 <= length (o_phone o))%nat
  /\ (10 <= length (o_address o))%nat /\ o_comment o = []
  /\ o_total_amount o = order_sum (o_products o).

(** The delivery of an event of a user at a time. *)
Definition deliver (who : TgUser) (now : Z) (e : Event) : Action :=
  Deliver {| upd_time := now; upd_user := who; upd_event := e |}.

(** An administrator writes a product: the "add product" button, the
    name, the description, the price, a category button, the photos one by
    one, the "finish" button. *)
Definition authoring_script (who : TgUser) (now saved : Z)
    (name description price category : pystr) (photos : list pystr)
    : list Action :=
  [deliver who now (Button cb_add_product);
   deliver who now (Text name);
   deliver who now (Text description);
   deliver who now (Text price);
   deliver who now (Button (cb_select_cat category))]
  ++ map (fun f => deliver who now (Photo f)) photos
  ++ [deliver who saved (Button cb_finish_images)].

(** A user orders the cart: the "checkout" button, the phone, the
    address, the "add comment" button, the comment, the "finish" button. *)
Definition order_script (who : TgUser) (now committed : Z)
    (phone address comment : pystr) : list Action :=
  [deliver who now (Button cb_checkout);
   deliver who now (Text phone);
   deliver who now (Text address);
   deliver who now (Button cb_add_comment);
   deliver who now (Text comment);
   deliver who committed (Button cb_finish_order)].

(** The administrator starts the bot, opens the admin panel, presses
    "add product" and gives the name of the product. *)
Definition bob_drafting : list Action :=
  [deliver bob 1 cmd_start; deliver bob 2 (Button cb_admin);
   deliver bob 3 (Button cb_add_product);
   deliver bob 4 (Text (str_of "Bench"))].

(** Ann starts the bot, opens her cart, checks out and gives her phone. *)
Definition ann_checking_out : list Action :=
  [deliver ann 1 cmd_start; deliver ann 2 (Button cb_cart);
   deliver ann 3 (Button cb_checkout);
   deliver ann 4 (Text (str_of "+71234567890"))].

(** ** The keyboards *)

(** The text of a button, by what it shows and the data placed in it. *)
Inductive Label :=
  | lbl_catalog | lbl_cart | lbl_profile | lbl_admin_panel
  | lbl_category (emoji name : pystr)
  | lbl_main_menu | lbl_home | lbl_categories
  | lbl_product (name : pystr) (price : pyfloat)
  | lbl_previous | lbl_next
  | lbl_add_to_cart | lbl_to_products | lbl_edit | lbl_delete
  | lbl_add_product | lbl_manage_products | lbl_statistics | lbl_orders.

(** [InlineKeyboardButton(text, callback_data=...)] *)
Record InlineKeyboardButton := {
  btn_text : Label;
  callback_data : Callback }.

(** [InlineKeyboardMarkup]: the rows of buttons. *)
Definition Keyboard : Type := list (list InlineKeyboardButton).

(** [get_main_keyboard] *)
Definition get_main_keyboard (d : Database) (user_id : Z) : Keyboard :=
  [[{| btn_text := lbl_catalog; callback_data := cb_catalog |}];
   [{| btn_text := lbl_cart; callback_data := cb_cart |};
    {| btn_text := lbl_profile; callback_data := cb_profile |}]]
  ++ (if is_admin d user_id
      then [[{| btn_text := lbl_admin_panel; callback_data := cb_admin |}]]
      else []).

Definition category_button (cat : category_row) : InlineKeyboardButton :=
  {| btn_text := lbl_category (cat_emoji cat) (cat_name cat);
     callback_data := cb_category (cat_name cat) |}.

(** [range(0, n, 2)] *)
Definition range_by_two (n : nat) : list nat :=
  map (fun k => 2 * k)%nat (seq 0 (Nat.div2 (S n))).

(** The row the inner loop of [get_categories_keyboard] builds at [i]:
    the buttons of [categories[j]] for [j] in [range(i, min(i + 2, n))]. *)
Definition category_row_at (cats : list category_row) (i : nat)
    : list InlineKeyboardButton :=
  omap (fun j => category_button <$> cats !! j)
    (seq i (Nat.min (i + 2) (length cats) - i)).

(** [get_categories_keyboard] *)
Definition get_categories_keyboard (d : Database) : Keyboard :=
  map (category_row_at (get_categories d))
    (range_by_two (length (get_categories d)))
  ++ [[{| btn_text := lbl_main_menu; callback_data := cb_main_menu |}]].

(** The rows of the page [products[page*10 : page*10 + 10]]; the products
    of a listing carry the ids of their rows. *)
Definition rows_page (d : Database) (category : pystr) (page : nat)
    : list product_row :=
  take 10 (drop (page * 10)%nat (select_products_by_category d category)).

Definition product_button (r : product_row) : InlineKeyboardButton :=
  {| btn_text := lbl_product (pr_name r) (pr_price r);
     callback_data := cb_product (pr_id r) |}.

(** [nav_row] of [get_products_keyboard] *)
Definition nav_row (d : Database) (category : pystr) (page : nat)
    : list InlineKeyboardButton :=
  (if (0 <? page)%nat
   then [{| btn_text := lbl_previous;
            callback_data := cb_products category (page - 1) |}]
   else [])
  ++ (if (page * 10 + 10 <? length (select_products_by_category d category))%nat
      then [{| btn_text := lbl_next;
               callback_data := cb_products category (page + 1) |}]
      else []).

(** [get_products_keyboard] *)
Definition get_products_keyboard (d : Database) (category : pystr) (page : nat)
    : Keyboard :=
  map (fun r => [product_button r]) (rows_page d category page)
  ++ match nav_row d category page with
     | [] => []
     | row => [row]
     end
  ++ [[{| btn_text := lbl_categories; callback_data := cb_catalog |};
       {| btn_text := lbl_home; callback_data := cb_main_menu |}]].

(** [get_product_keyboard] *)
Definition get_product_keyboard (d : Database) (pid user_id : Z) : Keyboard :=
  [{| btn_text := lbl_add_to_cart; callback_data := cb_add_cart pid |}]
  :: (if is_admin d user_id
      then [[{| btn_text := lbl_edit; callback_data := cb_edit_product pid |};
             {| btn_text := lbl_delete; callback_data := cb_delete_product pid |}]]
      else [])
  ++ [[{| btn_text := lbl_to_products; callback_data := cb_back_to_products |}]].

(** [get_admin_keyboard] *)
Definition get_admin_keyboard : Keyboard :=
  [[{| btn_text := lbl_add_product; callback_data := cb_add_product |}];
   [{| btn_text := lbl_manage_products; callback_data := cb_manage_products |}];
   [{| btn_text := lbl_statistics; callback_data := cb_admin_stats |};
    {| btn_text := lbl_orders; callback_data := cb_admin_orders |}];
   [{| btn_text := lbl_catalog; callback_data := cb_catalog |};
    {| btn_text := lbl_home; callback_data := cb_main_menu |}]].

(** ** The stable sort *)

Section StableSortFacts.

Context {A : Type} (R : A -> A -> Prop) `{!RelDecision R}.

Lemma insert_by_perm x l : insert_by R x l ≡ₚ x :: l.
Proof.
  induction l as [|y l IH]; simpl; [reflexivity|].
  destruct (decide (R x y)); [reflexivity|].
  rewrite IH. apply Permutation_swap.
Qed.

Lemma sort_by_perm l : sort_by R l ≡ₚ l.
Proof.
  induction l as [|x l IH]; simpl; [reflexivity|].
  rewrite insert_by_perm, IH. reflexivity.
Qed.

Lemma in_sort_by x l : In x (sort_by R l) <-> In x l.
Proof. rewrite <- !list_elem_of_In, sort_by_perm. reflexivity. Qed.

Lemma length_sort_by l : length (sort_by R l) = length l.
Proof. apply Permutation_length, sort_by_perm. Qed.

Lemma insert_by_first x l : Forall (R x) l -> insert_by R x l = x :: l.
Proof.
  intros H. destruct l as [|y l]; simpl; [reflexivity|].
  apply Forall_cons in H as [Hy _].
  destruct (decide (R x y)); [reflexivity|contradiction].
Qed.

Context `{!Total R} `{!Transitive R}.

Lemma insert_by_sorted x l :
  StronglySorted R l -> StronglySorted R (insert_by R x l).
Proof.
  induction l as [|y l IH]; simpl; intros Hs; [repeat constructor|].
  apply StronglySorted_inv in Hs as [Hs Hy].
  destruct (decide (R x y)) as [Hxy|Hxy].
  - constructor; [constructor; assumption|].
    apply List.Forall_cons; [exact Hxy|].
    eapply List.Forall_impl; [|exact Hy]. intros z Hz. etransitivity; eassumption.
  - constructor; [apply IH, Hs|].
    rewrite insert_by_perm. apply List.Forall_cons; [|exact Hy].
    destruct (total R x y); [contradiction|assumption].
Qed.

(** The rows come out in the order [R]. *)
Lemma sort_by_sorted l : StronglySorted R (sort_by R l).
Proof.
  induction l as [|x l IH]; simpl; [constructor|].
  apply insert_by_sorted, IH.
Qed.

Lemma filter_insert_by (f : A -> bool) x l :
  StronglySorted R l ->
  List.filter f (insert_by R x l)
  = if f x then insert_by R x (List.filter f l) else List.filter f l.
Proof.
  induction l as [|y l IH]; simpl; intros Hs; [destruct (f x); reflexivity|].
  apply StronglySorted_inv in Hs as [Hs Hy].
  destruct (decide (R x y)) as [Hxy|Hxy]; simpl.
  - destruct (f x) eqn:Ex; [|reflexivity].
    symmetry. apply insert_by_first.
    assert (Hall : Forall (R x) (y :: l)).
    { apply List.Forall_cons; [exact Hxy|].
      eapply List.Forall_impl; [|exact Hy]. intros z Hz.
      etransitivity; eassumption. }
    apply List.Forall_forall. intros z Hz.
    apply (filter_In f z (y :: l)) in Hz as [Hz _].
    revert z Hz. apply List.Forall_forall. exact Hall.
  - rewrite (IH Hs). destruct (f y) eqn:Ey, (f x) eqn:Ex; simpl; try reflexivity.
    destruct (decide (R x y)); [contradiction|reflexivity].
Qed.

(** Selecting rows before or after the sort is the same. *)
Lemma filter_sort_by (f : A -> bool) l :
  List.filter f (sort_by R l) = sort_by R (List.filter f l).
Proof.
  induction l as [|x l IH]; simpl; [reflexivity|].
  rewrite filter_insert_by by apply sort_by_sorted.
  destruct (f x); simpl; rewrite IH; reflexivity.
Qed.

End StableSortFacts.

(** ** The cart table *)

#[local] Instance by_product_id_trans : Transitive by_product_id.
Proof. unfold by_product_id. intros a b c. lia. Qed.

#[local] Instance by_product_id_total : Total by_product_id.
Proof. unfold by_product_id. intros a b. lia. Qed.

Lemma filter_negb_none {A} (f : A -> bool) (l : list A) :
  List.filter f (List.filter (fun x => negb (f x)) l) = [].
Proof.
  induction l as [|x l IH]; simpl; [reflexivity|].
  destruct (f x) eqn:E; simpl; [exact IH|].
  rewrite E. exact IH.
Qed.

Lemma filter_negb_idem {A} (f : A -> bool) (l : list A) :
  List.filter (fun x => negb (f x)) (List.filter (fun x => negb (f x)) l)
  = List.filter (fun x => negb (f x)) l.
Proof.
  induction l as [|x l IH]; simpl; [reflexivity|].
  destruct (f x) eqn:E; simpl; [exact IH|].
  rewrite E. simpl. f_equal. exact IH.
Qed.

Lemma cart_key_refl u p q :
  cart_key u p {| c_user_id := u; c_product_id := p; c_quantity := q |} = true.
Proof. unfold cart_key. simpl. rewrite !Z.eqb_refl. reflexivity. Qed.



Lemma real_of_int_pos z : 1 <= z -> 1 <= real_of_int z.
Proof.
  intros Hz. unfold real_of_int. rewrite Z.abs_eq, Z.sgn_pos by lia.
  destruct (Z.log2 z - 52 <=? 0) eqn:E; [exact Hz|].
  apply Z.leb_gt in E.
  set (e := Z.log2 z - 52) in *.
  assert (Hpow : 0 < 2 ^ e) by (apply Z.pow_pos_nonneg; lia).
  assert (Hle : 2 ^ e <= z).
  { transitivity (2 ^ Z.log2 z); [apply Z.pow_le_mono_r; lia|].
    apply Z.log2_spec. lia. }
  assert (Hq : 1 <= z / 2 ^ e)
    by (apply Z.div_le_lower_bound; lia).
  destruct (_ || _); nia.
Qed.

Lemma real_of_int_nonneg z : 0 <= z -> 0 <= real_of_int z.
Proof.
  intros Hz. destruct (Z.eq_dec z 0) as [->|Hne]; [reflexivity|].
  pose proof (real_of_int_pos z). lia.
Qed.

(** A sum of a quantity that is not negative and of at least 1 is at
    least 1, as an integer and as a REAL. *)
Lemma sql_add_pos a b : 0 <= a -> 1 <= b -> 1 <= sql_add a b.
Proof.
  intros Ha Hb. unfold sql_add. destruct (_ && _); [lia|].
  apply real_of_int_pos.
  pose proof (real_of_int_nonneg a Ha). pose proof (real_of_int_pos b Hb). lia.
Qed.


(** A cart operation writes the cart table and no other. *)
Lemma add_to_cart_tables u p n d :
  exists f, add_to_cart u p n d = set_cart f d.
Proof.
  unfold add_to_cart. destruct (int64 n); [eexists; reflexivity|].
  exists (fun rows => rows). destruct d; reflexivity.
Qed.

Lemma apply_cart_op_tables u o d :
  exists f, apply_cart_op u o d = set_cart f d.
Proof.
  destruct o as [p n|p|]; simpl;
    [apply add_to_cart_tables|eexists; reflexivity..].
Qed.

(** The rows of the other pairs are the ones that were there. *)
Lemma add_to_cart_others d u p n :
  List.filter (fun c => negb (cart_key u p c)) (cart (add_to_cart u p n d))
  = List.filter (fun c => negb (cart_key u p c)) (cart d).
Proof.
  unfold add_to_cart. destruct (int64 n); [|reflexivity]. simpl.
  rewrite List.filter_app, filter_negb_idem. simpl.
  rewrite cart_key_refl. simpl. apply app_nil_r.
Qed.

Lemma cart_quantity_filter d u p :
  cart_quantity d u p
  = match List.filter (cart_key u p) (cart d) with
    | c :: _ => c_quantity c
    | [] => 0
    end.
Proof.
  unfold cart_quantity. induction (cart d) as [|c l IH]; simpl; [reflexivity|].
  destruct (cart_key u p c); [reflexivity|exact IH].
Qed.


Lemma clear_cart_no_rows d u :
  List.filter (fun c => c_user_id c =? u) (cart (clear_cart u d)) = [].
Proof. unfold clear_cart. simpl. apply filter_negb_none. Qed.

(** A user without cart rows reads an empty cart. *)
Lemma get_cart_items_no_rows d u :
  List.filter (fun c => c_user_id c =? u) (cart d) = [] ->
  get_cart_items d u = [].
Proof. unfold get_cart_items. intros ->. reflexivity. Qed.

Lemma get_cart_items_clear d u : get_cart_items (clear_cart u d) u = [].
Proof. apply get_cart_items_no_rows, clear_cart_no_rows. Qed.

(** What a cart read returns: one item per pair of a cart row of the
    user and an active product row of the id the cart row names. *)
Lemma in_get_cart_items d u item :
  In item (get_cart_items d u) <->
  exists c p, In c (cart d) /\ In p (products d) /\ c_user_id c = u
    /\ pr_id p = c_product_id c /\ pr_is_active p = true
    /\ item = {| product_id := c_product_id c; quantity := c_quantity c;
                 product_name := pr_name p; product_price := pr_price p |}.
Proof.
  unfold get_cart_items. rewrite in_flat_map. split.
  - intros (c & Hc & Hin). apply in_sort_by, filter_In in Hc as [Hc E].
    apply in_map_iff in Hin as (p & <- & Hp).
    apply filter_In in Hp as (Hp & Hf).
    apply andb_prop in Hf as (Hid & Hact).
    exists c, p. repeat split; auto; lia.
  - intros (c & p & Hc & Hp & Hu & Hid & Hact & ->).
    exists c. split; [apply in_sort_by, filter_In; split; [exact Hc|lia]|].
    apply in_map_iff. exists p. split; [reflexivity|].
    apply filter_In. split; [exact Hp|].
    rewrite Hact, andb_true_r. lia.
Qed.

(** ** Soft deletion *)

Lemma deactivated_rows_filter pid cpid (rows : list product_row) :
  List.filter (fun p => (pr_id p =? cpid) && pr_is_active p)
    (map (fun r => if pr_id r =? pid then deactivate r else r) rows)
  = if cpid =? pid then []
    else List.filter (fun p => (pr_id p =? cpid) && pr_is_active p) rows.
Proof.
  induction rows as [|r rows IH]; simpl.
  - destruct (cpid =? pid); reflexivity.
  - rewrite IH. clear IH.
    destruct (pr_id r =? pid) eqn:E1, (cpid =? pid) eqn:E2; simpl;
      try rewrite andb_false_r; try reflexivity.
    + replace (pr_id r =? cpid) with false by (symmetry; lia). reflexivity.
    + replace (pr_id r =? cpid) with false by (symmetry; lia). reflexivity.
Qed.

(** A cart read after a soft deletion is the read before it without the
    items of the deleted product. *)
Lemma get_cart_items_delete_product d u pid :
  get_cart_items (delete_product pid d) u
  = List.filter (fun item => negb (product_id item =? pid)) (get_cart_items d u).
Proof.
  unfold get_cart_items, delete_product. simpl.
  induction (sort_by by_product_id _) as [|c l IH]; simpl; [reflexivity|].
  rewrite List.filter_app, <- IH. f_equal.
  rewrite deactivated_rows_filter.
  destruct (c_product_id c =? pid) eqn:E.
  - induction (List.filter _ (products d)) as [|p ps IHp]; simpl; [reflexivity|].
    rewrite E. exact IHp.
  - induction (List.filter _ (products d)) as [|p ps IHp]; simpl; [reflexivity|].
    rewrite E. simpl. f_equal. exact IHp.
Qed.

#[local] Instance newer_or_same_trans : Transitive newer_or_same.
Proof. unfold newer_or_same. intros a b c. lia. Qed.

#[local] Instance newer_or_same_total : Total newer_or_same.
Proof. unfold newer_or_same. intros a b. lia. Qed.

(** The rows a category listing selects. *)
Lemma in_select_products d category r :
  In r (select_products_by_category d category) <->
  In r (products d) /\ pr_category r = category /\ pr_is_active r = true.
Proof.
  unfold select_products_by_category.
  rewrite in_sort_by, filter_In, andb_true_iff, bool_decide_eq_true. tauto.
Qed.

(** The listing is ordered newest first. *)
Lemma select_products_sorted d category :
  StronglySorted newer_or_same (select_products_by_category d category).
Proof. apply sort_by_sorted; apply _. Qed.

Lemma in_deactivated_rows pid rows r :
  pr_is_active r = true ->
  (In r (map (fun r => if pr_id r =? pid then deactivate r else r) rows)
   <-> In r rows /\ pr_id r <> pid).
Proof.
  intros Hact. rewrite in_map_iff. split.
  - intros (r0 & Hr & Hin). destruct (pr_id r0 =? pid) eqn:E.
    + subst r. discriminate Hact.
    + subst r0. split; [exact Hin|lia].
  - intros (Hin & Hne). exists r. split; [|exact Hin].
    replace (pr_id r =? pid) with false by (symmetry; lia). reflexivity.
Qed.

Lemma in_select_products_delete d pid category r :
  In r (select_products_by_category (delete_product pid d) category) <->
  In r (select_products_by_category d category) /\ pr_id r <> pid.
Proof.
  rewrite !in_select_products. unfold delete_product. simpl. split.
  - intros (Hin & Hc & Hact). apply in_deactivated_rows in Hin; tauto.
  - intros ((Hin & Hc & Hact) & Hne).
    repeat split; try assumption. apply in_deactivated_rows; tauto.
Qed.

Lemma delete_product_frame pid d :
  Forall2 (soft_deleted pid) (products d) (products (delete_product pid d)).
Proof.
  unfold delete_product. simpl.
  induction (products d) as [|r rows IH]; simpl; constructor; [|exact IH].
  unfold soft_deleted. destruct (pr_id r =? pid) eqn:E; simpl; rewrite ?E; tauto.
Qed.

(** ** The conversation: how single updates are processed *)

Lemma step_other_user u w uid :
  tg_id (upd_user u) <> uid ->
  state_of (step u w) uid = state_of w uid
  /\ data_of (step u w) uid = data_of w uid.
Proof.
  intros Hne. unfold state_of, data_of, step.
  destruct (handler_for _ _) as [h|]; [|split; reflexivity].
  destruct (h u _) as [c [s|]]; simpl;
    rewrite ?lookup_insert_ne by exact Hne; split; reflexivity.
Qed.

Lemma step_no_handler u w :
  handler_for (state_of w (tg_id (upd_user u))) (upd_event u) = None ->
  step u w = w.
Proof. unfold state_of, step. intros ->. reflexivity. Qed.


(** ** Claims *)


(** C10. A cart read returns exactly the items of the user's cart rows
    whose product row is active; after a soft deletion the cart table
    holds the rows it held, while the read, the snapshot [checkout] stores
    and the total shown are those of the cart without the deleted
    product. *)
Theorem cart_read_hides_inactive d u pid :
  (forall item,
     In item (get_cart_items d u) <->
     exists c p, In c (cart d) /\ In p (products d) /\ c_user_id c = u
       /\ pr_id p = c_product_id c /\ pr_is_active p = true
       /\ item = {| product_id := c_product_id c; quantity := c_quantity c;
                    product_name := pr_name p; product_price := pr_price p |})
  /\ cart (delete_product pid d) = cart d
  /\ get_cart_items (delete_product pid d) u
     = List.filter (fun item => negb (product_id item =? pid)) (get_cart_items d u)
  /\ (forall item, In item (get_cart_items (delete_product pid d) u) ->
        product_id item <> pid)
  /\ (forall upd c, tg_id (upd_user upd) = u -> cx_db c = delete_product pid d ->
        order_items (cx_data (fst (checkout upd c)))
        = match List.filter (fun item => negb (product_id item =? pid))
                  (get_cart_items d u) with
          | [] => order_items (cx_data c)
          | items => Some items
          end)
  /\ (forall upd c, tg_id (upd_user upd) = u -> cx_db c = delete_product pid d ->
        cx_sent (fst (show_cart upd c))
        = cx_sent c
          ++ [(u, scr_cart
                    (List.filter (fun item => negb (product_id item =? pid))
                       (get_cart_items d u))
                    (items_total
                       (List.filter (fun item => negb (product_id item =? pid))
                          (get_cart_items d u))))]).
Proof.
  split; [intros; apply in_get_cart_items|].
  split; [reflexivity|].
  split; [apply get_cart_items_delete_product|].
  split.
  - intros item Hin. rewrite get_cart_items_delete_product in Hin.
    apply filter_In in Hin as [_ Hne]. apply negb_true_iff in Hne. lia.
  - split; intros upd c <- Hdb.
    + unfold checkout. rewrite Hdb, get_cart_items_delete_product.
      destruct (List.filter _ _); reflexivity.
    + unfold show_cart. simpl. rewrite Hdb, get_cart_items_delete_product.
      reflexivity.
Qed.

(** C9. A soft deletion takes the product out of the listing of every
    category and leaves the other listed products listed; a listing holds
    the active rows of its category only, newest first; the order table is
    the one before the deletion, with every snapshot of a name and a
    price in it; and no field of a product row but [is_active] changes. *)
Theorem soft_delete_listing_and_orders d pid :
  (forall category p,
     In p (get_products_by_category (delete_product pid d) category) <->
     In p (get_products_by_category d category) /\ p_id p <> Some pid)
  /\ (forall category p,
        In p (get_products_by_category d category) ->
        p_is_active p = true /\ p_category p = category)
  /\ (forall category,
        get_products_by_category d category
        = map Product_of_row (select_products_by_category d category)
        /\ StronglySorted newer_or_same (select_products_by_category d category))
  /\ orders (delete_product pid d) = orders d
  /\ Forall2 (soft_deleted pid) (products d) (products (delete_product pid d)).
Proof.
  split; [|split; [|split; [|split]]].
  - intros category p. unfold get_products_by_category.
    rewrite !in_map_iff. split.
    + intros (r & <- & Hin). apply in_select_products_delete in Hin as [Hin Hne].
      split; [exists r; auto|]. simpl. congruence.
    + intros ((r & <- & Hin) & Hne). exists r. split; [reflexivity|].
      apply in_select_products_delete. split; [exact Hin|].
      simpl in Hne. congruence.
  - intros category p Hin. unfold get_products_by_category in Hin.
    apply in_map_iff in Hin as (r & <- & Hin).
    apply in_select_products in Hin. simpl. tauto.
  - intros category. split; [reflexivity|apply select_products_sorted].
  - reflexivity.
  - apply delete_product_frame.
Qed.

(** ** Committing an order *)

Lemma notify_admins_keeps order_id c :
  cx_db (notify_admins_new_order order_id c) = cx_db c
  /\ cx_data (notify_admins_new_order order_id c) = cx_data c.
Proof.
  unfold notify_admins_new_order. revert c.
  induction ADMIN_IDS as [|a l IH]; intros c; simpl; [split; reflexivity|].
  destruct (IH (send a (scr_new_order order_id) c)) as [-> ->].
  split; reflexivity.
Qed.

Lemma order_sum_of_items items acc :
  fold_left
    (fun total p => fadd total (fmul (op_price p) (float_of_int (op_quantity p))))
    (map order_product_of items) acc
  = fold_left
      (fun total item =>
         fadd total (fmul (product_price item) (float_of_int (quantity item))))
      items acc
  /\ fold_left (fun total p => fadd total (op_total p))
       (map order_product_of items) acc
     = fold_left
         (fun total item =>
            fadd total (fmul (product_price item) (float_of_int (quantity item))))
         items acc.
Proof.
  revert acc. induction items as [|i items IH]; intros acc; simpl;
    [split; reflexivity|]. apply IH.
Qed.

(** The line items [finish_order] builds record the items, one by one. *)
Lemma lines_of_items items :
  Forall2 line_of_item (map order_product_of items) items.
Proof.
  induction items as [|item items IH]; simpl; constructor; [|exact IH].
  unfold line_of_item. simpl. repeat split; reflexivity.
Qed.

Lemma step_finish_order w u item items :
  let uid := tg_id (upd_user u) in
  upd_event u = Button cb_finish_order ->
  state_of w uid = Some ORDER_COMMENT ->
  order_items (data_of w uid) = Some (item :: items) ->
  db (step u w)
  = clear_cart uid
      (set_orders (fun rows => rows ++
         [committed_order (upd_time u) uid (data_of w uid) (db w) (item :: items)])
         (next_rowid (orders_seq (db w)) (map o_id (orders (db w)))) (db w))
  /\ state_of (step u w) uid = Some MAIN_MENU
  /\ order_items (data_of (step u w) uid) = None.
Proof.
  intros uid He Hs Hi. unfold state_of, data_of, step in *. fold uid.
  rewrite Hs, He. simpl. unfold get_order_comment. rewrite He.
  unfold finish_order. simpl. fold uid. rewrite Hi. simpl.
  match goal with
  | |- context [notify_admins_new_order ?o ?c] =>
      destruct (notify_admins_keeps o c) as [-> ->]
  end.
  rewrite !lookup_insert_eq. simpl. repeat split; reflexivity.
Qed.

(** C3. After [finish_order] has committed a non-empty snapshot, a cart
    read of the user returns the empty list, and the total recorded on the
    new order row is the sum over its line items of unit price times
    quantity, which is also the sum of the totals of its line items. *)
Theorem commit_empties_cart_and_totals w u uid item items :
  tg_id (upd_user u) = uid ->
  upd_event u = Button cb_finish_order ->
  state_of w uid = Some ORDER_COMMENT ->
  order_items (data_of w uid) = Some (item :: items) ->
  get_cart_items (db (step u w)) uid = []
  /\ exists o,
       orders (db (step u w)) = orders (db w) ++ [o]
       /\ o_user_id o = uid
       /\ o_products o = map order_product_of (item :: items)
       /\ o_total_amount o = order_sum (o_products o)
       /\ o_total_amount o = order_lines_sum (o_products o).
Proof.
  intros <- He Hs Hi.
  destruct (step_finish_order w u item items He Hs Hi) as (Hdb & _ & _).
  rewrite Hdb. split; [apply get_cart_items_clear|].
  eexists. split; [reflexivity|].
  split; [reflexivity|]. split; [reflexivity|].
  unfold order_sum, order_lines_sum, committed_order, o_products, o_total_amount.
  destruct (order_sum_of_items (item :: items) fzero) as [-> ->].
  split; reflexivity.
Qed.

(** C2. Two finish-checkout events of a user for one non-empty cart,
    processed one after the other, add exactly one row to the order
    table: the second finds the conversation in MAIN_MENU, where no
    handler admits it, and changes nothing. *)
Theorem double_finish_one_order w u1 u2 uid item items :
  tg_id (upd_user u1) = uid ->
  tg_id (upd_user u2) = uid ->
  upd_event u1 = Button cb_finish_order ->
  upd_event u2 = Button cb_finish_order ->
  state_of w uid = Some ORDER_COMMENT ->
  order_items (data_of w uid) = Some (item :: items) ->
  length (orders (db (step u2 (step u1 w)))) = S (length (orders (db w)))
  /\ step u2 (step u1 w) = step u1 w.
Proof.
  intros <- Hu He1 He2 Hs Hi.
  destruct (step_finish_order w u1 item items He1 Hs Hi) as (Hdb & Hs1 & _).
  assert (Hsame : step u2 (step u1 w) = step u1 w).
  { apply step_no_handler. rewrite Hu, Hs1, He2. reflexivity. }
  split; [|exact Hsame].
  rewrite Hsame, Hdb. simpl. rewrite length_app. simpl. lia.
Qed.

(** ** The snapshot of a checkout *)

Lemma step_checkout w u :
  let uid := tg_id (upd_user u) in
  upd_event u = Button cb_checkout ->
  state_of w uid = Some CART_VIEW ->
  get_cart_items (db w) uid <> [] ->
  state_of (step u w) uid = Some ORDER_PHONE
  /\ order_items (data_of (step u w) uid) = Some (get_cart_items (db w) uid)
  /\ db (step u w) = db w.
Proof.
  intros uid He Hs Hne. unfold state_of, data_of, step in *. fold uid.
  rewrite Hs, He. simpl. unfold checkout. simpl. fold uid.
  destruct (get_cart_items (db w) uid) as [|i l]; [congruence|]. simpl.
  rewrite !lookup_insert_eq. repeat split; reflexivity.
Qed.

(** In the order flow the user's own updates, the cancel and the finish
    apart, keep the flow and the snapshot. *)
Lemma step_keeps_checkout w u snap :
  let uid := tg_id (upd_user u) in
  in_order_flow (state_of w uid) ->
  order_items (data_of w uid) = Some snap ->
  upd_event u <> cmd_cancel -> upd_event u <> Button cb_finish_order ->
  in_order_flow (state_of (step u w) uid)
  /\ order_items (data_of (step u w) uid) = Some snap.
Proof.
  intros uid Hs Hi Hc Hf. unfold in_order_flow, state_of, data_of, step in *.
  fold uid.
  destruct Hs as [Hs|[Hs|Hs]]; rewrite Hs;
    destruct (upd_event u) as [| | |text|file|[]|] eqn:He; simpl;
    try congruence; try (rewrite Hs; tauto).
  all: unfold get_order_phone, get_order_address, get_order_comment; simpl;
    rewrite ?He;
    try destruct (_ <? _)%nat; simpl; rewrite !lookup_insert_eq; simpl; tauto.
Qed.

Lemma act_keeps_checkout w a uid snap :
  in_order_flow (state_of w uid) ->
  order_items (data_of w uid) = Some snap ->
  keeps_checkout uid a ->
  in_order_flow (state_of (act w a) uid)
  /\ order_items (data_of (act w a) uid) = Some snap.
Proof.
  intros Hs Hi Hk. destruct a as [u|user_id o]; simpl in *; [|tauto].
  destruct (decide (tg_id (upd_user u) = uid)) as [<-|Hne].
  - destruct Hk as [Hc Hf]; [reflexivity|]. apply step_keeps_checkout; assumption.
  - destruct (step_other_user u w uid Hne) as [-> ->]. tauto.
Qed.

Lemma run_keeps_checkout acts w uid snap :
  in_order_flow (state_of w uid) ->
  order_items (data_of w uid) = Some snap ->
  Forall (keeps_checkout uid) acts ->
  in_order_flow (state_of (run acts w) uid)
  /\ order_items (data_of (run acts w) uid) = Some snap.
Proof.
  unfold run. revert w. induction acts as [|a acts IH]; intros w Hs Hi Hk;
    simpl; [tauto|].
  inversion Hk as [|? ? Ha Hacts]; subst.
  destruct (act_keeps_checkout w a uid snap Hs Hi Ha) as [Hs' Hi'].
  apply IH; assumption.
Qed.

(** C1. The line items of the order a checkout commits are the cart read
    taken when the checkout event was accepted in CART_VIEW: whatever
    cart operations reach the ledger and whatever updates are delivered
    between the entry into ORDER_PHONE and the finish-order event (the
    user's own cancel apart, which leaves the checkout), the order row the
    finish-order event appends carries that snapshot, item by item: line
    [k] has the product id, the name, the unit price and the quantity of
    item [k] of the read, and their product as its total. *)
Theorem checkout_snapshot_committed w u_checkout acts u_finish uid :
  tg_id (upd_user u_checkout) = uid ->
  upd_event u_checkout = Button cb_checkout ->
  state_of w uid = Some CART_VIEW ->
  get_cart_items (db w) uid <> [] ->
  Forall (keeps_checkout uid) acts ->
  tg_id (upd_user u_finish) = uid ->
  upd_event u_finish = Button cb_finish_order ->
  state_of (run acts (step u_checkout w)) uid = Some ORDER_COMMENT ->
  state_of (step u_checkout w) uid = Some ORDER_PHONE
  /\ exists o,
       orders (db (step u_finish (run acts (step u_checkout w))))
       = orders (db (run acts (step u_checkout w))) ++ [o]
       /\ o_user_id o = uid
       /\ o_products o = map order_product_of (get_cart_items (db w) uid)
       /\ Forall2 line_of_item (o_products o) (get_cart_items (db w) uid).
Proof.
  intros <- Hc Hs Hne Hacts Hu Hf Hs2.
  destruct (step_checkout w u_checkout Hc Hs Hne) as (Hs1 & Hi1 & _).
  split; [exact Hs1|].
  destruct (run_keeps_checkout acts (step u_checkout w) _ _
              (or_introl Hs1) Hi1 Hacts) as [_ Hi2].
  destruct (get_cart_items (db w) (tg_id (upd_user u_checkout)))
    as [|item items] eqn:Hsnap; [congruence|].
  rewrite <- Hu in Hs2, Hi2.
  destruct (step_finish_order _ u_finish item items Hf Hs2 Hi2) as (Hdb & _ & _).
  rewrite Hdb. eexists. split; [reflexivity|].
  split; [exact Hu|]. split; [reflexivity|]. apply lines_of_items.
Qed.

(** ** Cancelling *)

(** In every dialog state the command /cancel is admitted and moves the
    conversation to MAIN_MENU; [cancel] writes nothing to the session, to
    the products, to the carts or to the orders. *)
Lemma cancel_returns_to_main_menu w u uid s :
  tg_id (upd_user u) = uid ->
  upd_event u = cmd_cancel ->
  state_of w uid = Some s ->
  state_of (step u w) uid = Some MAIN_MENU
  /\ data_of (step u w) uid = data_of w uid
  /\ products (db (step u w)) = products (db w)
  /\ cart (db (step u w)) = cart (db w)
  /\ orders (db (step u w)) = orders (db w)
  /\ sent (step u w) = sent w ++ [(uid, scr_cancelled); (uid, scr_welcome)].
Proof.
  intros <- He Hs. unfold state_of, data_of, step in *. rewrite Hs, He.
  assert (Hh : handler_for (Some s) cmd_cancel = Some cancel)
    by (destruct s; reflexivity).
  rewrite Hh. simpl. rewrite !lookup_insert_eq. simpl.
  rewrite <- app_assoc. repeat split; reflexivity.
Qed.

(** ** Adding to the cart from the product view *)

(** A product without a row is reported as not found and the cart table is
    left as it was. *)
Lemma step_add_cart_missing w u pid :
  upd_event u = Button (cb_add_cart pid) ->
  state_of w (tg_id (upd_user u)) = Some PRODUCT_VIEW ->
  get_product_by_id (db w) pid = None ->
  db (step u w) = db w
  /\ state_of (step u w) (tg_id (upd_user u)) = Some PRODUCT_VIEW
  /\ sent (step u w) = sent w ++ [(tg_id (upd_user u), alert_not_found)].
Proof.
  unfold state_of, step. intros -> -> Hp. simpl.
  unfold bot_add_to_cart. simpl. rewrite Hp. simpl.
  rewrite lookup_insert_eq. repeat split; reflexivity.
Qed.

(** ** Deleting a product *)

(** The delete request checks the role of the sender. *)
Lemma delete_request_guarded w u pid :
  upd_event u = Button (cb_delete_product pid) ->
  state_of w (tg_id (upd_user u)) = Some PRODUCT_VIEW ->
  is_admin (db w) (tg_id (upd_user u)) = false ->
  db (step u w) = db w
  /\ state_of (step u w) (tg_id (upd_user u)) = Some PRODUCT_VIEW
  /\ sent (step u w) = sent w ++ [(tg_id (upd_user u), alert_no_access)].
Proof.
  unfold state_of, step. intros -> -> Ha. simpl.
  unfold bot_delete_product. simpl. rewrite Ha. simpl.
  rewrite lookup_insert_eq. repeat split; reflexivity.
Qed.

(** The confirmation deletes whoever sends it. *)
Lemma confirm_delete_unguarded w u pid :
  upd_event u = Button (cb_confirm_delete pid) ->
  state_of w (tg_id (upd_user u)) = Some PRODUCT_VIEW ->
  db (step u w) = delete_product pid (db w)
  /\ state_of (step u w) (tg_id (upd_user u)) = Some CATALOG.
Proof.
  unfold state_of, step. intros -> ->. simpl.
  unfold confirm_delete_product. simpl.
  destruct (truthy _); simpl; rewrite lookup_insert_eq; split; reflexivity.
Qed.

(** ** Validation of the text fields *)

Lemma length_lstrip_with sp s : (length (lstrip_with sp s) <= length s)%nat.
Proof.
  induction s as [|c s IH]; simpl; [lia|]. destruct (sp c); simpl; lia.
Qed.

Lemma length_strip s : (length (strip s) <= length s)%nat.
Proof.
  unfold strip, strip_with. rewrite length_rev.
  etransitivity; [apply length_lstrip_with|]. rewrite length_rev.
  apply length_lstrip_with.
Qed.

(** A text shorter than the minimum of its field is answered with the
    prompt of the field: the state, the session data and the database stay
    as they are. *)
Lemma short_text_rejected w u uid text :
  tg_id (upd_user u) = uid ->
  upd_event u = Text text ->
  (state_of w uid = Some WAITING_NAME /\ (length text < 3)%nat)
  \/ (state_of w uid = Some WAITING_DESCRIPTION /\ (length text < 10)%nat)
  \/ (state_of w uid = Some ORDER_PHONE /\ (length text < 10)%nat)
  \/ (state_of w uid = Some ORDER_ADDRESS /\ (length text < 10)%nat) ->
  state_of (step u w) uid = state_of w uid
  /\ data_of (step u w) uid = data_of w uid
  /\ db (step u w) = db w.
Proof.
  intros <- He Hcase. pose proof (length_strip text) as Hlen.
  unfold state_of, data_of, step in *.
  destruct Hcase as [[Hs Hl]|[[Hs Hl]|[[Hs Hl]|[Hs Hl]]]]; rewrite Hs, He; simpl;
    unfold get_product_name, get_product_description, get_order_phone,
      get_order_address;
    match goal with
    | |- context [(?a <? ?b)%nat] =>
        replace (a <? b)%nat with true by (symmetry; apply Nat.ltb_lt; lia)
    end; simpl; rewrite !lookup_insert_eq; repeat split; reflexivity.
Qed.

Lemma fgt0_not_fle0 p : fgt0 p = true -> fle0 p = false.
Proof. destruct p as [[]|[]| |[] m e]; simpl; intros H; try discriminate H; reflexivity. Qed.

(** What the price check lets through: a text [float()] cannot parse, or
    whose value is zero or negative, is refused, and one whose value is
    above zero is taken. *)
Lemma parse_price_cases text :
  let normal := commas_to_dots (remove_spaces (strip text)) in
  (py_float unicode_decimal normal = None -> parse_price text = None)
  /\ (forall p, py_float unicode_decimal normal = Some p ->
        fle0 p = true -> parse_price text = None)
  /\ (forall p, py_float unicode_decimal normal = Some p ->
        fgt0 p = true -> parse_price text = Some p).
Proof.
  unfold parse_price. cbv zeta. split; [intros ->; reflexivity|].
  split; intros p -> Hp; [rewrite Hp; reflexivity|].
  rewrite (fgt0_not_fle0 p Hp). reflexivity.
Qed.

(** In WAITING_PRICE a refused text keeps the state and the draft, a text
    that is taken puts its value on the draft and moves on. *)
Lemma price_step w u uid text :
  tg_id (upd_user u) = uid ->
  upd_event u = Text text ->
  state_of w uid = Some WAITING_PRICE ->
  match parse_price text with
  | None =>
      state_of (step u w) uid = Some WAITING_PRICE
      /\ data_of (step u w) uid = data_of w uid /\ db (step u w) = db w
  | Some price =>
      forall draft, new_product (data_of w uid) = Some draft ->
        state_of (step u w) uid = Some WAITING_CATEGORY
        /\ new_product (data_of (step u w) uid) = Some (set_price price draft)
  end.
Proof.
  intros <- He Hs. unfold state_of, data_of, step in *. rewrite Hs, He. simpl.
  unfold get_product_price. destruct (parse_price text) as [price|]; simpl.
  - intros draft Hd. unfold update_draft. simpl. rewrite Hd. simpl.
    rewrite !lookup_insert_eq. split; reflexivity.
  - rewrite !lookup_insert_eq. repeat split; reflexivity.
Qed.


(** ** The user table *)

Lemma find_app_first {A} (f : A -> bool) (l1 l2 : list A) :
  List.find f (l1 ++ l2)
  = match List.find f l1 with
    | Some x => Some x
    | None => List.find f l2
    end.
Proof.
  induction l1 as [|x l1 IH]; simpl; [reflexivity|].
  destruct (f x); [reflexivity|exact IH].
Qed.

Lemma find_filter_other {A} (f g : A -> bool) (l : list A) :
  (forall x, f x = true -> g x = true) ->
  List.find f (List.filter g l) = List.find f l.
Proof.
  intros Hfg. induction l as [|x l IH]; simpl; [reflexivity|].
  destruct (g x) eqn:Eg; simpl.
  - destruct (f x); [reflexivity|exact IH].
  - destruct (f x) eqn:Ef; [|exact IH].
    rewrite (Hfg x Ef) in Eg. discriminate Eg.
Qed.

Lemma find_filter_none {A} (f g : A -> bool) (l : list A) :
  (forall x, f x = true -> g x = false) ->
  List.find f (List.filter g l) = None.
Proof.
  intros Hfg. induction l as [|x l IH]; simpl; [reflexivity|].
  destruct (g x) eqn:Eg; simpl; [|exact IH].
  destruct (f x) eqn:Ef; [|exact IH].
  rewrite (Hfg x Ef) in Eg. discriminate Eg.
Qed.

Lemma NoDup_map_filter {A B} (k : A -> B) (g : A -> bool) (l : list A) :
  NoDup (map k l) -> NoDup (map k (List.filter g l)).
Proof.
  induction l as [|x l IH]; simpl; intros Hnd; [constructor|].
  apply NoDup_cons in Hnd as [Hx Hl].
  destruct (g x); simpl; [|auto].
  apply NoDup_cons. split; [|auto].
  rewrite list_elem_of_In, in_map_iff in *.
  intros (y & Hy & Hin). apply Hx. exists y. split; [exact Hy|].
  apply filter_In in Hin. tauto.
Qed.

Lemma get_user_save_user_same now user d :
  get_user (save_user now user d) (u_id user)
  = Some {| u_id := u_id user; u_username := u_username user;
            u_first_name := u_first_name user; u_last_name := u_last_name user;
            u_phone := u_phone user; u_is_admin := u_is_admin user;
            u_created_at := Some now |}.
Proof.
  unfold get_user, save_user. simpl. rewrite find_app_first, find_filter_none.
  - simpl. rewrite Z.eqb_refl. reflexivity.
  - intros x Hx. rewrite Hx. reflexivity.
Qed.

Lemma get_user_save_user_other now user d j :
  j <> u_id user -> get_user (save_user now user d) j = get_user d j.
Proof.
  intros Hne. unfold get_user, save_user. simpl.
  rewrite find_app_first, find_filter_other.
  - destruct (List.find _ (users d)); [reflexivity|]. simpl.
    replace (u_id user =? j) with false by (symmetry; lia). reflexivity.
  - intros x Hx. apply negb_true_iff. lia.
Qed.

Lemma save_user_nodup now user d :
  NoDup (map u_id (users d)) -> NoDup (map u_id (users (save_user now user d))).
Proof.
  intros Hnd. unfold save_user. simpl. rewrite map_app. simpl.
  apply NoDup_app. split; [apply NoDup_map_filter, Hnd|].
  split; [|apply NoDup_singleton].
  intros i Hi Hin. apply list_elem_of_singleton in Hin. subst i.
  apply list_elem_of_In, in_map_iff in Hi as (x & Hx & Hin).
  apply filter_In in Hin as [_ Hf]. apply negb_true_iff in Hf. lia.
Qed.

(** X1. A saved user is read back under its id, with the fields given and
    the time of the save; the rows of the other ids are read as before; and
    the ids of the table stay distinct. *)
Theorem save_user_get_user now user d :
  get_user (save_user now user d) (u_id user)
  = Some {| u_id := u_id user; u_username := u_username user;
            u_first_name := u_first_name user; u_last_name := u_last_name user;
            u_phone := u_phone user; u_is_admin := u_is_admin user;
            u_created_at := Some now |}
  /\ (forall j, j <> u_id user -> get_user (save_user now user d) j = get_user d j)
  /\ (NoDup (map u_id (users d)) ->
      NoDup (map u_id (users (save_user now user d)))).
Proof.
  split; [apply get_user_save_user_same|].
  split; [intros; apply get_user_save_user_other; assumption|].
  apply save_user_nodup.
Qed.

(** ** The product table *)

Lemma next_rowid_above seq ids :
  seq < next_rowid seq ids /\ forall i, In i ids -> i < next_rowid seq ids.
Proof.
  unfold next_rowid. induction ids as [|j ids [IH1 IH2]]; simpl.
  - split; [lia|]. intros i [].
  - split; [lia|]. intros i [->|Hi]; [lia|]. specialize (IH2 i Hi). lia.
Qed.

Lemma find_none_not_in {A} (f : A -> bool) (l : list A) :
  (forall x, In x l -> f x = false) -> List.find f l = None.
Proof.
  induction l as [|x l IH]; simpl; intros H; [reflexivity|].
  rewrite (H x (or_introl eq_refl)). apply IH. intros y Hy. apply H. right. exact Hy.
Qed.

(** The row an INSERT of [save_product] writes. *)
Lemma save_product_insert_row now product d :
  (p_id product = None \/ p_id product = Some 0) ->
  is_nan (p_price product) = false ->
  save_product now product d
  = Some (next_rowid (products_seq d) (map pr_id (products d)),
          set_products (fun rows => rows ++
            [{| pr_id := next_rowid (products_seq d) (map pr_id (products d));
                pr_name := p_name product;
                pr_description := p_description product;
                pr_price := p_price product; pr_category := p_category product;
                pr_images := p_images product; pr_created_at := now;
                pr_is_active := p_is_active product |}])
            (next_rowid (products_seq d) (map pr_id (products d))) d).
Proof.
  intros Hid Hnan. unfold save_product, insert_product. rewrite Hnan.
  destruct Hid as [-> | ->]; reflexivity.
Qed.

(** X2. Saving a product that has no id yet (and a price that is a number)
    appends one row under an id above every id of the table and above the
    last id handed out; the product is read back under that id with the
    time of the save, the other ids read as before, and the product is
    listed in its category when it is active. *)
Theorem save_product_insert_lookup now product d :
  (p_id product = None \/ p_id product = Some 0) ->
  is_nan (p_price product) = false ->
  exists i d',
    save_product now product d = Some (i, d')
    /\ products_seq d < i
    /\ (forall r, In r (products d) -> pr_id r < i)
    /\ length (products d') = S (length (products d))
    /\ get_product_by_id d' i
       = Some {| p_id := Some i; p_name := p_name product;
                 p_description := p_description product;
                 p_price := p_price product; p_category := p_category product;
                 p_images := p_images product; p_created_at := Some now;
                 p_is_active := p_is_active product |}
    /\ (forall j, j <> i -> get_product_by_id d' j = get_product_by_id d j)
    /\ (p_is_active product = true ->
        In {| p_id := Some i; p_name := p_name product;
              p_description := p_description product;
              p_price := p_price product; p_category := p_category product;
              p_images := p_images product; p_created_at := Some now;
              p_is_active := true |}
           (get_products_by_category d' (p_category product))).
Proof.
  intros Hid Hnan. rewrite (save_product_insert_row now product d Hid Hnan).
  destruct (next_rowid_above (products_seq d) (map pr_id (products d))) as [Hseq Hids].
  set (i := next_rowid (products_seq d) (map pr_id (products d))) in *.
  eexists _, _. split; [reflexivity|]. split; [exact Hseq|].
  assert (Hlt : forall r, In r (products d) -> pr_id r < i).
  { intros r Hr. apply Hids, in_map, Hr. }
  split; [exact Hlt|].
  split; [simpl; rewrite length_app; simpl; lia|].
  split; [|split].
  - unfold get_product_by_id. simpl. rewrite find_app_first, find_none_not_in.
    + simpl. rewrite Z.eqb_refl. reflexivity.
    + intros r Hr. specialize (Hlt r Hr). lia.
  - intros j Hj. unfold get_product_by_id. simpl. rewrite find_app_first.
    destruct (List.find _ (products d)); [reflexivity|]. simpl.
    replace (i =? j) with false by (symmetry; lia). reflexivity.
  - intros Hact. unfold get_products_by_category. apply in_map_iff.
    eexists. split; [|apply in_select_products; simpl; split;
      [apply in_or_app; right; left; reflexivity|split; [reflexivity|exact Hact]]].
    unfold Product_of_row. simpl. rewrite Hact. reflexivity.
Qed.

Lemma existsb_find {A} (f : A -> bool) (l : list A) :
  existsb f l = match List.find f l with Some _ => true | None => false end.
Proof.
  induction l as [|x l IH]; simpl; [reflexivity|].
  destruct (f x); [reflexivity|exact IH].
Qed.

(** X3. Saving a product under an id [i] that is not zero rewrites the
    rows of that id and nothing else: ids, creation times and the rows of
    other ids are kept, and the product read under [i] has the new fields.
    When no row holds [i] the database is the one before, although [i] is
    returned, whatever the price.  The save is refused, and nothing is
    written, exactly when the price is not a number and a row holds
    [i]. *)
Theorem save_product_update_rows now product d i :
  p_id product = Some i -> i <> 0 ->
  (save_product now product d = None
   <-> is_nan (p_price product) = true /\ is_Some (get_product_by_id d i))
  /\ (get_product_by_id d i = None -> save_product now product d = Some (i, d))
  /\ (forall j d',
        save_product now product d = Some (j, d') ->
        j = i
        /\ map pr_id (products d') = map pr_id (products d)
        /\ map pr_created_at (products d') = map pr_created_at (products d)
        /\ (forall k, k <> i -> get_product_by_id d' k = get_product_by_id d k)
        /\ get_product_by_id d' i
           = (fun old =>
                {| p_id := Some i; p_name := p_name product;
                   p_description := p_description product;
                   p_price := p_price product; p_category := p_category product;
                   p_images := p_images product; p_created_at := p_created_at old;
                   p_is_active := p_is_active product |}) <$> get_product_by_id d i
        /\ users d' = users d /\ cart d' = cart d /\ orders d' = orders d).
Proof.
  intros Hid Hi. unfold save_product, update_product. rewrite Hid.
  replace (i =? 0) with false by (symmetry; lia).
  rewrite existsb_find.
  assert (Hsame : List.find (fun r => pr_id r =? i) (products d) = None ->
            set_products (map (fun r =>
              if pr_id r =? i then
                {| pr_id := pr_id r; pr_name := p_name product;
                   pr_description := p_description product;
                   pr_price := p_price product; pr_category := p_category product;
                   pr_images := p_images product; pr_created_at := pr_created_at r;
                   pr_is_active := p_is_active product |}
              else r)) (products_seq d) d = d).
  { intros Hf.
    assert (Hall : forall r, In r (products d) -> (pr_id r =? i) = false).
    { intros r Hr. destruct (pr_id r =? i) eqn:E; [|reflexivity].
      eapply find_none in Hf; [|exact Hr]. simpl in Hf. congruence. }
    destruct d as [us ps pseq ct os oseq cats]. unfold set_products. simpl in *.
    f_equal. rewrite <- (map_id ps) at 2. apply map_ext_in.
    intros r Hr. rewrite (Hall r Hr). reflexivity. }
  split; [|split].
  - unfold get_product_by_id.
    destruct (is_nan (p_price product)),
      (List.find (fun r => pr_id r =? i) (products d)); simpl; split;
      try discriminate; try reflexivity.
    + intros _. split; [reflexivity|eexists; reflexivity].
    + intros [_ [x Hx]]. discriminate Hx.
    + intros [Hx _]. discriminate Hx.
    + intros [Hx _]. discriminate Hx.
  - unfold get_product_by_id. intros Hnone.
    destruct (List.find _ (products d)) eqn:Hf; [discriminate Hnone|].
    rewrite andb_false_r, Hsame by reflexivity. reflexivity.
  - clear Hsame. intros j d' Hsave.
    destruct (is_nan (p_price product) && _); [discriminate Hsave|].
    injection Hsave as <- <-. simpl.
    split; [reflexivity|]. split; [|split; [|split; [|split]]].
    + rewrite map_map. apply map_ext. intros r. destruct (pr_id r =? i); reflexivity.
    + rewrite map_map. apply map_ext. intros r. destruct (pr_id r =? i); reflexivity.
    + intros k Hk. unfold get_product_by_id. simpl.
      induction (products d) as [|r rows IH]; simpl; [reflexivity|].
      destruct (pr_id r =? i) eqn:E; simpl.
      * replace (pr_id r =? k) with false by (symmetry; lia).
        replace (pr_id r =? k) with false in IH by (symmetry; lia). exact IH.
      * destruct (pr_id r =? k); [reflexivity|exact IH].
    + unfold get_product_by_id. simpl.
      induction (products d) as [|r rows IH]; simpl; [reflexivity|].
      destruct (pr_id r =? i) eqn:E; simpl; rewrite E; simpl; [|exact IH].
      f_equal. unfold Product_of_row. simpl. f_equal. f_equal. lia.
    + repeat split; reflexivity.
Qed.

(** ** Carts of different users, and removal *)

Lemma get_cart_items_user_rows d v :
  get_cart_items d v
  = flat_map (fun c =>
      map (fun p =>
             {| product_id := c_product_id c; quantity := c_quantity c;
                product_name := pr_name p; product_price := pr_price p |})
        (List.filter (fun p => (pr_id p =? c_product_id c) && pr_is_active p)
           (products d)))
      (sort_by by_product_id
         (List.filter (fun c => c_user_id c =? v) (cart d))).
Proof. reflexivity. Qed.

Lemma get_cart_items_same_rows d d' v :
  List.filter (fun c => c_user_id c =? v) (cart d')
  = List.filter (fun c => c_user_id c =? v) (cart d) ->
  products d' = products d ->
  get_cart_items d' v = get_cart_items d v.
Proof.
  intros Hc Hp. rewrite !get_cart_items_user_rows, Hc, Hp. reflexivity.
Qed.

Lemma filter_filter_other {A} (f g : A -> bool) (l : list A) :
  (forall x, f x = true -> g x = true) ->
  List.filter f (List.filter g l) = List.filter f l.
Proof.
  intros Hfg. induction l as [|x l IH]; simpl; [reflexivity|].
  destruct (g x) eqn:Eg; simpl.
  - destruct (f x); rewrite IH; reflexivity.
  - destruct (f x) eqn:Ef; [|exact IH].
    rewrite (Hfg x Ef) in Eg. discriminate Eg.
Qed.

Lemma other_user_not_key u p v c :
  v <> u -> (c_user_id c =? v) = true -> negb (cart_key u p c) = true.
Proof.
  intros Hne Hv. unfold cart_key.
  replace (c_user_id c =? u) with false by (symmetry; lia). reflexivity.
Qed.

Lemma other_user_rows_add d u p n v :
  v <> u ->
  List.filter (fun c => c_user_id c =? v) (cart (add_to_cart u p n d))
  = List.filter (fun c => c_user_id c =? v) (cart d).
Proof.
  intros Hne. unfold add_to_cart. destruct (int64 n); [|reflexivity].
  simpl. rewrite List.filter_app. simpl.
  replace (u =? v) with false by (symmetry; lia). rewrite app_nil_r.
  apply filter_filter_other. intros c. apply other_user_not_key, Hne.
Qed.

Lemma other_user_rows_remove d u p v :
  v <> u ->
  List.filter (fun c => c_user_id c =? v) (cart (remove_from_cart u p d))
  = List.filter (fun c => c_user_id c =? v) (cart d).
Proof.
  intros Hne. unfold remove_from_cart. simpl.
  apply filter_filter_other. intros c. apply other_user_not_key, Hne.
Qed.

Lemma other_user_rows_clear d u v :
  v <> u ->
  List.filter (fun c => c_user_id c =? v) (cart (clear_cart u d))
  = List.filter (fun c => c_user_id c =? v) (cart d).
Proof.
  intros Hne. unfold clear_cart. simpl.
  apply filter_filter_other. intros c Hc. apply negb_true_iff. lia.
Qed.

(** X4. The cart operations of one user leave the carts of the others
    alone: after an add, a removal or a clear by [u], every other user
    reads the cart read before. *)
Theorem cart_operations_isolated d u v o :
  v <> u ->
  List.filter (fun c => c_user_id c =? v) (cart (apply_cart_op u o d))
  = List.filter (fun c => c_user_id c =? v) (cart d)
  /\ get_cart_items (apply_cart_op u o d) v = get_cart_items d v.
Proof.
  intros Hne.
  assert (Hrows : List.filter (fun c => c_user_id c =? v) (cart (apply_cart_op u o d))
                  = List.filter (fun c => c_user_id c =? v) (cart d)).
  { destruct o as [p n|p|]; simpl.
    - apply other_user_rows_add, Hne.
    - apply other_user_rows_remove, Hne.
    - apply other_user_rows_clear, Hne. }
  split; [exact Hrows|].
  apply get_cart_items_same_rows; [exact Hrows|].
  destruct o as [p n|p|]; simpl; [|reflexivity..].
  unfold add_to_cart. destruct (int64 n); reflexivity.
Qed.

Lemma get_cart_items_remove d u p :
  get_cart_items (remove_from_cart u p d) u
  = List.filter (fun item => negb (product_id item =? p)) (get_cart_items d u).
Proof.
  unfold get_cart_items, remove_from_cart. simpl.
  assert (Hrows :
    List.filter (fun c => c_user_id c =? u)
      (List.filter (fun c => negb (cart_key u p c)) (cart d))
    = List.filter (fun c => negb (c_product_id c =? p))
        (List.filter (fun c => c_user_id c =? u) (cart d))).
  { induction (cart d) as [|c l IH]; simpl; [reflexivity|].
    unfold cart_key at 1.
    destruct (c_user_id c =? u) eqn:Eu; simpl;
      [destruct (c_product_id c =? p) eqn:Ep; simpl|];
      rewrite ?Eu, ?Ep; simpl; rewrite IH; reflexivity. }
  rewrite Hrows, <- filter_sort_by by apply _.
  induction (sort_by by_product_id _) as [|c l IH]; simpl; [reflexivity|].
  rewrite List.filter_app, <- IH. clear IH.
  destruct (c_product_id c =? p) eqn:Ep; simpl.
  - induction (List.filter _ (products d)) as [|q qs IHq]; simpl; [reflexivity|].
    rewrite Ep. simpl. exact IHq.
  - f_equal.
    induction (List.filter _ (products d)) as [|q qs IHq]; simpl; [reflexivity|].
    rewrite Ep. simpl. f_equal. exact IHq.
Qed.

(** X5. A removal deletes the row of the pair and no other row: the pair
    has no row and quantity 0 afterwards, the other rows are the ones
    before, the user's cart read loses the items of the product and no
    other, and a removal after an add is the removal alone. *)
Theorem remove_from_cart_removes_pair d u p :
  List.filter (cart_key u p) (cart (remove_from_cart u p d)) = []
  /\ cart_quantity (remove_from_cart u p d) u p = 0
  /\ List.filter (fun c => negb (cart_key u p c)) (cart (remove_from_cart u p d))
     = List.filter (fun c => negb (cart_key u p c)) (cart d)
  /\ get_cart_items (remove_from_cart u p d) u
     = List.filter (fun item => negb (product_id item =? p)) (get_cart_items d u)
  /\ (forall n, cart (remove_from_cart u p (add_to_cart u p n d))
                = cart (remove_from_cart u p d)).
Proof.
  assert (Hnone : List.filter (cart_key u p) (cart (remove_from_cart u p d)) = [])
    by (unfold remove_from_cart; simpl; apply filter_negb_none).
  split; [exact Hnone|].
  split; [rewrite cart_quantity_filter, Hnone; reflexivity|].
  split; [unfold remove_from_cart; simpl; apply filter_negb_idem|].
  split; [apply get_cart_items_remove|].
  intros n. unfold remove_from_cart, add_to_cart.
  destruct (int64 n); [|reflexivity]. simpl.
  rewrite List.filter_app, filter_negb_idem. simpl.
  rewrite cart_key_refl. simpl. apply app_nil_r.
Qed.

(** ** The shape of the cart table *)

Lemma Forall_filter_keep {A} (P : A -> Prop) (g : A -> bool) (l : list A) :
  Forall P l -> Forall P (List.filter g l).
Proof.
  intros H. apply List.Forall_forall. intros x Hx. apply filter_In in Hx as [Hx _].
  revert x Hx. apply List.Forall_forall. exact H.
Qed.

Lemma cart_quantity_nonneg d u p :
  Forall (fun c => 1 <= c_quantity c) (cart d) -> 0 <= cart_quantity d u p.
Proof.
  intros H. unfold cart_quantity.
  destruct (List.find _ (cart d)) as [c|] eqn:Hf; [|lia].
  apply find_some in Hf as [Hin _].
  pose proof (proj1 (List.Forall_forall _ _) H c Hin). simpl in *. lia.
Qed.

Lemma cart_ok_add d u p n :
  cart_ok d -> 1 <= n -> cart_ok (add_to_cart u p n d).
Proof.
  intros [Hnd Hq] Hn. pose proof (cart_quantity_nonneg d u p Hq) as Hold.
  pose proof (sql_add_pos _ _ Hold Hn) as Hnew.
  unfold cart_ok, add_to_cart.
  destruct (int64 n); [|split; assumption]. simpl. split.
  - rewrite map_app. simpl. apply NoDup_app.
    split; [apply NoDup_map_filter, Hnd|]. split; [|apply NoDup_singleton].
    intros k Hk Hin. apply list_elem_of_singleton in Hin. subst k.
    apply list_elem_of_In, in_map_iff in Hk as (c & Hc & Hin).
    apply filter_In in Hin as [_ Hf]. apply negb_true_iff in Hf.
    unfold cart_pk in Hc. simpl in Hc. injection Hc as Hu Hp.
    unfold cart_key in Hf. rewrite Hu, Hp, !Z.eqb_refl in Hf. discriminate Hf.
  - apply Forall_app. split; [apply Forall_filter_keep, Hq|].
    apply List.Forall_cons; [simpl; lia|apply List.Forall_nil].
Qed.

Lemma cart_ok_filter d g :
  cart_ok d -> cart_ok (set_cart (List.filter g) d).
Proof.
  intros [Hnd Hq]. unfold cart_ok. simpl.
  split; [apply NoDup_map_filter, Hnd|apply Forall_filter_keep, Hq].
Qed.

Lemma cart_operations_keep_shape_aux d u o :
  cart_ok d ->
  match o with op_add _ n => 1 <= n | _ => True end ->
  cart_ok (apply_cart_op u o d).
Proof.
  intros Hok Hn. destruct o as [p n|p|]; simpl.
  - apply cart_ok_add; assumption.
  - apply cart_ok_filter, Hok.
  - apply cart_ok_filter, Hok.
Qed.

(** X6. The cart operations keep the cart table in shape: when every pair
    of a user and a product has at most one row and every quantity is at
    least 1, this is so after an add of a quantity of at least 1, after a
    removal and after a clear. *)
Theorem cart_operations_keep_shape d u o :
  cart_ok d ->
  match o with op_add _ n => 1 <= n | _ => True end ->
  cart_ok (apply_cart_op u o d).
Proof. apply cart_operations_keep_shape_aux. Qed.

Lemma unique_id_filter (rows : list product_row) (k : Z) :
  NoDup (map pr_id rows) ->
  (length (List.filter (fun p => (pr_id p =? k)%Z && pr_is_active p) rows) <= 1)%nat.
Proof.
  induction rows as [|r rows IH]; simpl; intros Hnd; [lia|].
  apply NoDup_cons in Hnd as [Hr Hnd]. specialize (IH Hnd).
  destruct (pr_id r =? k) eqn:E; simpl; [|exact IH].
  assert (Hnil : List.filter (fun p => (pr_id p =? k) && pr_is_active p) rows = []).
  { destruct (List.filter _ rows) as [|q qs] eqn:Hf; [reflexivity|]. exfalso.
    assert (Hq : In q (List.filter (fun p => (pr_id p =? k) && pr_is_active p) rows))
      by (rewrite Hf; left; reflexivity).
    apply filter_In in Hq as [Hq Hk]. apply andb_prop in Hk as [Hk _].
    apply Hr. apply list_elem_of_In, in_map_iff. exists q. split; [lia|exact Hq]. }
  rewrite Hnil. destruct (pr_is_active r); simpl; lia.
Qed.

(** X7. With distinct product ids and a cart table in shape, a cart read
    names every product at most once, every item has a quantity of at
    least 1, and the read has at most one item per cart row of the user. *)
Theorem cart_read_one_item_per_product d u :
  NoDup (map pr_id (products d)) ->
  cart_ok d ->
  NoDup (map product_id (get_cart_items d u))
  /\ Forall (fun item => 1 <= quantity item) (get_cart_items d u)
  /\ (length (get_cart_items d u)
      <= length (List.filter (fun c => (c_user_id c =? u)%Z) (cart d)))%nat.
Proof.
  intros Hids [Hnd Hq]. unfold get_cart_items.
  rewrite <- (length_sort_by by_product_id
                (List.filter (fun c => (c_user_id c =? u)%Z) (cart d))).
  assert (Hkeys : NoDup (map c_product_id
                    (sort_by by_product_id
                       (List.filter (fun c => c_user_id c =? u) (cart d))))).
  { rewrite sort_by_perm. clear Hq.
    induction (cart d) as [|c l IH]; simpl; [constructor|].
    apply NoDup_cons in Hnd as [Hc Hnd].
    destruct (c_user_id c =? u) eqn:Eu; simpl; [|auto].
    apply NoDup_cons. split; [|auto].
    intros Hin. apply Hc.
    apply list_elem_of_In, in_map_iff in Hin as (c' & Hp & Hin).
    apply filter_In in Hin as [Hin Eu'].
    apply list_elem_of_In, in_map_iff. exists c'. split; [|exact Hin].
    unfold cart_pk. f_equal; lia. }
  assert (Hqs : Forall (fun c => 1 <= c_quantity c)
                  (sort_by by_product_id
                     (List.filter (fun c => c_user_id c =? u) (cart d)))).
  { rewrite sort_by_perm. apply Forall_filter_keep, Hq. }
  induction (sort_by by_product_id _) as [|c l IH]; simpl;
    [repeat split; constructor|].
  apply NoDup_cons in Hkeys as [Hc Hkeys].
  apply Forall_cons in Hqs as [Hqc Hqs].
  destruct (IH Hkeys Hqs) as (IH1 & IH2 & IH3). clear IH.
  pose proof (unique_id_filter (products d) (c_product_id c) Hids) as Hlen.
  destruct (List.filter _ (products d)) as [|q [|q' qs]];
    simpl in *; [repeat split; try assumption; lia| |lia].
  split; [|split; [|lia]].
  - apply NoDup_cons. split; [|exact IH1].
    intros Hin. apply Hc.
    apply list_elem_of_In, in_map_iff in Hin as (item & Hitem & Hin).
    apply in_flat_map in Hin as (c' & Hc' & Hin).
    apply in_map_iff in Hin as (q'' & <- & _). simpl in Hitem.
    apply list_elem_of_In, in_map_iff. exists c'. split; [exact Hitem|exact Hc'].
  - apply List.Forall_cons; [exact Hqc|exact IH2].
Qed.

(** ** The order table *)

Lemma sorted_snoc (l : list Z) (x : Z) :
  StronglySorted Z.lt l -> (forall i, In i l -> i < x) ->
  StronglySorted Z.lt (l ++ [x]).
Proof.
  induction l as [|y l IH]; simpl; intros Hs Hlt.
  - repeat constructor.
  - apply StronglySorted_inv in Hs as [Hs Hy]. constructor.
    + apply IH; [exact Hs|]. intros i Hi. apply Hlt. right. exact Hi.
    + apply Forall_app. split; [exact Hy|].
      apply List.Forall_cons; [apply Hlt; left; reflexivity|apply List.Forall_nil].
Qed.

(** X8. An order is appended under an id above every id of the table and
    above the last id handed out, so that ids in increasing order stay in
    increasing order and the id of an order that was removed is not given
    again; the rows that were there and the other tables are kept. *)
Theorem create_order_fresh_id now uid prods total phone address comment d :
  exists o,
    create_order now uid prods total phone address comment d
    = (o_id o, set_orders (fun rows => rows ++ [o]) (o_id o) d)
    /\ orders_seq d < o_id o
    /\ (forall r, In r (orders d) -> o_id r < o_id o)
    /\ orders_seq (snd (create_order now uid prods total phone address comment d))
       = o_id o
    /\ o_user_id o = uid /\ o_products o = prods /\ o_total_amount o = total
    /\ o_phone o = phone /\ o_address o = address /\ o_comment o = comment
    /\ o_status o = str_of "new"
    /\ (StronglySorted Z.lt (map o_id (orders d)) ->
        StronglySorted Z.lt (map o_id (orders d ++ [o]))).
Proof.
  destruct (next_rowid_above (orders_seq d) (map o_id (orders d))) as [Hseq Hids].
  exists {| o_id := next_rowid (orders_seq d) (map o_id (orders d));
            o_user_id := uid; o_products := prods; o_total_amount := total;
            o_phone := phone; o_address := address; o_comment := comment;
            o_status := str_of "new"; o_created_at := now |}.
  split; [reflexivity|]. cbn [o_id o_user_id o_products o_total_amount o_phone
    o_address o_comment o_status create_order snd set_orders orders_seq].
  assert (Hlt : forall r, In r (orders d) ->
                  o_id r < next_rowid (orders_seq d) (map o_id (orders d))).
  { intros r Hr. apply Hids, in_map, Hr. }
  repeat split; try assumption.
  intros Hs. rewrite map_app. simpl. apply sorted_snoc; assumption.
Qed.

(** ** The categories *)

Lemma insert_or_ignore_prefix rows c :
  exists more, insert_or_ignore_category rows c = rows ++ more.
Proof.
  unfold insert_or_ignore_category. destruct (existsb _ rows).
  - exists []. symmetry. apply app_nil_r.
  - exists [c]. reflexivity.
Qed.

Lemma name_present_iff rows n :
  existsb (fun r => bool_decide (cat_name r = n)) rows = true
  <-> In n (map cat_name rows).
Proof.
  rewrite existsb_exists, in_map_iff. split.
  - intros (r & Hr & He). apply bool_decide_eq_true in He. eauto.
  - intros (r & He & Hr). exists r. split; [exact Hr|].
    apply bool_decide_eq_true. exact He.
Qed.

Lemma insert_or_ignore_name rows c :
  In (cat_name c) (map cat_name (insert_or_ignore_category rows c)).
Proof.
  unfold insert_or_ignore_category.
  destruct (existsb _ rows) eqn:E.
  - apply name_present_iff. exact E.
  - rewrite map_app. apply in_or_app. right. left. reflexivity.
Qed.

Lemma insert_categories_names cs rows n :
  In n (map cat_name rows) \/ In n (map cat_name cs) ->
  In n (map cat_name (insert_categories cs rows)).
Proof.
  unfold insert_categories. revert rows.
  induction cs as [|c cs IH]; intros rows; simpl; [tauto|].
  intros [Hin|[<-|Hin]]; apply IH.
  - left. destruct (insert_or_ignore_prefix rows c) as [m ->].
    rewrite map_app. apply in_or_app. left. exact Hin.
  - left. apply insert_or_ignore_name.
  - right. exact Hin.
Qed.

Lemma insert_categories_present cs rows :
  (forall c, In c cs -> In (cat_name c) (map cat_name rows)) ->
  insert_categories cs rows = rows.
Proof.
  unfold insert_categories. induction cs as [|c cs IH]; simpl; intros H;
    [reflexivity|].
  unfold insert_or_ignore_category at 2.
  replace (existsb _ rows) with true
    by (symmetry; apply name_present_iff, H; left; reflexivity).
  apply IH. intros c' Hc'. apply H. right. exact Hc'.
Qed.

Lemma insert_or_ignore_nodup rows c :
  NoDup (map cat_name rows) ->
  NoDup (map cat_name (insert_or_ignore_category rows c)).
Proof.
  intros Hnd. unfold insert_or_ignore_category.
  destruct (existsb _ rows) eqn:E; [exact Hnd|].
  rewrite map_app. simpl. apply NoDup_app. split; [exact Hnd|].
  split; [|apply NoDup_singleton].
  intros n Hn Hin. apply list_elem_of_singleton in Hin. subst n.
  apply list_elem_of_In, name_present_iff in Hn. congruence.
Qed.

Lemma insert_categories_nodup cs rows :
  NoDup (map cat_name rows) -> NoDup (map cat_name (insert_categories cs rows)).
Proof.
  unfold insert_categories. revert rows.
  induction cs as [|c cs IH]; intros rows Hnd; simpl; [exact Hnd|].
  apply IH, insert_or_ignore_nodup, Hnd.
Qed.

Lemma insert_categories_missing cs rows :
  NoDup (map cat_name cs) ->
  insert_categories cs rows
  = rows ++ List.filter (fun c => negb (bool_decide (cat_name c ∈ map cat_name rows)))
              cs.
Proof.
  unfold insert_categories. revert rows.
  induction cs as [|c cs IH]; intros rows Hnd; simpl;
    [symmetry; apply app_nil_r|].
  apply NoDup_cons in Hnd as [Hc Hnd]. rewrite (IH _ Hnd).
  unfold insert_or_ignore_category.
  destruct (existsb _ rows) eqn:E.
  - apply name_present_iff, list_elem_of_In in E.
    rewrite (bool_decide_eq_true_2 _ E). reflexivity.
  - assert (Hout : cat_name c ∉ map cat_name rows).
    { intros Hin. apply list_elem_of_In, name_present_iff in Hin. congruence. }
    rewrite (bool_decide_eq_false_2 _ Hout). simpl.
    rewrite <- app_assoc. simpl. do 2 f_equal.
    apply filter_ext_in. intros c' Hc'. f_equal. apply bool_decide_ext.
    rewrite map_app, elem_of_app. simpl. rewrite list_elem_of_singleton.
    split; [|tauto]. intros [H|H]; [exact H|].
    exfalso. apply Hc. rewrite <- H. apply list_elem_of_In, in_map, Hc'.
Qed.

(** X9. [init_db] on a database file that holds data already: the users,
    products, carts and orders are kept; the category table is the one
    that was there, row by row, followed by the base categories whose
    names no row held, in the order of the list of [init_db] and with the
    descriptions and glyphs given there; every base category name is in
    the table afterwards; distinct names stay distinct; and a second
    [init_db] changes nothing. *)
Theorem init_db_keeps_and_seeds d :
  users (init_db d) = users d /\ products (init_db d) = products d
  /\ cart (init_db d) = cart d /\ orders (init_db d) = orders d
  /\ categories (init_db d)
     = categories d
       ++ List.filter
            (fun c => negb (bool_decide (cat_name c ∈ map cat_name (categories d))))
            base_categories
  /\ (forall c, In c base_categories ->
        In (cat_name c) (map cat_name (categories (init_db d))))
  /\ (NoDup (map cat_name (categories d)) ->
      NoDup (map cat_name (categories (init_db d))))
  /\ init_db (init_db d) = init_db d.
Proof.
  repeat (split; [reflexivity|]).
  split.
  { unfold init_db, set_categories. cbn [categories].
    apply insert_categories_missing. compute_done. }
  assert (Hnames : forall c, In c base_categories ->
            In (cat_name c) (map cat_name (categories (init_db d)))).
  { intros c Hc. unfold init_db, set_categories. cbn [categories].
    apply insert_categories_names. right. apply in_map, Hc. }
  split; [exact Hnames|].
  split; [apply insert_categories_nodup|].
  unfold init_db at 1. unfold set_categories.
  rewrite (insert_categories_present base_categories _ Hnames).
  destruct (init_db d). reflexivity.
Qed.

Lemma pystr_leb_total a b : pystr_leb a b = true \/ pystr_leb b a = true.
Proof.
  revert b. induction a as [|x a IH]; intros [|y b]; simpl; auto.
  destruct (N.ltb_spec x y), (N.ltb_spec y x), (N.eqb_spec x y), (N.eqb_spec y x);
    auto; lia.
Qed.

Lemma pystr_leb_trans a b c :
  pystr_leb a b = true -> pystr_leb b c = true -> pystr_leb a c = true.
Proof.
  revert b c. induction a as [|x a IH]; intros [|y b] [|z c]; simpl; auto;
    try discriminate.
  destruct (N.ltb_spec x y), (N.ltb_spec y z), (N.ltb_spec x z),
    (N.eqb_spec x y), (N.eqb_spec y z), (N.eqb_spec x z);
    try discriminate; auto; try lia.
  apply IH.
Qed.

#[local] Instance name_le_total : Total name_le.
Proof. intros a b. apply pystr_leb_total. Qed.

#[local] Instance name_le_trans : Transitive name_le.
Proof. intros a b c. apply pystr_leb_trans. Qed.

(** X10. [get_categories] returns every row of the category table, each
    once, in the order of their names; on a database [init_db] has run on
    it lists every base category. *)
Theorem get_categories_sorted_complete d :
  get_categories d ≡ₚ categories d
  /\ StronglySorted name_le (get_categories d)
  /\ (forall c, In c base_categories ->
        In (cat_name c) (map cat_name (get_categories (init_db d)))).
Proof.
  unfold get_categories.
  split; [apply sort_by_perm|].
  split; [apply sort_by_sorted; apply _|].
  intros c Hc.
  rewrite <- list_elem_of_In, sort_by_perm, list_elem_of_In.
  unfold init_db, set_categories. cbn [categories].
  apply insert_categories_names. right. apply in_map, Hc.
Qed.

(** ** What a step can do *)

Ltac break_match :=
  match goal with
  | |- context [match ?x with _ => _ end] =>
      lazymatch x with
      | context [match _ with _ => _ end] => fail
      | _ => destruct x eqn:?
      end
  end.

Ltac unfold_handlers :=
  unfold cancel, start, main_menu, catalog, show_category, show_product,
    bot_add_to_cart, show_cart, bot_clear_cart, checkout, get_order_phone,
    get_order_address, get_order_comment, finish_order, show_profile, admin_menu,
    manage_products, admin_stats, admin_orders, start_add_product,
    get_product_name, get_product_description, get_product_price,
    get_product_category, get_product_images, save_new_product,
    bot_delete_product, confirm_delete_product, back_to_products, update_draft.

Ltac drop_notify :=
  repeat match goal with
  | |- context [notify_admins_new_order ?o ?c] =>
      let H1 := fresh in let H2 := fresh in
      destruct (notify_admins_keeps o c) as [H1 H2]; rewrite ?H1, ?H2; clear H1 H2
  end.

Lemma step_db_change u w :
  db_change (tg_id (upd_user u)) (state_of w (tg_id (upd_user u)))
    (data_of w (tg_id (upd_user u))) (db w) (db (step u w)).
Proof.
  unfold state_of, data_of, step.
  destruct (conversations w !! tg_id (upd_user u)) as [s|] eqn:Hs;
    destruct (upd_event u) as [| | |text|file|cb|] eqn:He;
    try destruct cb; try destruct s; simpl; try apply ch_none.
  all: unfold_handlers; rewrite ?He; simpl.
  all: repeat (break_match; simpl).
  all: drop_notify; simpl.
  all: try apply ch_none.
  all: try (apply ch_register; reflexivity).
  all: try (apply ch_add; reflexivity).
  all: try (apply ch_clear; reflexivity).
  all: try (apply ch_delete; reflexivity).
  all: try (eapply ch_save; [reflexivity|eassumption|eassumption]).
  match goal with
  | H : default [] ?o = _ :: _ |- _ =>
      destruct o eqn:Hitems; simpl in H; [subst|discriminate H]
  end.
  eapply ch_order; [reflexivity|exact Hitems].
Qed.

Lemma save_product_ids now product d i d' :
  save_product now product d = Some (i, d') ->
  users d' = users d /\ cart d' = cart d /\ orders d' = orders d
  /\ (map pr_id (products d') = map pr_id (products d)
      \/ map pr_id (products d') = map pr_id (products d) ++ [i]
         /\ forall j, In j (map pr_id (products d)) -> j < i).
Proof.
  unfold save_product, insert_product, update_product.
  pose proof (next_rowid_above (products_seq d) (map pr_id (products d))) as [_ Hlt].
  destruct (p_id product) as [k|]; [destruct (k =? 0)|];
    destruct (is_nan _); simpl; try destruct (existsb _ _); try discriminate;
    intros H; injection H as <- <-; simpl; repeat split; auto.
  all: first
    [ right; rewrite map_app; split; [reflexivity|exact Hlt]
    | left; rewrite map_map; apply map_ext; intros r;
      destruct (pr_id r =? k); reflexivity ].
Qed.

Lemma delete_product_ids pid d :
  map pr_id (products (delete_product pid d)) = map pr_id (products d).
Proof.
  unfold delete_product. simpl. rewrite map_map. apply map_ext.
  intros r. destruct (pr_id r =? pid); reflexivity.
Qed.

(** The orders after a step: the ones before, or those and one more, of
    the acting user, under a new id. *)
Lemma db_change_orders uid st data d d' :
  db_change uid st data d d' ->
  orders d' = orders d
  \/ exists o, orders d' = orders d ++ [o] /\ o_user_id o = uid
       /\ forall r, In r (orders d) -> o_id r < o_id o.
Proof.
  intros [ | | | | now item items _ _ |now product i d2 _ _ Hsave| ]; auto.
  - right. eexists. split; [reflexivity|]. split; [reflexivity|].
    intros r Hr. simpl.
    apply (proj2 (next_rowid_above (orders_seq d) (map o_id (orders d)))).
    apply in_map, Hr.
  - left. apply save_product_ids in Hsave. tauto.
Qed.

(** The product ids after a step: the ones before, in their order, or
    those and a new one above them. *)
Lemma db_change_product_ids uid st data d d' :
  db_change uid st data d d' ->
  map pr_id (products d') = map pr_id (products d)
  \/ exists i, map pr_id (products d') = map pr_id (products d) ++ [i]
       /\ forall j, In j (map pr_id (products d)) -> j < i.
Proof.
  intros [ | | | | |now product i d2 _ _ Hsave|pid _]; auto.
  - apply save_product_ids in Hsave as (_ & _ & _ & [H|H]); eauto.
  - left. apply delete_product_ids.
Qed.

(** The rows of another user's cart and the other users' rows in the user
    table are the ones before the step. *)
Lemma db_change_other_user uid st data d d' v :
  db_change uid st data d d' -> v <> uid ->
  List.filter (fun c => c_user_id c =? v) (cart d')
  = List.filter (fun c => c_user_id c =? v) (cart d)
  /\ get_user d' v = get_user d v.
Proof.
  intros [ |now user Hu _ _|pid _| _| | now product i d2 _ _ Hsave| ] Hne;
    try (split; reflexivity).
  - split; [reflexivity|]. apply get_user_save_user_other. congruence.
  - split; [apply other_user_rows_add, Hne|reflexivity].
  - split; [apply other_user_rows_clear, Hne|reflexivity].
  - split; [|reflexivity].
    rewrite (other_user_rows_clear _ uid v Hne). reflexivity.
  - apply save_product_ids in Hsave as (Hu & Hc & _). unfold get_user.
    rewrite Hu, Hc. split; reflexivity.
Qed.

(** A user who has a row in the user table has one after the step. *)
Lemma db_change_keeps_users uid st data d d' v :
  db_change uid st data d d' ->
  is_Some (get_user d v) -> is_Some (get_user d' v).
Proof.
  intros [ |now user Hu _ _| | | | now product i d2 _ _ Hsave| ] Hv; try exact Hv.
  - destruct (decide (v = u_id user)) as [->|Hne].
    + rewrite get_user_save_user_same. eauto.
    + rewrite get_user_save_user_other by exact Hne. exact Hv.
  - apply save_product_ids in Hsave as (Hu & _). unfold get_user in *.
    rewrite Hu. exact Hv.
Qed.

Lemma NoDup_snoc_above (l : list Z) (i : Z) :
  NoDup l -> (forall j, In j l -> j < i) -> NoDup (l ++ [i]).
Proof.
  intros Hnd Hlt. apply NoDup_app. split; [exact Hnd|].
  split; [|apply NoDup_singleton].
  intros j Hj Hin. apply list_elem_of_singleton in Hin. subst j.
  apply list_elem_of_In, Hlt in Hj. lia.
Qed.

Lemma db_change_keys uid st data d d' :
  db_change uid st data d d' -> db_keys_ok d -> db_keys_ok d'.
Proof.
  intros Hch (Hu & Hp & Ho & Hc).
  destruct Hch as [ |now user _ _ _|pid _| _|now item items _ _
                   |now product i d2 _ _ Hsave|pid _].
  - unfold db_keys_ok. auto.
  - split; [apply save_user_nodup, Hu|]. auto.
  - split; [exact Hu|]. split; [exact Hp|]. split; [exact Ho|].
    apply cart_ok_add; [exact Hc|lia].
  - split; [exact Hu|]. split; [exact Hp|]. split; [exact Ho|].
    apply cart_ok_filter, Hc.
  - split; [exact Hu|]. split; [exact Hp|]. split.
    + simpl. rewrite map_app. simpl. apply NoDup_snoc_above; [exact Ho|].
      apply (proj2 (next_rowid_above (orders_seq d) (map o_id (orders d)))).
    + apply (cart_ok_filter (set_orders _ _ d)). exact Hc.
  - apply save_product_ids in Hsave as (Hu' & Hc' & Ho' & Hids).
    unfold db_keys_ok, cart_ok. rewrite Hu', Hc', Ho'.
    split; [exact Hu|]. split; [|split; [exact Ho|exact Hc]].
    destruct Hids as [-> | [-> Hlt]]; [exact Hp|].
    apply NoDup_snoc_above; assumption.
  - split; [exact Hu|]. split; [rewrite delete_product_ids; exact Hp|].
    split; [exact Ho|exact Hc].
Qed.

(** X11. Every step keeps the primary keys of the schema, and so does every
    run of steps and cart operations that add at least 1: user ids,
    product ids and order ids stay distinct, a pair of a user and a
    product has at most one cart row, and no quantity falls below 1. *)
Theorem run_keeps_primary_keys acts w :
  db_keys_ok (db w) -> Forall adds_positive acts ->
  db_keys_ok (db (run acts w)).
Proof.
  unfold run. revert w. induction acts as [|a acts IH]; intros w Hok Hpos; simpl;
    [exact Hok|].
  apply Forall_cons in Hpos as [Ha Hpos]. apply IH; [|exact Hpos].
  destruct a as [u|uid o]; simpl.
  - eapply db_change_keys; [apply step_db_change|exact Hok].
  - destruct Hok as (Hu & Hp & Ho & Hc).
    assert (Hc' : cart_ok (apply_cart_op uid o (db w)))
      by (apply (cart_operations_keep_shape_aux (db w) uid o Hc); destruct o; auto).
    destruct (apply_cart_op_tables uid o (db w)) as [f Hf]. rewrite Hf in *.
    split; [exact Hu|]. split; [exact Hp|]. split; [exact Ho|exact Hc'].
Qed.

(** X12. A step of one user changes nothing of another user: the state of
    the other's conversation, the other's session data, the rows of the
    other's cart and the other's row in the user table are the ones
    before. *)
Theorem step_leaves_other_users u w v :
  v <> tg_id (upd_user u) ->
  state_of (step u w) v = state_of w v
  /\ data_of (step u w) v = data_of w v
  /\ List.filter (fun c => c_user_id c =? v) (cart (db (step u w)))
     = List.filter (fun c => c_user_id c =? v) (cart (db w))
  /\ get_user (db (step u w)) v = get_user (db w) v.
Proof.
  intros Hne.
  destruct (step_other_user u w v (not_eq_sym Hne)) as [Hs Hd].
  destruct (db_change_other_user _ _ _ _ _ v (step_db_change u w) Hne) as [Hc Hu].
  repeat split; assumption.
Qed.

Lemma act_orders_products a w :
  (exists more, orders (db (act w a)) = orders (db w) ++ more)
  /\ (exists more, map pr_id (products (db (act w a)))
                   = map pr_id (products (db w)) ++ more).
Proof.
  destruct a as [u|uid o]; simpl.
  - split.
    + destruct (db_change_orders _ _ _ _ _ (step_db_change u w)) as [->|(o & -> & _)].
      * exists []. symmetry. apply app_nil_r.
      * exists [o]. reflexivity.
    + destruct (db_change_product_ids _ _ _ _ _ (step_db_change u w))
        as [->|(i & -> & _)].
      * exists []. symmetry. apply app_nil_r.
      * exists [i]. reflexivity.
  - destruct (apply_cart_op_tables uid o (db w)) as [f ->].
    split; exists []; rewrite app_nil_r; reflexivity.
Qed.

(** X13. Orders are only ever appended and products are never removed: a
    step leaves the order table as it is or appends one order, of the
    acting user, under an id above the others; and after any run the
    orders from before are the first rows of the order table, unchanged,
    and the product ids from before are the first ids of the product
    table. *)
Theorem orders_and_products_only_grow :
  (forall u w,
     orders (db (step u w)) = orders (db w)
     \/ exists o, orders (db (step u w)) = orders (db w) ++ [o]
          /\ o_user_id o = tg_id (upd_user u)
          /\ forall r, In r (orders (db w)) -> o_id r < o_id o)
  /\ (forall acts w,
        (exists more, orders (db (run acts w)) = orders (db w) ++ more)
        /\ (exists more, map pr_id (products (db (run acts w)))
                         = map pr_id (products (db w)) ++ more)).
Proof.
  split; [intros u w; apply (db_change_orders _ _ _ _ _ (step_db_change u w))|].
  unfold run. intros acts. induction acts as [|a acts IH]; intros w; simpl.
  - split; exists []; symmetry; apply app_nil_r.
  - destruct (act_orders_products a w) as [[m1 H1] [m2 H2]].
    destruct (IH (act w a)) as [[m3 H3] [m4 H4]].
    split.
    + exists (m1 ++ m3). rewrite H3, H1. symmetry. apply app_assoc.
    + exists (m2 ++ m4). rewrite H4, H2. symmetry. apply app_assoc.
Qed.

(** ** The sessions the handlers build *)

Lemma parse_price_above_zero text p : parse_price text = Some p -> fle0 p = false.
Proof.
  unfold parse_price. destruct (py_float _ _) as [q|]; [|discriminate].
  destruct (fle0 q) eqn:E; [discriminate|]. intros H. injection H as <-. exact E.
Qed.

Ltac use_session :=
  repeat match goal with
  | H : exists _, _ |- _ => destruct H
  | H : _ /\ _ |- _ => destruct H
  | H : False |- _ => destruct H
  | H : is_Some _ |- _ => destruct H
  end.

Ltac rewrite_known :=
  repeat match goal with
  | H : _ = Some _ |- _ => rewrite H
  end.

Ltac settle_session :=
  repeat match goal with
  | H : (_ <? _)%nat = false |- _ => apply Nat.ltb_ge in H
  | H : parse_price _ = Some _ |- _ => apply parse_price_above_zero in H
  end;
  rewrite ?lookup_insert_eq; simpl;
  eexists; (split; [first [reflexivity|eassumption]|]); simpl;
  unfold draft_fresh; simpl;
  repeat (eexists || split); simpl; eauto.

Lemma step_session_ok u w s :
  state_of w (tg_id (upd_user u)) = Some s ->
  session_ok s (data_of w (tg_id (upd_user u))) ->
  is_Some (get_user (db w) (tg_id (upd_user u))) ->
  exists s',
    state_of (step u w) (tg_id (upd_user u)) = Some s'
    /\ session_ok s' (data_of (step u w) (tg_id (upd_user u))).
Proof.
  intros Hs Hok Huser. unfold state_of, data_of, step in *.
  rewrite Hs.
  destruct (upd_event u) as [| | |text|file|cb|] eqn:He;
    try destruct cb; destruct s; simpl in *; unfold draft_fresh in *; use_session.
  all: unfold_handlers; rewrite ?He; simpl; rewrite_known; simpl.
  all: repeat (break_match; simpl).
  all: drop_notify; simpl.
  all: solve [settle_session].
Qed.

Lemma step_from_nothing u w :
  state_of w (tg_id (upd_user u)) = None ->
  (upd_event u = cmd_start
   /\ state_of (step u w) (tg_id (upd_user u)) = Some MAIN_MENU
   /\ is_Some (get_user (db (step u w)) (tg_id (upd_user u))))
  \/ (upd_event u <> cmd_start /\ step u w = w).
Proof.
  intros Hs. unfold state_of, step in *. rewrite Hs.
  destruct (upd_event u) eqn:He; simpl;
    try (right; split; [discriminate|reflexivity]).
  left. split; [reflexivity|]. rewrite lookup_insert_eq. split; [reflexivity|].
  rewrite (get_user_save_user_same (upd_time u)
             {| u_id := tg_id (upd_user u) |}). eauto.
Qed.

Lemma step_world_ok u w : world_ok w -> world_ok (step u w).
Proof.
  intros Hw uid s Hs.
  destruct (decide (tg_id (upd_user u) = uid)) as [<-|Hne].
  - destruct (state_of w (tg_id (upd_user u))) as [s0|] eqn:Hs0.
    + destruct (Hw _ _ Hs0) as [Hok Huser].
      destruct (step_session_ok u w s0 Hs0 Hok Huser) as (s' & Hs' & Hok').
      rewrite Hs in Hs'. injection Hs' as <-. split; [exact Hok'|].
      eapply db_change_keeps_users; [apply step_db_change|exact Huser].
    + destruct (step_from_nothing u w Hs0) as [(_ & Hs' & Huser)|[_ Hsame]].
      * rewrite Hs in Hs'. injection Hs' as ->. split; [exact I|exact Huser].
      * rewrite Hsame in Hs. congruence.
  - destruct (step_other_user u w uid Hne) as [Hs' Hd'].
    rewrite Hs' in Hs. rewrite Hd'. destruct (Hw _ _ Hs) as [Hok Huser].
    split; [exact Hok|].
    eapply db_change_keeps_users; [apply step_db_change|exact Huser].
Qed.

Lemma act_world_ok a w : world_ok w -> world_ok (act w a).
Proof.
  destruct a as [u|uid o]; simpl; [apply step_world_ok|].
  intros Hw v s Hs. destruct (Hw v s Hs) as [Hok Huser].
  split; [exact Hok|].
  destruct (apply_cart_op_tables uid o (db w)) as [f ->]. exact Huser.
Qed.

Lemma run_world_ok acts w : world_ok w -> world_ok (run acts w).
Proof.
  unfold run. revert w. induction acts as [|a acts IH]; intros w Hw; simpl;
    [exact Hw|]. apply IH, act_world_ok, Hw.
Qed.

Lemma initial_world_ok file : world_ok (initial_world file).
Proof. intros uid s Hs. unfold state_of in Hs. simpl in Hs. discriminate Hs. Qed.

(** X14. Whatever updates and cart operations the process has handled since
    its start, every conversation has the session its state calls for: in
    the authoring states the draft is there, not saved yet, with the
    fields checked so far; in the order flow the snapshot is not empty and
    the phone and the address given so far have at least 10 characters;
    the user has a row in the user table; and no conversation is in
    ADD_PRODUCT, EDIT_PRODUCT or WAITING_EDIT_FIELD. *)
Theorem reachable_sessions_are_sound file acts uid s :
  state_of (run acts (initial_world file)) uid = Some s ->
  session_ok s (data_of (run acts (initial_world file)) uid)
  /\ is_Some (get_user (db (run acts (initial_world file))) uid)
  /\ s <> ADD_PRODUCT /\ s <> EDIT_PRODUCT /\ s <> WAITING_EDIT_FIELD.
Proof.
  intros Hs.
  destruct (run_world_ok acts _ (initial_world_ok file) uid s Hs) as [Hok Huser].
  split; [exact Hok|]. split; [exact Huser|].
  repeat split; intros ->; exact Hok.
Qed.

(** ** What gets into the catalogue and the ledger *)

Lemma positive_price p : fle0 p = false -> is_nan p = false -> fgt0 p = true.
Proof.
  destruct p as [[]|[]| |[] m e]; cbv; intros H1 H2;
    first [reflexivity|discriminate H1|discriminate H2].
Qed.

Lemma save_fresh_draft now product d i d' :
  save_product now product d = Some (i, d') ->
  p_id product = None ->
  is_nan (p_price product) = false
  /\ products d' = products d ++
       [{| pr_id := i; pr_name := p_name product;
           pr_description := p_description product;
           pr_price := p_price product; pr_category := p_category product;
           pr_images := p_images product; pr_created_at := now;
           pr_is_active := p_is_active product |}]
  /\ orders d' = orders d.
Proof.
  unfold save_product, insert_product. intros H Hid. rewrite Hid in H.
  destruct (is_nan _); [discriminate|]. injection H as <- <-.
  repeat split; reflexivity.
Qed.

Lemma db_change_checked uid st data d d' :
  db_change uid st data d d' ->
  (forall s, st = Some s -> session_ok s data) ->
  Forall product_checked (products d) -> Forall order_checked (orders d) ->
  Forall product_checked (products d') /\ Forall order_checked (orders d').
Proof.
  intros Hch Hok Hp Ho.
  destruct Hch as [ |now user _ _ _|pid _| _|now item items Hst Hitems
                   |now product i d2 Hst Hdraft Hsave|pid _]; auto.
  - split; [exact Hp|]. simpl. apply Forall_app. split; [exact Ho|].
    apply List.Forall_cons; [|apply List.Forall_nil].
    specialize (Hok _ Hst). simpl in Hok.
    destruct Hok as (it & its & ph & ad & _ & Hph & Hlph & Had & Hlad).
    unfold order_checked, committed_order. simpl. rewrite Hph, Had. simpl.
    split; [discriminate|]. split; [exact Hlph|]. split; [exact Hlad|].
    split; [reflexivity|].
    symmetry. apply (order_sum_of_items (item :: items) fzero).
  - specialize (Hok _ Hst). simpl in Hok.
    destruct Hok as (p & Hp' & [Hid _] & Hn & Hd & Hprice).
    rewrite Hdraft in Hp'. injection Hp' as ->.
    destruct (save_fresh_draft _ _ _ _ _ Hsave Hid) as (Hnan & -> & ->).
    split; [|exact Ho]. apply Forall_app. split; [exact Hp|].
    apply List.Forall_cons; [|apply List.Forall_nil].
    unfold product_checked. simpl. split; [exact Hn|]. split; [exact Hd|].
    apply positive_price; assumption.
  - split; [|exact Ho]. unfold delete_product. simpl.
    apply List.Forall_forall. intros r Hr. apply in_map_iff in Hr as (r0 & <- & Hr0).
    pose proof (proj1 (List.Forall_forall _ _) Hp r0 Hr0) as Hc.
    destruct (pr_id r0 =? pid); exact Hc.
Qed.

Lemma act_checked a w :
  world_ok w ->
  Forall product_checked (products (db w)) ->
  Forall order_checked (orders (db w)) ->
  Forall product_checked (products (db (act w a)))
  /\ Forall order_checked (orders (db (act w a))).
Proof.
  intros Hw Hp Ho. destruct a as [u|uid o]; simpl.
  - eapply db_change_checked; [apply step_db_change| |exact Hp|exact Ho].
    intros s Hs. apply (Hw _ _ Hs).
  - destruct (apply_cart_op_tables uid o (db w)) as [f ->]. split; assumption.
Qed.

(** X16. The catalogue and the ledger only receive what the dialogs
    checked: when the product rows and the order rows of the database file
    pass the checks of the dialogs, so do all rows after any run from the
    start of the process.  A product row has a name of at least 3 and a
    description of at least 10 characters and a price above zero; an order
    row has at least one line item, a phone and an address of at least 10
    characters, an empty comment, and a total that is the sum of price
    times quantity over its line items. *)
Theorem catalogue_and_ledger_stay_checked file acts :
  Forall product_checked (products file) ->
  Forall order_checked (orders file) ->
  Forall product_checked (products (db (run acts (initial_world file))))
  /\ Forall order_checked (orders (db (run acts (initial_world file)))).
Proof.
  intros Hp Ho.
  assert (H : forall w, world_ok w ->
            Forall product_checked (products (db w)) ->
            Forall order_checked (orders (db w)) ->
            Forall product_checked (products (db (run acts w)))
            /\ Forall order_checked (orders (db (run acts w)))).
  { unfold run. induction acts as [|a acts IH]; intros w Hw Hpw How; simpl;
      [split; assumption|].
    destruct (act_checked a w Hw Hpw How) as [Hp' Ho'].
    apply IH; [apply act_world_ok, Hw|exact Hp'|exact Ho']. }
  apply H; [apply initial_world_ok|exact Hp|exact Ho].
Qed.

(** ** Administrators *)

Lemma step_stays_unprivileged u w s :
  state_of w (tg_id (upd_user u)) = Some s ->
  privileged s = false ->
  is_admin (db w) (tg_id (upd_user u)) = false ->
  exists s', state_of (step u w) (tg_id (upd_user u)) = Some s'
    /\ privileged s' = false.
Proof.
  intros Hs Hp Ha. unfold state_of, step in *. rewrite Hs.
  destruct (upd_event u) as [| | |text|file|cb|] eqn:He;
    try destruct cb; destruct s; try discriminate Hp; simpl.
  all: unfold_handlers; rewrite ?He, ?Ha; simpl.
  all: repeat (break_match; simpl).
  all: drop_notify; simpl.
  all: try match goal with
           | H : negb (is_admin _ _) = false |- _ =>
               rewrite Ha in H; discriminate H
           end.
  all: rewrite ?lookup_insert_eq; eauto.
Qed.

Lemma db_change_not_admin v st data d d' uid :
  db_change v st data d d' ->
  is_admin d uid = false -> is_admin d' uid = false.
Proof.
  unfold is_admin. intros Hch Hna.
  destruct Hch as [ |now user Hu Hadm _| | | |now product i d2 _ _ Hsave| ];
    try exact Hna.
  - apply orb_false_iff in Hna as [Hids Hrow]. rewrite Hids. simpl.
    destruct (decide (uid = u_id user)) as [->|Hne].
    + rewrite get_user_save_user_same. simpl. rewrite Hadm, <- Hu. exact Hids.
    + rewrite get_user_save_user_other by exact Hne. exact Hrow.
  - apply save_product_ids in Hsave as (Hu & _). unfold get_user in *.
    rewrite Hu. exact Hna.
Qed.

Lemma act_stays_unprivileged a w uid :
  is_admin (db w) uid = false ->
  (forall s, state_of w uid = Some s -> privileged s = false) ->
  is_admin (db (act w a)) uid = false
  /\ (forall s, state_of (act w a) uid = Some s -> privileged s = false).
Proof.
  intros Ha Hp. destruct a as [u|v o]; simpl.
  - split; [eapply db_change_not_admin; [apply step_db_change|exact Ha]|].
    intros s Hs. destruct (decide (tg_id (upd_user u) = uid)) as [<-|Hne].
    + destruct (state_of w (tg_id (upd_user u))) as [s0|] eqn:Hs0.
      * destruct (step_stays_unprivileged u w s0 Hs0 (Hp _ eq_refl) Ha)
          as (s' & Hs' & Hp').
        rewrite Hs in Hs'. injection Hs' as <-. exact Hp'.
      * destruct (step_from_nothing u w Hs0) as [(_ & Hs' & _)|[_ Hsame]].
        -- rewrite Hs in Hs'. injection Hs' as ->. reflexivity.
        -- rewrite Hsame in Hs. congruence.
    + destruct (step_other_user u w uid Hne) as [Hs' _].
      rewrite Hs' in Hs. apply Hp, Hs.
  - destruct (apply_cart_op_tables v o (db w)) as [f ->].
    split; [exact Ha|exact Hp].
Qed.

(** X17. A user who is not an administrator, by [ADMIN_IDS] or by the flag
    of the user table, and whose conversation is outside the admin menu and
    the authoring states, stays so whatever is delivered: after any run
    the user is still no administrator and the conversation is still
    outside those states. *)
Theorem non_admin_never_authors acts w uid :
  is_admin (db w) uid = false ->
  (forall s, state_of w uid = Some s -> privileged s = false) ->
  is_admin (db (run acts w)) uid = false
  /\ (forall s, state_of (run acts w) uid = Some s -> privileged s = false).
Proof.
  unfold run. revert w. induction acts as [|a acts IH]; intros w Ha Hp; simpl;
    [split; assumption|].
  destruct (act_stays_unprivileged a w uid Ha Hp) as [Ha' Hp'].
  apply IH; assumption.
Qed.

(** X18. The commands /start (outside a conversation) and /cancel (in any
    state) write the user's row anew: the names are the ones of the update,
    the phone is empty, the time is the one of the update, and the admin
    flag is the membership in [ADMIN_IDS], so that after the command the
    user is an administrator exactly when listed there, whatever the flag
    in the table was. *)
Theorem registration_resets_role u w :
  (state_of w (tg_id (upd_user u)) = None /\ upd_event u = cmd_start)
  \/ (is_Some (state_of w (tg_id (upd_user u))) /\ upd_event u = cmd_cancel) ->
  get_user (db (step u w)) (tg_id (upd_user u))
  = Some {| u_id := tg_id (upd_user u); u_username := tg_username (upd_user u);
            u_first_name := Some (tg_first_name (upd_user u));
            u_last_name := tg_last_name (upd_user u); u_phone := None;
            u_is_admin := bool_decide (tg_id (upd_user u) ∈ ADMIN_IDS);
            u_created_at := Some (upd_time u) |}
  /\ is_admin (db (step u w)) (tg_id (upd_user u))
     = bool_decide (tg_id (upd_user u) ∈ ADMIN_IDS)
  /\ state_of (step u w) (tg_id (upd_user u)) = Some MAIN_MENU.
Proof.
  intros Hcase.
  assert (Hdb : db (step u w)
                = save_user (upd_time u)
                    {| u_id := tg_id (upd_user u);
                       u_username := tg_username (upd_user u);
                       u_first_name := Some (tg_first_name (upd_user u));
                       u_last_name := tg_last_name (upd_user u); u_phone := None;
                       u_is_admin := bool_decide (tg_id (upd_user u) ∈ ADMIN_IDS);
                       u_created_at := None |} (db w)
                /\ state_of (step u w) (tg_id (upd_user u)) = Some MAIN_MENU).
  { unfold state_of, step in *.
    destruct Hcase as [[-> ->]|[[s ->] ->]].
    - simpl. rewrite lookup_insert_eq. split; reflexivity.
    - replace (handler_for (Some s) cmd_cancel) with (Some cancel)
        by (destruct s; reflexivity).
      simpl. rewrite lookup_insert_eq. split; reflexivity. }
  destruct Hdb as [Hdb Hs]. unfold is_admin. rewrite Hdb.
  rewrite (get_user_save_user_same (upd_time u) {| u_id := tg_id (upd_user u) |}).
  simpl. split; [reflexivity|]. split; [apply orb_diag|exact Hs].
Qed.

(** ** A product written from the admin menu *)

Ltac run_step Hs :=
  unfold state_of, data_of, step in *; simpl in *; rewrite Hs; simpl;
  unfold_handlers; simpl.

Lemma photos_are_appended who now photos w p :
  state_of w (tg_id who) = Some WAITING_IMAGES ->
  new_product (data_of w (tg_id who)) = Some p ->
  state_of (run (map (fun f => deliver who now (Photo f)) photos) w) (tg_id who)
  = Some WAITING_IMAGES
  /\ new_product
       (data_of (run (map (fun f => deliver who now (Photo f)) photos) w) (tg_id who))
     = Some (set_images (p_images p ++ photos) p)
  /\ db (run (map (fun f => deliver who now (Photo f)) photos) w) = db w.
Proof.
  unfold run. revert w p. induction photos as [|f photos IH]; intros w p Hs Hp; simpl.
  - rewrite app_nil_r. destruct p. split; [exact Hs|]. split; [exact Hp|reflexivity].
  - assert (Hstep :
      state_of (step {| upd_time := now; upd_user := who; upd_event := Photo f |} w)
        (tg_id who) = Some WAITING_IMAGES
      /\ new_product
           (data_of (step {| upd_time := now; upd_user := who; upd_event := Photo f |} w)
              (tg_id who))
         = Some (set_images (p_images p ++ [f]) p)
      /\ db (step {| upd_time := now; upd_user := who; upd_event := Photo f |} w) = db w).
    { run_step Hs. rewrite Hp. simpl. rewrite !lookup_insert_eq.
      repeat split; reflexivity. }
    destruct Hstep as (Hs1 & Hp1 & Hd1).
    destruct (IH _ _ Hs1 Hp1) as (Hs2 & Hp2 & Hd2).
    split; [exact Hs2|]. split; [|rewrite Hd2; exact Hd1].
    rewrite Hp2. simpl. rewrite <- app_assoc. reflexivity.
Qed.

Lemma add_product_step u w :
  upd_event u = Button cb_add_product ->
  state_of w (tg_id (upd_user u)) = Some ADMIN_MENU ->
  is_admin (db w) (tg_id (upd_user u)) = true ->
  state_of (step u w) (tg_id (upd_user u)) = Some WAITING_NAME
  /\ new_product (data_of (step u w) (tg_id (upd_user u))) = Some new_Product
  /\ db (step u w) = db w.
Proof.
  intros He Hs Ha. unfold state_of, data_of, step in *. rewrite Hs, He. simpl.
  unfold start_add_product. simpl. rewrite Ha. simpl.
  rewrite !lookup_insert_eq. repeat split; reflexivity.
Qed.

Lemma name_step u w text p :
  upd_event u = Text text ->
  state_of w (tg_id (upd_user u)) = Some WAITING_NAME ->
  new_product (data_of w (tg_id (upd_user u))) = Some p ->
  (3 <= length (strip text))%nat ->
  state_of (step u w) (tg_id (upd_user u)) = Some WAITING_DESCRIPTION
  /\ new_product (data_of (step u w) (tg_id (upd_user u)))
     = Some (set_name (strip text) p)
  /\ db (step u w) = db w.
Proof.
  intros He Hs Hp Hn. apply Nat.ltb_ge in Hn.
  unfold state_of, data_of, step in *. rewrite Hs, He. simpl.
  unfold get_product_name, update_draft. rewrite Hn. simpl. rewrite Hp. simpl.
  rewrite !lookup_insert_eq. repeat split; reflexivity.
Qed.

Lemma description_step u w text p :
  upd_event u = Text text ->
  state_of w (tg_id (upd_user u)) = Some WAITING_DESCRIPTION ->
  new_product (data_of w (tg_id (upd_user u))) = Some p ->
  (10 <= length (strip text))%nat ->
  state_of (step u w) (tg_id (upd_user u)) = Some WAITING_PRICE
  /\ new_product (data_of (step u w) (tg_id (upd_user u)))
     = Some (set_description (strip text) p)
  /\ db (step u w) = db w.
Proof.
  intros He Hs Hp Hn. apply Nat.ltb_ge in Hn.
  unfold state_of, data_of, step in *. rewrite Hs, He. simpl.
  unfold get_product_description, update_draft. rewrite Hn. simpl. rewrite Hp. simpl.
  rewrite !lookup_insert_eq. repeat split; reflexivity.
Qed.

Lemma price_taken_step u w text price p :
  upd_event u = Text text ->
  state_of w (tg_id (upd_user u)) = Some WAITING_PRICE ->
  new_product (data_of w (tg_id (upd_user u))) = Some p ->
  parse_price text = Some price ->
  state_of (step u w) (tg_id (upd_user u)) = Some WAITING_CATEGORY
  /\ new_product (data_of (step u w) (tg_id (upd_user u)))
     = Some (set_price price p)
  /\ db (step u w) = db w.
Proof.
  intros He Hs Hp Hprice.
  unfold state_of, data_of, step in *. rewrite Hs, He. simpl.
  unfold get_product_price, update_draft. rewrite Hprice. simpl. rewrite Hp. simpl.
  rewrite !lookup_insert_eq. repeat split; reflexivity.
Qed.

Lemma category_step u w category p :
  upd_event u = Button (cb_select_cat category) ->
  state_of w (tg_id (upd_user u)) = Some WAITING_CATEGORY ->
  new_product (data_of w (tg_id (upd_user u))) = Some p ->
  state_of (step u w) (tg_id (upd_user u)) = Some WAITING_IMAGES
  /\ new_product (data_of (step u w) (tg_id (upd_user u)))
     = Some (set_images [] (set_category category p))
  /\ db (step u w) = db w.
Proof.
  intros He Hs Hp.
  unfold state_of, data_of, step in *. rewrite Hs, He. simpl.
  unfold get_product_category, update_draft. simpl. rewrite Hp. simpl.
  rewrite !lookup_insert_eq. repeat split; reflexivity.
Qed.

Lemma authoring_until_images who now name description price p category w :
  state_of w (tg_id who) = Some ADMIN_MENU ->
  is_admin (db w) (tg_id who) = true ->
  (3 <= length (strip name))%nat ->
  (10 <= length (strip description))%nat ->
  parse_price price = Some p ->
  state_of
    (run [deliver who now (Button cb_add_product); deliver who now (Text name);
          deliver who now (Text description); deliver who now (Text price);
          deliver who now (Button (cb_select_cat category))] w) (tg_id who)
  = Some WAITING_IMAGES
  /\ new_product
       (data_of
          (run [deliver who now (Button cb_add_product); deliver who now (Text name);
                deliver who now (Text description); deliver who now (Text price);
                deliver who now (Button (cb_select_cat category))] w) (tg_id who))
     = Some {| p_id := None; p_name := strip name;
               p_description := strip description; p_price := p;
               p_category := category; p_images := []; p_created_at := None;
               p_is_active := true |}
  /\ db (run [deliver who now (Button cb_add_product); deliver who now (Text name);
              deliver who now (Text description); deliver who now (Text price);
              deliver who now (Button (cb_select_cat category))] w) = db w.
Proof.
  intros Hs Ha Hn Hd Hp. unfold run. cbn [fold_left act deliver].
  destruct (add_product_step
              {| upd_time := now; upd_user := who;
                 upd_event := Button cb_add_product |} w eq_refl Hs Ha)
    as (Hs1 & Hp1 & Hd1).
  destruct (name_step {| upd_time := now; upd_user := who; upd_event := Text name |}
              _ name _ eq_refl Hs1 Hp1 Hn) as (Hs2 & Hp2 & Hd2).
  destruct (description_step
              {| upd_time := now; upd_user := who; upd_event := Text description |}
              _ description _ eq_refl Hs2 Hp2 Hd) as (Hs3 & Hp3 & Hd3).
  destruct (price_taken_step
              {| upd_time := now; upd_user := who; upd_event := Text price |}
              _ price p _ eq_refl Hs3 Hp3 Hp) as (Hs4 & Hp4 & Hd4).
  destruct (category_step
              {| upd_time := now; upd_user := who;
                 upd_event := Button (cb_select_cat category) |}
              _ category _ eq_refl Hs4 Hp4) as (Hs5 & Hp5 & Hd5).
  cbn [upd_user] in *.
  split; [exact Hs5|]. split; [exact Hp5|].
  rewrite Hd5, Hd4, Hd3, Hd2. exact Hd1.
Qed.

Lemma run_app l1 l2 w : run (l1 ++ l2) w = run l2 (run l1 w).
Proof. unfold run. apply fold_left_app. Qed.

Lemma finish_images_saves who saved w p :
  state_of w (tg_id who) = Some WAITING_IMAGES ->
  new_product (data_of w (tg_id who)) = Some p ->
  p_id p = None -> is_nan (p_price p) = false ->
  db (run [deliver who saved (Button cb_finish_images)] w)
  = set_products (fun rows => rows ++
      [{| pr_id := next_rowid (products_seq (db w)) (map pr_id (products (db w)));
          pr_name := p_name p; pr_description := p_description p;
          pr_price := p_price p; pr_category := p_category p;
          pr_images := p_images p; pr_created_at := saved;
          pr_is_active := p_is_active p |}])
      (next_rowid (products_seq (db w)) (map pr_id (products (db w)))) (db w)
  /\ state_of (run [deliver who saved (Button cb_finish_images)] w) (tg_id who)
     = Some ADMIN_MENU
  /\ new_product (data_of (run [deliver who saved (Button cb_finish_images)] w)
                    (tg_id who)) = None.
Proof.
  intros Hs Hp Hid Hnan. unfold run. simpl.
  unfold state_of, data_of, step in *. simpl. rewrite Hs. simpl.
  unfold get_product_images, save_new_product. simpl. rewrite Hp.
  rewrite (save_product_insert_row saved p (db w) (or_introl Hid) Hnan). simpl.
  rewrite !lookup_insert_eq. repeat split; reflexivity.
Qed.

(** X19. An administrator in the admin menu who presses "add product",
    gives a name of at least 3 characters, a description of at least 10,
    a price the price check takes and that is a number, picks a category,
    sends photos and presses "finish" has added exactly one product row:
    under a new id, with the stripped name and description, the parsed
    price, the category, the photos in the order sent, the time of the
    last update, active.  The conversation is back in ADMIN_MENU without a
    draft, and users, carts and orders are as before. *)
Theorem authoring_script_saves_product
    who now saved name description price p category photos w :
  state_of w (tg_id who) = Some ADMIN_MENU ->
  is_admin (db w) (tg_id who) = true ->
  (3 <= length (strip name))%nat ->
  (10 <= length (strip description))%nat ->
  parse_price price = Some p ->
  is_nan p = false ->
  products (db (run (authoring_script who now saved name description price
                       category photos) w))
  = products (db w) ++
      [{| pr_id := next_rowid (products_seq (db w)) (map pr_id (products (db w)));
          pr_name := strip name; pr_description := strip description;
          pr_price := p; pr_category := category; pr_images := photos;
          pr_created_at := saved; pr_is_active := true |}]
  /\ state_of (run (authoring_script who now saved name description price
                      category photos) w) (tg_id who) = Some ADMIN_MENU
  /\ new_product (data_of (run (authoring_script who now saved name description
                                  price category photos) w) (tg_id who)) = None
  /\ users (db (run (authoring_script who now saved name description price
                       category photos) w)) = users (db w)
  /\ cart (db (run (authoring_script who now saved name description price
                      category photos) w)) = cart (db w)
  /\ orders (db (run (authoring_script who now saved name description price
                        category photos) w)) = orders (db w).
Proof.
  intros Hs Ha Hn Hd Hp Hnan. unfold authoring_script.
  rewrite run_app, run_app.
  destruct (authoring_until_images who now name description price p category w
              Hs Ha Hn Hd Hp) as (Hs1 & Hp1 & Hd1).
  destruct (photos_are_appended who now photos _ _ Hs1 Hp1) as (Hs2 & Hp2 & Hd2).
  destruct (finish_images_saves who saved _ _ Hs2 Hp2 eq_refl Hnan)
    as (Hd3 & Hs3 & Hp3).
  rewrite Hd3, Hd2, Hd1. simpl. repeat split; assumption.
Qed.

(** ** An order written from the cart view *)

Lemma checkout_step u w item items :
  upd_event u = Button cb_checkout ->
  state_of w (tg_id (upd_user u)) = Some CART_VIEW ->
  get_cart_items (db w) (tg_id (upd_user u)) = item :: items ->
  state_of (step u w) (tg_id (upd_user u)) = Some ORDER_PHONE
  /\ data_of (step u w) (tg_id (upd_user u))
     = set_order_items (Some (item :: items)) (data_of w (tg_id (upd_user u)))
  /\ db (step u w) = db w.
Proof.
  intros He Hs Hc. unfold state_of, data_of, step in *. rewrite Hs, He. simpl.
  unfold checkout. simpl. rewrite Hc. simpl.
  rewrite !lookup_insert_eq. repeat split; reflexivity.
Qed.

Lemma phone_step u w text :
  upd_event u = Text text ->
  state_of w (tg_id (upd_user u)) = Some ORDER_PHONE ->
  (10 <= length (strip text))%nat ->
  state_of (step u w) (tg_id (upd_user u)) = Some ORDER_ADDRESS
  /\ data_of (step u w) (tg_id (upd_user u))
     = set_order_phone (Some (strip text)) (data_of w (tg_id (upd_user u)))
  /\ db (step u w) = db w.
Proof.
  intros He Hs Hn. apply Nat.ltb_ge in Hn.
  unfold state_of, data_of, step in *. rewrite Hs, He. simpl.
  unfold get_order_phone. rewrite Hn. simpl.
  rewrite !lookup_insert_eq. repeat split; reflexivity.
Qed.

Lemma address_step u w text :
  upd_event u = Text text ->
  state_of w (tg_id (upd_user u)) = Some ORDER_ADDRESS ->
  (10 <= length (strip text))%nat ->
  state_of (step u w) (tg_id (upd_user u)) = Some ORDER_COMMENT
  /\ data_of (step u w) (tg_id (upd_user u))
     = set_order_address (Some (strip text)) (data_of w (tg_id (upd_user u)))
  /\ db (step u w) = db w.
Proof.
  intros He Hs Hn. apply Nat.ltb_ge in Hn.
  unfold state_of, data_of, step in *. rewrite Hs, He. simpl.
  unfold get_order_address. rewrite Hn. simpl.
  rewrite !lookup_insert_eq. repeat split; reflexivity.
Qed.

Lemma add_comment_step u w :
  upd_event u = Button cb_add_comment ->
  state_of w (tg_id (upd_user u)) = Some ORDER_COMMENT ->
  state_of (step u w) (tg_id (upd_user u)) = Some ORDER_COMMENT
  /\ data_of (step u w) (tg_id (upd_user u)) = data_of w (tg_id (upd_user u))
  /\ db (step u w) = db w.
Proof.
  intros He Hs.
  unfold state_of, data_of, step in *. rewrite Hs, He. simpl.
  unfold get_order_comment. rewrite He. simpl.
  rewrite !lookup_insert_eq. repeat split; reflexivity.
Qed.

Lemma comment_step u w text :
  upd_event u = Text text ->
  state_of w (tg_id (upd_user u)) = Some ORDER_COMMENT ->
  state_of (step u w) (tg_id (upd_user u)) = Some ORDER_COMMENT
  /\ data_of (step u w) (tg_id (upd_user u))
     = set_order_comment (Some (strip text)) (data_of w (tg_id (upd_user u)))
  /\ db (step u w) = db w.
Proof.
  intros He Hs.
  unfold state_of, data_of, step in *. rewrite Hs, He. simpl.
  unfold get_order_comment. rewrite He. simpl.
  rewrite !lookup_insert_eq. repeat split; reflexivity.
Qed.

Lemma order_until_finish who now phone address comment item items w :
  state_of w (tg_id who) = Some CART_VIEW ->
  get_cart_items (db w) (tg_id who) = item :: items ->
  (10 <= length (strip phone))%nat ->
  (10 <= length (strip address))%nat ->
  state_of
    (run [deliver who now (Button cb_checkout); deliver who now (Text phone);
          deliver who now (Text address); deliver who now (Button cb_add_comment);
          deliver who now (Text comment)] w) (tg_id who) = Some ORDER_COMMENT
  /\ data_of
       (run [deliver who now (Button cb_checkout); deliver who now (Text phone);
             deliver who now (Text address); deliver who now (Button cb_add_comment);
             deliver who now (Text comment)] w) (tg_id who)
     = set_order_comment (Some (strip comment))
         (set_order_address (Some (strip address))
            (set_order_phone (Some (strip phone))
               (set_order_items (Some (item :: items)) (data_of w (tg_id who)))))
  /\ db (run [deliver who now (Button cb_checkout); deliver who now (Text phone);
              deliver who now (Text address); deliver who now (Button cb_add_comment);
              deliver who now (Text comment)] w) = db w.
Proof.
  intros Hs Hcart Hph Had. unfold run. cbn [fold_left act deliver].
  destruct (checkout_step
              {| upd_time := now; upd_user := who; upd_event := Button cb_checkout |}
              w item items eq_refl Hs Hcart) as (Hs1 & Hd1 & Hb1).
  destruct (phone_step {| upd_time := now; upd_user := who; upd_event := Text phone |}
              _ phone eq_refl Hs1 Hph) as (Hs2 & Hd2 & Hb2).
  destruct (address_step
              {| upd_time := now; upd_user := who; upd_event := Text address |}
              _ address eq_refl Hs2 Had) as (Hs3 & Hd3 & Hb3).
  destruct (add_comment_step
              {| upd_time := now; upd_user := who; upd_event := Button cb_add_comment |}
              _ eq_refl Hs3) as (Hs4 & Hd4 & Hb4).
  destruct (comment_step
              {| upd_time := now; upd_user := who; upd_event := Text comment |}
              _ comment eq_refl Hs4) as (Hs5 & Hd5 & Hb5).
  cbn [upd_user] in *.
  split; [exact Hs5|].
  split; [rewrite Hd5, Hd4, Hd3, Hd2, Hd1; reflexivity|].
  rewrite Hb5, Hb4, Hb3, Hb2. exact Hb1.
Qed.

(** X20. A user in the cart view whose cart read is not empty and who
    presses "checkout", gives a phone and an address of at least 10
    characters, presses "add comment", types a comment and presses
    "finish" has added exactly one order row, under a new id: its line
    items record the items of the cart read one by one (product id, name,
    unit price, quantity, and their product as the total of the line),
    its total is the sum over the lines of unit price times quantity, and
    it holds the stripped phone and address, the status "new" and an empty
    comment.  The comment typed is not stored: the "finish" button empties
    it before the order is written.  The cart of the user is empty
    afterwards and the conversation is in MAIN_MENU. *)
Theorem order_script_commits_order
    who now committed phone address comment item items w :
  state_of w (tg_id who) = Some CART_VIEW ->
  get_cart_items (db w) (tg_id who) = item :: items ->
  (10 <= length (strip phone))%nat ->
  (10 <= length (strip address))%nat ->
  (exists o,
     orders (db (run (order_script who now committed phone address comment) w))
     = orders (db w) ++ [o]
     /\ o_id o = next_rowid (orders_seq (db w)) (map o_id (orders (db w)))
     /\ o_user_id o = tg_id who
     /\ Forall2 line_of_item (o_products o) (item :: items)
     /\ o_total_amount o = order_sum (o_products o)
     /\ o_phone o = strip phone /\ o_address o = strip address
     /\ o_comment o = [] /\ o_status o = str_of "new"
     /\ o_created_at o = committed)
  /\ get_cart_items
       (db (run (order_script who now committed phone address comment) w))
       (tg_id who) = []
  /\ state_of (run (order_script who now committed phone address comment) w)
       (tg_id who) = Some MAIN_MENU
  /\ order_items
       (data_of (run (order_script who now committed phone address comment) w)
          (tg_id who)) = None.
Proof.
  intros Hs Hcart Hph Had.
  change (order_script who now committed phone address comment)
    with ([deliver who now (Button cb_checkout); deliver who now (Text phone);
           deliver who now (Text address); deliver who now (Button cb_add_comment);
           deliver who now (Text comment)]
          ++ [deliver who committed (Button cb_finish_order)]).
  rewrite run_app.
  destruct (order_until_finish who now phone address comment item items w
              Hs Hcart Hph Had) as (Hs1 & Hd1 & Hdb1).
  set (w1 := run _ w) in *.
  assert (Hi1 : order_items (data_of w1 (tg_id who)) = Some (item :: items))
    by (rewrite Hd1; reflexivity).
  destruct (step_finish_order w1
              {| upd_time := committed; upd_user := who;
                 upd_event := Button cb_finish_order |}
              item items eq_refl Hs1 Hi1) as (Hdb2 & Hs2 & Hi2).
  change (run [deliver who committed (Button cb_finish_order)] w1)
    with (step {| upd_time := committed; upd_user := who;
                  upd_event := Button cb_finish_order |} w1).
  cbn [upd_user upd_time] in Hdb2, Hs2, Hi2.
  rewrite Hdb2. split; [|split; [apply get_cart_items_clear|split; assumption]].
  unfold committed_order. rewrite Hd1, Hdb1.
  eexists. split; [reflexivity|].
  cbn [o_id o_user_id o_products o_total_amount o_phone o_address o_comment
       o_status o_created_at].
  split; [reflexivity|]. split; [reflexivity|].
  split; [apply lines_of_items|].
  split; [unfold order_sum;
          destruct (order_sum_of_items (item :: items) fzero) as [-> _];
          reflexivity|].
  repeat split; reflexivity.
Qed.

(** ** The pages of a listing *)

Lemma products_page_rows d category page :
  products_page d category page = map Product_of_row (rows_page d category page).
Proof.
  unfold products_page, rows_page, get_products_by_category.
  rewrite skipn_map, firstn_map. reflexivity.
Qed.

Lemma keyboard_data d category page :
  map callback_data (concat (get_products_keyboard d category page))
  = map (fun r => cb_product (pr_id r)) (rows_page d category page)
    ++ map callback_data (nav_row d category page)
    ++ [cb_catalog; cb_main_menu].
Proof.
  unfold get_products_keyboard. rewrite !concat_app, !map_app. f_equal.
  - induction (rows_page d category page) as [|r rows IH]; simpl; [reflexivity|].
    f_equal. exact IH.
  - f_equal. destruct (nav_row d category page); simpl; [reflexivity|].
    rewrite app_nil_r. reflexivity.
Qed.

Lemma next_page_not_empty d category page :
  (page * 10 + 10 <? length (select_products_by_category d category))%nat = true
  <-> rows_page d category (S page) <> [].
Proof.
  unfold rows_page. rewrite Nat.ltb_lt.
  generalize (select_products_by_category d category). intros l.
  split.
  - intros Hlt Hnil. apply (f_equal length) in Hnil.
    rewrite length_take, length_drop in Hnil. change (length []) with 0%nat in Hnil.
    lia.
  - intros Hne. destruct (Nat.lt_ge_cases (page * 10 + 10) (length l)) as [H|H];
      [exact H|]. exfalso. apply Hne. rewrite drop_ge by lia. reflexivity.
Qed.

(** X21. The keyboard of a page of a listing: its product buttons are those
    of the rows [page*10 .. page*10+9] of the listing, at most 10; every
    row of the listing is on the page of its index divided by 10, at the
    place of the remainder; the "previous" button is there exactly when the
    page is not the first, and leads to the page before; the "next" button
    is there exactly when the next page has a product, and leads to it. *)
Theorem products_keyboard_pagination d category page :
  (forall i,
     In (cb_product i)
        (map callback_data (concat (get_products_keyboard d category page)))
     <-> In i (map pr_id (rows_page d category page)))
  /\ (length (rows_page d category page) <= 10)%nat
  /\ (forall i r,
        select_products_by_category d category !! i = Some r ->
        rows_page d category (i / 10) !! (i mod 10)%nat = Some r)
  /\ (forall q,
        In (cb_products category q)
           (map callback_data (concat (get_products_keyboard d category page)))
        <-> (S q = page \/ (q = S page /\ rows_page d category (S page) <> []))).
Proof.
  split; [|split; [|split]].
  - intros i. rewrite keyboard_data, !in_app_iff, !in_map_iff. split.
    + intros [(r & Hr & Hin)|[(b & Hb & Hin)|[H|[H|[]]]]]; try discriminate.
      * injection Hr as <-. exists r. split; [reflexivity|exact Hin].
      * unfold nav_row in Hin. apply in_app_iff in Hin.
        destruct Hin as [Hin|Hin]; [destruct (0 <? page)%nat|destruct (_ <? _)%nat];
          simpl in Hin; try tauto; destruct Hin as [<-|[]]; discriminate Hb.
    + intros (r & <- & Hin). left. exists r. split; [reflexivity|exact Hin].
  - unfold rows_page. rewrite length_take. lia.
  - intros i r Hi. unfold rows_page.
    rewrite lookup_take_lt by (apply Nat.mod_upper_bound; lia).
    rewrite lookup_drop.
    replace (i / 10 * 10 + i mod 10)%nat with i; [exact Hi|].
    rewrite (Nat.div_mod_eq i 10) at 1. lia.
  - intros q. rewrite keyboard_data, !in_app_iff, !in_map_iff.
    rewrite <- next_page_not_empty. unfold nav_row. split.
    + intros [(r & Hr & _)|[(b & Hb & Hin)|[H|[H|[]]]]]; try discriminate.
      apply in_app_iff in Hin. destruct Hin as [Hin|Hin].
      * destruct (0 <? page)%nat eqn:E; simpl in Hin; [|tauto].
        destruct Hin as [<-|[]]. simpl in Hb. injection Hb as <-.
        left. apply Nat.ltb_lt in E. lia.
      * destruct (_ <? _)%nat eqn:E; simpl in Hin; [|tauto].
        destruct Hin as [<-|[]]. simpl in Hb. injection Hb as <-.
        right. split; [lia|reflexivity].
    + intros [<-|[-> E]]; right; left.
      * eexists. split; [|apply in_app_iff; left; simpl; left; reflexivity].
        simpl. f_equal. lia.
      * eexists. split; [|apply in_app_iff; right; rewrite E; left; reflexivity].
        simpl. f_equal. lia.
Qed.

(** ** The keyboard of the categories *)

Lemma list_pair_ind {A} (P : list A -> Prop) :
  P [] -> (forall a, P [a]) -> (forall a b l, P l -> P (a :: b :: l)) ->
  forall l, P l.
Proof.
  intros H0 H1 H2 l.
  assert (H : P l /\ forall a, P (a :: l)).
  { induction l as [|b l [IH1 IH2]]; [split; [exact H0|exact H1]|].
    split; [apply IH2|]. intros a. apply H2, IH1. }
  apply H.
Qed.

Lemma range_by_two_step n :
  range_by_two (S (S n)) = 0%nat :: map (fun i => S (S i)) (range_by_two n).
Proof.
  unfold range_by_two. change (Nat.div2 (S (S (S n)))) with (S (Nat.div2 (S n))).
  simpl seq. rewrite <- seq_shift. simpl map at 1. f_equal.
  rewrite !map_map. apply map_ext. intros k. lia.
Qed.

Lemma category_row_at_step a b rest i :
  category_row_at (a :: b :: rest) (S (S i)) = category_row_at rest i.
Proof.
  unfold category_row_at.
  change (length (a :: b :: rest)) with (S (S (length rest))).
  change (Nat.min (S (S i) + 2) (S (S (length rest))) - S (S i))%nat
    with (Nat.min (i + 2) (length rest) - i)%nat.
  generalize (Nat.min (i + 2) (length rest) - i)%nat. intros len.
  revert i. induction len as [|len IH]; intros i; simpl; [reflexivity|].
  rewrite IH. reflexivity.
Qed.

Lemma category_rows_shape (cats : list category_row) :
  concat (map (category_row_at cats) (range_by_two (length cats)))
  = map category_button cats
  /\ Forall (fun row => length row = 2%nat \/ length row = 1%nat)
       (map (category_row_at cats) (range_by_two (length cats)))
  /\ length (map (category_row_at cats) (range_by_two (length cats)))
     = Nat.div2 (S (length cats))
  /\ (forall k row,
        map (category_row_at cats) (range_by_two (length cats)) !! k = Some row ->
        row = take 2 (drop (2 * k) (map category_button cats))).
Proof.
  induction cats as [|a|a b rest (IH1 & IH2 & IH3 & IH4)] using list_pair_ind.
  - split; [reflexivity|]. split; [apply List.Forall_nil|].
    split; [reflexivity|]. intros k row Hk. destruct k; discriminate Hk.
  - split; [reflexivity|]. split; [|split; [reflexivity|]].
    + apply List.Forall_cons; [right; reflexivity|apply List.Forall_nil].
    + intros [|k] row Hk; [|destruct k; discriminate Hk].
      injection Hk as <-. reflexivity.
  - change (length (a :: b :: rest)) with (S (S (length rest))).
    rewrite range_by_two_step. simpl map. rewrite map_map.
    rewrite (map_ext _ (category_row_at rest))
      by (intros i; apply category_row_at_step).
    split; [|split; [|split]].
    4: { intros [|k] row Hk.
         - injection Hk as <-. reflexivity.
         - replace (2 * S k)%nat with (S (S (2 * k))) by lia.
           apply (IH4 k row Hk). }
    + simpl concat. rewrite IH1.
      change (category_row_at (a :: b :: rest) 0)
        with ([category_button a; category_button b]
              ++ omap (fun j => category_button <$> (a :: b :: rest) !! j)
                   (seq 2 (Nat.min 2 (S (S (length rest))) - 2))).
      reflexivity.
    + apply List.Forall_cons; [left; reflexivity|exact IH2].
    + simpl length. rewrite IH3. reflexivity.
Qed.

(** X22. The keyboard of the categories shows every category of the table
    once, in the order of the names, two to a row: row [k] holds the
    buttons of the categories [2k] and [2k+1] of that order, the last row
    the one button that is left when the number of categories is odd; the
    number of rows is half the number of categories, rounded up; and the
    row of the main menu closes the keyboard. *)
Theorem categories_keyboard_rows d :
  exists rows,
    get_categories_keyboard d
    = rows ++ [[{| btn_text := lbl_main_menu; callback_data := cb_main_menu |}]]
    /\ concat rows = map category_button (get_categories d)
    /\ Forall (fun row => length row = 2%nat \/ length row = 1%nat) rows
    /\ length rows = Nat.div2 (S (length (categories d)))
    /\ (forall k row,
          rows !! k = Some row ->
          row = take 2 (drop (2 * k) (map category_button (get_categories d)))).
Proof.
  destruct (category_rows_shape (get_categories d)) as (H1 & H2 & H3 & H4).
  eexists. split; [reflexivity|]. split; [exact H1|]. split; [exact H2|].
  split; [|exact H4].
  rewrite H3. unfold get_categories.
  rewrite length_sort_by. reflexivity.
Qed.

Lemma category_keyboard_buttons d b :
  In b (concat (get_categories_keyboard d)) ->
  (exists cat, In cat (get_categories d) /\ b = category_button cat)
  \/ callback_data b = cb_main_menu.
Proof.
  unfold get_categories_keyboard. rewrite concat_app, in_app_iff.
  intros [Hin|Hin].
  - left. apply in_concat in Hin as (row & Hrow & Hb).
    apply in_map_iff in Hrow as (i & <- & _).
    unfold category_row_at in Hb.
    apply list_elem_of_In, list_elem_of_omap in Hb as (j & _ & Hj).
    destruct (get_categories d !! j) as [cat|] eqn:Hcat; [|discriminate Hj].
    injection Hj as <-. exists cat. split; [|reflexivity].
    apply list_elem_of_In. eapply list_elem_of_lookup_2, Hcat.
  - right. simpl in Hin. destruct Hin as [<- | []]. reflexivity.
Qed.

(** X23. The buttons of the keyboards and the handlers of the states the
    keyboards are shown in.  Every button of the main keyboard has a
    handler in MAIN_MENU, every button of the admin keyboard one in
    ADMIN_MENU, every button of the categories keyboard one in CATALOG.
    On the keyboard of a listing, shown in CATALOG, every button has a
    handler but "categories", which is always there; on the keyboard of a
    product, shown in PRODUCT_VIEW, every button has a handler but "edit",
    which is there exactly for an administrator.  A press of either of the
    two is dropped: the step changes nothing. *)
Theorem keyboard_buttons_and_handlers d :
  (forall uid b, In b (concat (get_main_keyboard d uid)) ->
     is_Some (handler_for (Some MAIN_MENU) (Button (callback_data b))))
  /\ (forall b, In b (concat get_admin_keyboard) ->
        is_Some (handler_for (Some ADMIN_MENU) (Button (callback_data b))))
  /\ (forall b, In b (concat (get_categories_keyboard d)) ->
        is_Some (handler_for (Some CATALOG) (Button (callback_data b))))
  /\ (forall category page b,
        In b (concat (get_products_keyboard d category page)) ->
        (is_Some (handler_for (Some CATALOG) (Button (callback_data b)))
         <-> callback_data b <> cb_catalog))
  /\ (forall category page,
        In cb_catalog
           (map callback_data (concat (get_products_keyboard d category page))))
  /\ (forall pid uid b,
        In b (concat (get_product_keyboard d pid uid)) ->
        (is_Some (handler_for (Some PRODUCT_VIEW) (Button (callback_data b)))
         <-> callback_data b <> cb_edit_product pid))
  /\ (forall pid uid,
        In (cb_edit_product pid)
           (map callback_data (concat (get_product_keyboard d pid uid)))
        <-> is_admin d uid = true)
  /\ (forall u w,
        (state_of w (tg_id (upd_user u)) = Some CATALOG
         /\ upd_event u = Button cb_catalog)
        \/ (state_of w (tg_id (upd_user u)) = Some PRODUCT_VIEW
            /\ exists pid, upd_event u = Button (cb_edit_product pid)) ->
        step u w = w).
Proof.
  split; [|split; [|split; [|split; [|split; [|split; [|split]]]]]].
  - intros uid b. unfold get_main_keyboard. rewrite concat_app, in_app_iff.
    destruct (is_admin d uid); simpl;
      intuition (subst; simpl; eexists; reflexivity).
  - intros b. simpl. intuition (subst; simpl; eexists; reflexivity).
  - intros b Hb. apply category_keyboard_buttons in Hb as [(cat & _ & ->) | ->];
      simpl; eexists; reflexivity.
  - intros category page b Hb. apply (in_map callback_data) in Hb.
    rewrite keyboard_data, !in_app_iff, in_map_iff in Hb.
    destruct Hb as [(r & <- & _)|[Hb|Hb]].
    + simpl. split; [discriminate|]. intros _. eexists. reflexivity.
    + unfold nav_row in Hb. rewrite map_app, in_app_iff in Hb.
      destruct (0 <? page)%nat, (page * 10 + 10 <? _)%nat; simpl in Hb;
        intuition (match goal with
                   | H : _ = callback_data b |- _ => rewrite <- H in *
                   end; simpl in *;
                   first [discriminate | eexists; reflexivity | idtac]).
    + simpl in Hb. destruct Hb as [<-|[<-|[]]]; simpl.
      * split; [intros [h Hh]; discriminate Hh|intros Hne; contradiction Hne;
                reflexivity].
      * split; [discriminate|]. intros _. eexists. reflexivity.
  - intros category page. rewrite keyboard_data, !in_app_iff. right. right.
    left. reflexivity.
  - intros pid uid b. unfold get_product_keyboard.
    destruct (is_admin d uid); simpl; intros Hb;
      repeat match goal with
             | H : _ \/ _ |- _ => destruct H as [H|H]
             | H : False |- _ => destruct H
             end; subst b; simpl;
      first [ split; [discriminate|]; intros _; eexists; reflexivity
            | split; [intros [h Hh]; discriminate Hh
                     |intros Hne; contradiction Hne; reflexivity] ].
  - intros pid uid. unfold get_product_keyboard.
    destruct (is_admin d uid); simpl.
    + split; [reflexivity|]. intros _. right. left. reflexivity.
    + split; [|discriminate].
      intros [H|[H|[]]]; discriminate H.
  - intros u w [[Hs He]|[Hs [pid He]]]; apply step_no_handler;
      rewrite Hs, He; reflexivity.
Qed.

End FurnitureBot.

(** ** The properties on the shop *)


(** Ann finishes her order of one sofa and two stools. *)
Lemma commit_empties_cart_and_totals_witness :
  state_of (world_of (shop true) ann ORDER_COMMENT ann_ordering) 5
  = Some ORDER_COMMENT
  /\ order_items (data_of (world_of (shop true) ann ORDER_COMMENT ann_ordering) 5)
     = Some ann_items
  /\ get_cart_items
       (db (step shop_admins ascii_only (press ann 103 cb_finish_order)
              (world_of (shop true) ann ORDER_COMMENT ann_ordering))) 5 = [].
Proof.
  split; [reflexivity|]. split; [reflexivity|].
  exact (proj1 (commit_empties_cart_and_totals shop_admins ascii_only
                  (world_of (shop true) ann ORDER_COMMENT ann_ordering)
                  (press ann 103 cb_finish_order) 5 _ _
                  eq_refl eq_refl eq_refl eq_refl)).
Defined.

(** Ann's finish-order button pressed twice. *)
Lemma double_finish_one_order_witness :
  state_of (world_of (shop true) ann ORDER_COMMENT ann_ordering) 5
  = Some ORDER_COMMENT
  /\ order_items (data_of (world_of (shop true) ann ORDER_COMMENT ann_ordering) 5)
     = Some ann_items
  /\ length (orders (db (step shop_admins ascii_only (press ann 104 cb_finish_order)
                          (step shop_admins ascii_only (press ann 103 cb_finish_order)
                             (world_of (shop true) ann ORDER_COMMENT ann_ordering)))))
     = 1%nat.
Proof.
  split; [reflexivity|]. split; [reflexivity|].
  exact (proj1 (double_finish_one_order shop_admins ascii_only
                  (world_of (shop true) ann ORDER_COMMENT ann_ordering)
                  (press ann 103 cb_finish_order) (press ann 104 cb_finish_order)
                  5 _ _ eq_refl eq_refl eq_refl eq_refl eq_refl eq_refl)).
Defined.

(** Past the 64 bits the quantity is kept as a REAL: the sum of 2^63 - 1
    and 1 is 2^63, a further 1 is lost in it, and a quantity of 2^63 is
    not bound at all. *)
Lemma add_to_cart_past_int64 :
  cart_quantity (add_to_cart 5 1 1 (add_to_cart 5 1 (2 ^ 63 - 1) empty_shop)) 5 1
  = 2 ^ 63
  /\ cart_quantity
       (add_to_cart 5 1 1
          (add_to_cart 5 1 1 (add_to_cart 5 1 (2 ^ 63 - 1) empty_shop))) 5 1
     = 2 ^ 63
  /\ add_to_cart 5 1 (2 ^ 63) empty_shop = empty_shop.
Proof. repeat split; vm_compute; reflexivity. Qed.

Lemma ann_flow_keeps_checkout : Forall (keeps_checkout 5) ann_flow.
Proof.
  unfold ann_flow.
  apply List.Forall_cons; [intros _; split; discriminate|].
  apply List.Forall_cons; [exact I|].
  apply List.Forall_cons; [intros _; split; discriminate|].
  apply List.Forall_cons; [exact I|]. apply List.Forall_nil.
Defined.

(** Ann checks out; a chair is added to her cart and the cart is cleared
    while she gives her phone and address; the order has the sofa and the
    stools of the snapshot. *)
Lemma checkout_snapshot_committed_witness :
  state_of (world_of (shop true) ann CART_VIEW empty_data) 5 = Some CART_VIEW
  /\ get_cart_items (shop true) 5 = ann_items
  /\ Forall (keeps_checkout 5) ann_flow
  /\ state_of (run shop_admins ascii_only ann_flow
                 (step shop_admins ascii_only (press ann 100 cb_checkout)
                    (world_of (shop true) ann CART_VIEW empty_data))) 5
     = Some ORDER_COMMENT
  /\ get_cart_items
       (db (run shop_admins ascii_only ann_flow
              (step shop_admins ascii_only (press ann 100 cb_checkout)
                 (world_of (shop true) ann CART_VIEW empty_data)))) 5 = []
  /\ exists o,
       orders (db (step shop_admins ascii_only (press ann 103 cb_finish_order)
                     (run shop_admins ascii_only ann_flow
                        (step shop_admins ascii_only (press ann 100 cb_checkout)
                           (world_of (shop true) ann CART_VIEW empty_data)))))
       = orders (db (run shop_admins ascii_only ann_flow
                       (step shop_admins ascii_only (press ann 100 cb_checkout)
                          (world_of (shop true) ann CART_VIEW empty_data)))) ++ [o]
       /\ o_user_id o = 5
       /\ o_products o = map order_product_of (get_cart_items (shop true) 5)
       /\ Forall2 line_of_item (o_products o) (get_cart_items (shop true) 5).
Proof.
  split; [reflexivity|]. split; [reflexivity|].
  split; [exact ann_flow_keeps_checkout|].
  split; [reflexivity|]. split; [reflexivity|].
  refine (proj2 (checkout_snapshot_committed shop_admins ascii_only
                   (world_of (shop true) ann CART_VIEW empty_data)
                   (press ann 100 cb_checkout) ann_flow
                   (press ann 103 cb_finish_order) 5
                   eq_refl eq_refl eq_refl _ ann_flow_keeps_checkout
                   eq_refl eq_refl eq_refl)).
  discriminate.
Defined.

(** C6. The command /cancel while a draft is being written.  The
    administrator has started the bot, opened the admin panel, pressed
    "add product" and given the name of the product: the command moves the
    conversation to MAIN_MENU and the draft product stays in the session.
    Ann has started the bot, opened her cart, checked out and given her
    phone: the command moves her conversation to MAIN_MENU, and the
    snapshot of her cart and her phone stay in the session. *)
Theorem cancel_keeps_draft :
  state_of (run shop_admins ascii_only bob_drafting (initial_world (shop true))) 1
  = Some WAITING_DESCRIPTION
  /\ state_of (run shop_admins ascii_only
                 (bob_drafting ++ [deliver bob 5 cmd_cancel])
                 (initial_world (shop true))) 1
     = Some MAIN_MENU
  /\ new_product (data_of (run shop_admins ascii_only
                             (bob_drafting ++ [deliver bob 5 cmd_cancel])
                             (initial_world (shop true))) 1)
     = Some (set_name (str_of "Bench") new_Product)
  /\ ~ cancel_discards (run shop_admins ascii_only
                          (bob_drafting ++ [deliver bob 5 cmd_cancel])
                          (initial_world (shop true))) 1
  /\ state_of (run shop_admins ascii_only ann_checking_out
                 (initial_world (shop true))) 5
     = Some ORDER_ADDRESS
  /\ state_of (run shop_admins ascii_only
                 (ann_checking_out ++ [deliver ann 5 cmd_cancel])
                 (initial_world (shop true))) 5
     = Some MAIN_MENU
  /\ order_items (data_of (run shop_admins ascii_only
                             (ann_checking_out ++ [deliver ann 5 cmd_cancel])
                             (initial_world (shop true))) 5)
     = Some ann_items
  /\ order_phone (data_of (run shop_admins ascii_only
                             (ann_checking_out ++ [deliver ann 5 cmd_cancel])
                             (initial_world (shop true))) 5)
     = Some (str_of "+71234567890").
Proof.
  repeat split; try (vm_compute; reflexivity).
  intros [_ H]. vm_compute in H. discriminate H.
Qed.

(** C4. The "add to cart" button of a soft-deleted product: the row of the
    product is found, its [is_active] is not looked at, a cart row is
    written and the user is told the product was added; the cart the user
    reads does not show it. *)
Theorem add_inactive_product_reports_success :
  (p_is_active <$> get_product_by_id (shop false) 7) = Some false
  /\ cart (db (step shop_admins ascii_only (press ann 100 (cb_add_cart 7))
                 (world_of (shop false) ann PRODUCT_VIEW empty_data)))
     = cart (shop false)
       ++ [{| c_user_id := 5; c_product_id := 7; c_quantity := 1 |}]
  /\ sent (step shop_admins ascii_only (press ann 100 (cb_add_cart 7))
             (world_of (shop false) ann PRODUCT_VIEW empty_data))
     = [(5, alert_added (str_of "Chair"))]
  /\ get_cart_items
       (db (step shop_admins ascii_only (press ann 100 (cb_add_cart 7))
              (world_of (shop false) ann PRODUCT_VIEW empty_data))) 5
     = get_cart_items (shop false) 5.
Proof. repeat split; vm_compute; reflexivity. Qed.

(** C5. The confirmation of a deletion sent by a user who is neither in
    [ADMIN_IDS] nor flagged in the user table: the product is deactivated,
    the conversation moves to CATALOG, and no "no access" alert is sent;
    the delete request of the same user is refused. *)
Theorem confirm_delete_by_non_admin :
  is_admin shop_admins (shop true) 5 = false
  /\ (p_is_active <$> get_product_by_id (shop true) 7) = Some true
  /\ (p_is_active <$>
        get_product_by_id
          (db (step shop_admins ascii_only (press ann 100 (cb_confirm_delete 7))
                 (world_of (shop true) ann PRODUCT_VIEW empty_data))) 7)
     = Some false
  /\ state_of (step shop_admins ascii_only (press ann 100 (cb_confirm_delete 7))
                 (world_of (shop true) ann PRODUCT_VIEW empty_data)) 5
     = Some CATALOG
  /\ ~ In (5, alert_no_access)
         (sent (step shop_admins ascii_only (press ann 100 (cb_confirm_delete 7))
                  (world_of (shop true) ann PRODUCT_VIEW empty_data)))
  /\ sent (step shop_admins ascii_only (press ann 100 (cb_delete_product 7))
             (world_of (shop true) ann PRODUCT_VIEW empty_data))
     = [(5, alert_no_access)].
Proof.
  repeat split; try (vm_compute; reflexivity).
  vm_compute. intros [H|[H|[]]]; discriminate H.
Qed.

(** C8. The text "nan" in WAITING_PRICE: [float()] parses it, the check
    [price <= 0] is false on the NaN it returns, so the text is taken as a
    price although its value is not above zero; the draft gets the NaN and
    the conversation moves to WAITING_CATEGORY.  The product cannot be
    saved at the end of the flow.  The text "inf" is taken as well. *)
Theorem nan_price_accepted :
  (forall table, parse_price table (str_of "nan") = Some S754_nan)
  /\ fgt0 S754_nan = false
  /\ (forall table, parse_price table (str_of "inf") = Some (S754_infinity false))
  /\ state_of (step shop_admins ascii_only (say bob 60 "nan")
                 (world_of (shop true) bob WAITING_PRICE draft_data)) 1
     = Some WAITING_CATEGORY
  /\ (p_price <$>
        new_product
          (data_of (step shop_admins ascii_only (say bob 60 "nan")
                      (world_of (shop true) bob WAITING_PRICE draft_data)) 1))
     = Some S754_nan
  /\ sent (run shop_admins ascii_only nan_price_flow
             (world_of (shop true) bob WAITING_PRICE draft_data))
     = [(1, scr_ask_category S754_nan); (1, scr_ask_images (str_of "Chairs"));
        (1, scr_save_error)]
  /\ products (db (run shop_admins ascii_only nan_price_flow
                     (world_of (shop true) bob WAITING_PRICE draft_data)))
     = products (shop true).
Proof. repeat split; vm_compute; reflexivity. Qed.

(** ** Instances of the properties above, on the example shop *)

Lemma save_product_insert_lookup_witness :
  exists i d',
    save_product 40 (set_price (float_of_int 10) new_Product) (shop true)
    = Some (i, d')
    /\ products_seq (shop true) < i
    /\ length (products d') = 4%nat.
Proof.
  destruct (save_product_insert_lookup 40
              (set_price (float_of_int 10) new_Product) (shop true))
    as (i & d' & Hs & Hseq & _ & Hlen & _).
  - left. reflexivity.
  - vm_compute. reflexivity.
  - exists i, d'. split; [exact Hs|]. split; [exact Hseq|exact Hlen].
Defined.

(** A product that carries the id 9, which no row holds, and a price
    that is not a number: the id is returned and nothing is written. *)
Lemma save_product_update_rows_witness :
  get_product_by_id (shop true) 9 = None
  /\ save_product 40
       {| p_id := Some 9; p_name := str_of "Couch";
          p_description := str_of "A couch of oak"; p_price := S754_nan;
          p_category := str_of "Sofas"; p_images := []; p_created_at := None;
          p_is_active := true |} (shop true)
     = Some (9, shop true).
Proof.
  split; [reflexivity|].
  apply (save_product_update_rows 40
           {| p_id := Some 9; p_name := str_of "Couch";
              p_description := str_of "A couch of oak"; p_price := S754_nan;
              p_category := str_of "Sofas"; p_images := [];
              p_created_at := None; p_is_active := true |} (shop true) 9);
    [reflexivity|lia|reflexivity].
Defined.

Lemma cart_operations_isolated_witness :
  get_cart_items (apply_cart_op 1 op_clear (shop true)) 5
  = get_cart_items (shop true) 5.
Proof.
  apply (cart_operations_isolated (shop true) 1 5 op_clear). lia.
Defined.

Lemma cart_operations_keep_shape_witness :
  cart_ok (apply_cart_op 5 (op_add 7 1) (shop true)).
Proof.
  apply (cart_operations_keep_shape (shop true) 5 (op_add 7 1)).
  - split; [compute_done|].
    repeat (apply List.Forall_cons || apply List.Forall_nil); simpl; lia.
  - simpl. lia.
Defined.

Lemma cart_read_one_item_per_product_witness :
  NoDup (map product_id (get_cart_items (shop true) 5)).
Proof.
  apply (cart_read_one_item_per_product (shop true) 5).
  - compute_done.
  - split; [compute_done|].
    repeat (apply List.Forall_cons || apply List.Forall_nil); simpl; lia.
Defined.

Lemma run_keeps_primary_keys_witness :
  db_keys_ok
    (db (run shop_admins ascii_only ann_flow
           (world_of (shop true) ann ORDER_PHONE ann_ordering))).
Proof.
  apply (run_keeps_primary_keys shop_admins ascii_only ann_flow).
  - split; [compute_done|]. split; [compute_done|]. split; [compute_done|].
    split; [compute_done|].
    repeat (apply List.Forall_cons || apply List.Forall_nil); simpl; lia.
  - repeat (apply List.Forall_cons || apply List.Forall_nil); simpl; try lia;
      exact I.
Defined.

Lemma step_leaves_other_users_witness :
  get_user
    (db (step shop_admins ascii_only (send_cancel bob 50)
           (world_of (shop true) bob WAITING_DESCRIPTION draft_data))) 5
  = Some ann_row.
Proof.
  apply (step_leaves_other_users shop_admins ascii_only (send_cancel bob 50)
           (world_of (shop true) bob WAITING_DESCRIPTION draft_data) 5).
  simpl. lia.
Defined.

Lemma reachable_sessions_are_sound_witness :
  session_ok ORDER_PHONE
    (data_of
       (run shop_admins ascii_only
          [deliver ann 1 cmd_start; deliver ann 2 (Button cb_cart);
           deliver ann 3 (Button cb_checkout)]
          (initial_world (shop true))) 5).
Proof.
  apply (reachable_sessions_are_sound shop_admins ascii_only (shop true)
           [deliver ann 1 cmd_start; deliver ann 2 (Button cb_cart);
            deliver ann 3 (Button cb_checkout)] 5 ORDER_PHONE).
  vm_compute. reflexivity.
Defined.

Lemma catalogue_and_ledger_stay_checked_witness :
  Forall order_checked
    (orders
       (db (run shop_admins ascii_only
              ([deliver ann 1 cmd_start; deliver ann 2 (Button cb_cart)]
               ++ order_script ann 3 4 (str_of "+71234567890")
                    (str_of "Moscow, Lenina 1, apt 5") (str_of "ring twice"))
              (initial_world (shop true))))).
Proof.
  apply (catalogue_and_ledger_stay_checked shop_admins ascii_only (shop true)).
  - repeat (apply List.Forall_cons || apply List.Forall_nil);
      (split; [simpl; lia|split; [simpl; lia|vm_compute; reflexivity]]).
  - apply List.Forall_nil.
Defined.

Lemma non_admin_never_authors_witness :
  is_admin shop_admins
    (db (run shop_admins ascii_only
           [deliver ann 1 (Button cb_admin);
            deliver ann 2 (Button cb_add_product)]
           (world_of (shop true) ann MAIN_MENU empty_data))) 5 = false.
Proof.
  apply (non_admin_never_authors shop_admins ascii_only
           [deliver ann 1 (Button cb_admin);
            deliver ann 2 (Button cb_add_product)]
           (world_of (shop true) ann MAIN_MENU empty_data) 5).
  - vm_compute. reflexivity.
  - intros s Hs. vm_compute in Hs. injection Hs as <-. reflexivity.
Defined.

Lemma registration_resets_role_witness :
  is_admin shop_admins
    (db (step shop_admins ascii_only (send_cancel ann 50)
           (world_of (set_users (map (fun r => {| u_id := u_id r;
                          u_username := u_username r;
                          u_first_name := u_first_name r;
                          u_last_name := u_last_name r; u_phone := u_phone r;
                          u_is_admin := true;
                          u_created_at := u_created_at r |})) (shop true))
              ann CART_VIEW empty_data))) 5
  = false.
Proof.
  apply (registration_resets_role shop_admins ascii_only (send_cancel ann 50)).
  right. split; [|reflexivity]. eexists. vm_compute. reflexivity.
Defined.

Lemma authoring_script_saves_product_witness :
  map pr_name
    (products
       (db (run shop_admins ascii_only
              (authoring_script bob 60 61 (str_of " Bench ")
                 (str_of "A bench of pine") (str_of "1 500,50")
                 (str_of "Chairs") [str_of "f1"; str_of "f2"])
              (world_of (shop true) bob ADMIN_MENU empty_data))))
  = [str_of "Sofa"; str_of "Stool"; str_of "Chair"; str_of "Bench"].
Proof.
  pose proof (authoring_script_saves_product shop_admins ascii_only bob 60 61
                (str_of " Bench ") (str_of "A bench of pine")
                (str_of "1 500,50")
                (default fzero (parse_price ascii_only (str_of "1 500,50")))
                (str_of "Chairs") [str_of "f1"; str_of "f2"]
                (world_of (shop true) bob ADMIN_MENU empty_data)) as H.
  destruct H as (Hp & _).
  - vm_compute. reflexivity.
  - vm_compute. reflexivity.
  - vm_compute. lia.
  - vm_compute. lia.
  - vm_compute. reflexivity.
  - vm_compute. reflexivity.
  - rewrite Hp. vm_compute. reflexivity.
Defined.

Lemma order_script_commits_order_witness :
  exists o,
    orders
      (db (run shop_admins ascii_only
             (order_script ann 3 4 (str_of "+71234567890")
                (str_of "Moscow, Lenina 1, apt 5") (str_of "ring twice"))
             (world_of (shop true) ann CART_VIEW empty_data)))
    = [o]
    /\ Forall2 line_of_item (o_products o) ann_items
    /\ o_comment o = [].
Proof.
  pose proof (order_script_commits_order shop_admins ascii_only ann 3 4
                (str_of "+71234567890") (str_of "Moscow, Lenina 1, apt 5")
                (str_of "ring twice")
                {| product_id := 1; quantity := 1; product_name := str_of "Sofa";
                   product_price := float_of_int 1000 |}
                [{| product_id := 2; quantity := 2;
                    product_name := str_of "Stool";
                    product_price := float_of_int 500 |}]
                (world_of (shop true) ann CART_VIEW empty_data)) as H.
  destruct H as ((o & Ho & _ & _ & Hl & _ & _ & _ & Hc & _) & _).
  - vm_compute. reflexivity.
  - vm_compute. reflexivity.
  - vm_compute. lia.
  - vm_compute. lia.
  - exists o. split; [exact Ho|]. split; [exact Hl|exact Hc].
Defined.
